(** * banner_ledger.py: the banner ledger and its resolvers

    A shallow embedding of [banner_ledger.py]: the host and domain
    resolvers, the advertiser chooser and the [BannerLedger] class with its
    two lookup indexes, followed by the properties of the ledger that the
    specification states.

    Conventions of the embedding.
    - Python [str] is [string].  [Py.lower] and [Py.strip] map case and
      trim white space as [str.lower()] and [str.strip()] do on ASCII
      text; Python's own also map and trim characters outside ASCII, so
      the statements that say what a lower-cased or trimmed text is ask
      for ASCII text ([Py.is_ascii]).  [Optional[str]] is [option string];
      the source only ever tests such a value for truthiness, embedded as
      [truthy].
    - A row of the ledger is a Python [dict] from column names to text,
      embedded as a [gmap string string].  A cell that is absent reads as
      the empty text, as every read in the source goes through [.get] and
      [or].
    - [self.rows] is a [dict] whose iteration order (insertion order) is
      observable in the near-duplicate scan: an association list.  The two
      indexes are plain maps.
    - Calls into libraries (hashlib, PIL, imagehash, urllib, tldextract,
      os.environ, the clock) are the fields of the class [Externals].
    - A method returns the ledger it leaves behind together with its
      outcome, a value or a raised exception. *)

From stdpp Require Import base option gmap strings list sorting pretty.
From Stdlib Require Import ZArith Ascii String.

Open Scope string_scope.

(** ** Python text primitives *)

Module Py.

Definition truthy (s : string) : bool :=
  match s with "" => false | String _ _ => true end.

Definition opt_truthy (o : option string) : bool :=
  match o with Some s => truthy s | None => false end.

(** [a or b] on text *)
Definition or (a b : string) : string := if truthy a then a else b.

(** [a or b] on an [Optional[str]] *)
Definition opt_or (a : option string) (b : string) : string :=
  match a with Some s => or s b | None => b end.

(** every character is below 128: the text on which [lower] and [strip]
    below are [str.lower()] and [str.strip()] *)
Fixpoint is_ascii (s : string) : bool :=
  match s with
  | "" => true
  | String c r => (nat_of_ascii c <? 128)%nat && is_ascii r
  end.

Definition lower_ascii (c : ascii) : ascii :=
  let n := nat_of_ascii c in
  if (65 <=? n)%nat && (n <=? 90)%nat then ascii_of_nat (n + 32) else c.

Fixpoint lower (s : string) : string :=
  match s with
  | "" => ""
  | String c r => String (lower_ascii c) (lower r)
  end.

(** [str.isspace] on the ASCII range: TAB..CR, FS..US and the blank *)
Definition is_space (c : ascii) : bool :=
  let n := nat_of_ascii c in
  ((9 <=? n)%nat && (n <=? 13)%nat) || ((28 <=? n)%nat && (n <=? 32)%nat).

Fixpoint lstrip (s : string) : string :=
  match s with
  | "" => ""
  | String c r => if is_space c then lstrip r else s
  end.

Fixpoint rstrip (s : string) : string :=
  match s with
  | "" => ""
  | String c r =>
      match rstrip r with
      | "" => if is_space c then "" else String c ""
      | r' => String c r'
      end
  end.

Definition strip (s : string) : string := rstrip (lstrip s).

(** [s.split(sep)] for a one-character separator: never the empty list *)
Fixpoint split (sep : ascii) (s : string) : list string :=
  match s with
  | "" => [""]
  | String c r =>
      if Ascii.eqb c sep then "" :: split sep r
      else match split sep r with
           | h :: t => String c h :: t
           | [] => [String c ""]
           end
  end.

(** [sep.join(l)] *)
Fixpoint join (sep : string) (l : list string) : string :=
  match l with
  | [] => ""
  | [x] => x
  | x :: t => x +:+ sep +:+ join sep t
  end.

(** [sub in s] *)
Fixpoint contains (sub s : string) : bool :=
  String.prefix sub s
  || match s with "" => false | String _ r => contains sub r end.

Definition startswith (s pre : string) : bool := String.prefix pre s.

Definition endswith (s suf : string) : bool :=
  String.prefix (String.rev suf) (String.rev s).

(** [s.replace(a, b)] for one-character [a] and [b] *)
Fixpoint replace (a b : ascii) (s : string) : string :=
  match s with
  | "" => ""
  | String c r => String (if Ascii.eqb c a then b else c) (replace a b r)
  end.

(** [l[-2:]] *)
Definition last_two {A} (l : list A) : list A := drop (List.length l - 2) l.

(** [s[:n]] *)
Fixpoint take_str (n : nat) (s : string) : string :=
  match n, s with
  | S n', String c r => String c (take_str n' r)
  | _, _ => ""
  end.

End Py.

(** ** What the module gets from libraries and from its environment *)

Definition bytes := list Byte.byte.

Class Externals := {
  (** [hashlib.md5(b).hexdigest()] *)
  md5_hexdigest : bytes → string;
  (** [str(imagehash.phash(Image.open(io.BytesIO(b)).convert("RGB")))];
      [None] when PIL raises because the bytes are not an image it reads *)
  image_phash : bytes → option string;
  (** [imagehash.hex_to_hash(a) - imagehash.hex_to_hash(b)], the number of
      bits in which two hashes differ; [None] when the library raises:
      [ValueError] from [hex_to_hash] on a text that is no hexadecimal
      number, [TypeError] from the subtraction on hashes of two sizes *)
  hash_difference : string → string → option Z;
  (** [urlparse(u).netloc]; [None] when [urlparse] raises *)
  urlparse_netloc : string → option string;
  (** the [tldextract] module, [None] when its import failed; applied to a
      host it gives [(ext.domain, ext.suffix)] *)
  tldextract : option (string → string * string);
  (** the integer in [BANNER_LEDGER_PHASH_DIST], [None] when unset *)
  env_BANNER_LEDGER_PHASH_DIST : option Z;
  (** [os.getenv("PUBLIC_BASE_URL")] *)
  env_PUBLIC_BASE_URL : option string;
  (** [datetime.now().strftime("%Y-%m-%d")] at one reading of the clock.
      The source reads the clock anew in every call that is given no
      date, so two such calls may get two days: a statement that compares
      the dates of several calls asks for the date to be passed to them. *)
  now_ymd : string;
}.

(** ** Module constants *)

Definition LEDGER_FIELDS : list string :=
  [ "banner_id"; "site"; "first_seen_date"; "last_seen_date";
    "days_seen"; "seen_dates";
    "example_path"; "example_rel"; "example_url";
    "md5"; "phash"; "matches";
    "advertiser_host"; "advertiser_domain"; "source_host"; "iframe_host";
    "page_domain";
    "advertiser_hosts_all"; "advertiser_domains_all" ].

Definition AD_HOST_SKIP : gset string :=
  {[ "boost.mn"; "edge.boost.mn"; "exchange.boost.mn";
     "doubleclick.net"; "googlesyndication.com"; "adservice.google.com" ]}.

Section Resolvers.
Context `{Externals}.

Definition MAX_HASH_DISTANCE : Z := default 6%Z env_BANNER_LEDGER_PHASH_DIST.

Definition _today : string := now_ymd.

Definition _md5_short (b : bytes) : string := Py.take_str 10 (md5_hexdigest b).

(** [None] stands for the exception PIL raises *)
Definition _phash_hex (b : bytes) : option string := image_phash b.

Definition _host_from_url (url : option string) : string :=
  match url with
  | None => ""
  | Some u =>
      if negb (Py.truthy u) then ""
      else match urlparse_netloc u with
           | Some n => Py.lower n
           | None => ""
           end
  end.

Definition _host_from_hint (hint : option string) : string :=
  match hint with
  | None => ""
  | Some h =>
      if negb (Py.truthy h) then ""
      else
        let s := Py.lower (Py.strip h) in
        if negb (Py.truthy s) then ""
        else if Py.contains "://" s || Py.startswith s "//" then
          match urlparse_netloc (if Py.contains "://" s then s else "http:" +:+ s) with
          | Some n => Py.lower (Py.or n "")
          | None => s
          end
        else s
  end.

Definition _etld1_fallback (host : string) : string :=
  let parts := Py.split "." host in
  if (2 <=? List.length parts)%nat then Py.join "." (Py.last_two parts) else host.

Definition _etld1_from_host (host : string) : string :=
  if negb (Py.truthy host) then ""
  else
    match tldextract with
    | Some extract =>
        let '(domain, suffix) := extract host in
        if Py.truthy domain && Py.truthy suffix then domain +:+ "." +:+ suffix
        else _etld1_fallback host
    | None => _etld1_fallback host
    end.

Definition _public_url_from_rel (example_rel : string) : string :=
  let base := Py.strip (Py.opt_or env_PUBLIC_BASE_URL "") in
  if negb (Py.truthy base) || negb (Py.truthy example_rel) then ""
  else
    let base := if negb (Py.endswith base "/") then base +:+ "/" else base in
    base +:+ Py.replace "\" "/" example_rel.

(** The acceptance test shared by both candidates of [_choose_advertiser]:
    [etld1 and etld1 not in AD_HOST_SKIP and etld1 != page_dom] *)
Definition acceptable (etld1 page_dom : string) : bool :=
  Py.truthy etld1
  && bool_decide (etld1 ∉ AD_HOST_SKIP)
  && bool_decide (etld1 ≠ page_dom).

Definition _choose_advertiser (advertiser_hint click_url page_url : option string)
  : string * string :=
  let page_dom :=
    if Py.opt_truthy page_url then _etld1_from_host (_host_from_url page_url)
    else "" in
  let from_click :=
    let host := _host_from_url click_url in
    if Py.truthy host then
      let etld1 := _etld1_from_host host in
      if acceptable etld1 page_dom then (host, etld1) else ("", "")
    else ("", "") in
  let hint_host := _host_from_hint advertiser_hint in
  if Py.truthy hint_host then
    let etld1 := _etld1_from_host hint_host in
    if acceptable etld1 page_dom then (hint_host, etld1) else from_click
  else from_click.

End Resolvers.

(** ** The ledger *)

Inductive exn :=
  | DecodeError            (* PIL cannot read the bytes *)
  | KeyError (k : string)  (* [self.rows[bid]] on an absent key *)
  | ValueError             (* [DictWriter.writerow] on a row with a foreign column *)
  | HashError              (* [imagehash] on two texts it cannot compare *)
  | ReadError.             (* [open], the UTF-8 decoder or the csv reader *)

Inductive outcome (A : Type) :=
  | Return (a : A)
  | Raise (e : exn).
Arguments Return {A} a.
Arguments Raise {A} e.

Abbreviation Row := (gmap string string).

(** [row.get(k) or ""] *)
Definition Row_get (row : Row) (k : string) : string := default "" (row !! k).

(** [row.setdefault(k, v)] *)
Definition setdefault (row : Row) (k v : string) : Row :=
  match row !! k with Some _ => row | None => <[k:=v]> row end.

(** [for k in LEDGER_FIELDS: row.setdefault(k, "")] *)
Definition backfill (row : Row) : Row :=
  foldl (λ r k, setdefault r k "") row LEDGER_FIELDS.
Arguments backfill : simpl never.

(** [self.rows]: a dict in insertion order *)
Fixpoint rows_get (rs : list (string * Row)) (k : string) : option Row :=
  match rs with
  | [] => None
  | (k', r) :: t => if decide (k' = k) then Some r else rows_get t k
  end.

(** [rows[k] = r]: an existing key keeps its place, a fresh one goes last *)
Fixpoint rows_set (rs : list (string * Row)) (k : string) (r : Row)
  : list (string * Row) :=
  match rs with
  | [] => [(k, r)]
  | (k', r') :: t =>
      if decide (k' = k) then (k, r) :: t else (k', r') :: rows_set t k r
  end.

Record BannerLedger := {
  rows : list (string * Row);
  _by_md5 : gmap string string;
  _by_phash : gmap string string;
}.

(** The ledger file as [_load] meets it: missing, one that reading raises
    on, or one that is read, given by the rows [csv.DictReader] yields, as
    dicts of text cells (a cell that a short line leaves out counts as
    absent).  [save] is given the rows it writes; the csv module reads
    them back as they were written when no cell is longer than the
    reader's field limit, which the statements about a reload ask for
    ([cells_readable]). *)
Inductive Store :=
  | Missing                  (* [os.path.exists] is false *)
  | Undecodable              (* present; reading it raises *)
  | Table (t : list Row).    (* present; the dicts [csv.DictReader] yields *)

(** The keyword arguments of [observe_image]. *)
Record Observation := {
  example_path : string;
  example_rel : option string;
  seen_date : option string;
  click_url : option string;
  asset_url : option string;
  page_url : option string;
  iframe_src : option string;
  advertiser_hint : option string;
}.

(** [min(a, b)] and [max(a, b)] on text *)
Definition str_min (a b : string) : string := if String.ltb b a then b else a.
Definition str_max (a b : string) : string := if String.ltb a b then b else a.

(** [sorted(prev)] for a set of texts *)
Definition sorted (prev : gset string) : list string :=
  merge_sort String.le (elements prev).

Definition _add_unique (row : Row) (key value : string) : Row :=
  if negb (Py.truthy value) then row
  else
    let cur := Row_get row key in
    let parts := List.filter Py.truthy (Py.split ";" cur) in
    let parts := if bool_decide (value ∈ parts) then parts else (parts ++ [value])%list in
    <[key := Py.join ";" parts]> row.

Definition empty_ledger : BannerLedger :=
  {| rows := []; _by_md5 := ∅; _by_phash := ∅ |}.

Section Ledger.
Context `{Externals}.

(** One row of the file, in [_load]'s loop. *)
Definition load_row (L : BannerLedger) (row : Row) : BannerLedger :=
  let bid := Row_get row "banner_id" in
  if negb (Py.truthy bid) then L
  else
    let row := backfill row in
    {| rows := rows_set (rows L) bid row;
       _by_md5 :=
         if Py.truthy (Row_get row "md5")
         then <[Row_get row "md5" := bid]> (_by_md5 L) else _by_md5 L;
       _by_phash :=
         if Py.truthy (Row_get row "phash")
         then <[Row_get row "phash" := bid]> (_by_phash L) else _by_phash L |}.

(** [_load] has no handler: what reading raises leaves the method. *)
Definition _load (L : BannerLedger) (file : Store) : BannerLedger * outcome unit :=
  match file with
  | Missing => (L, Return ())
  | Undecodable => (L, Raise ReadError)
  | Table t => (foldl load_row L t, Return ())
  end.

(** [BannerLedger(csv_path)], with the file found at [csv_path] *)
Definition __init__ (file : Store) : outcome BannerLedger :=
  match _load empty_ledger file with
  | (L, Return _) => Return L
  | (_, Raise e) => Raise e
  end.

Definition _alloc_banner_id (md5_short : string) : string := "bn_" +:+ md5_short.

(** [None] stands for the exception [imagehash] raises *)
Definition _phash_dist (a_hex b_hex : string) : option Z :=
  hash_difference a_hex b_hex.

(** The body of the scan loop of [_find_by_phash_near]; [None] when
    [_phash_dist] raises, which ends the loop and the call. *)
Definition near_step (phash_hex : string) (best : option string * Z)
    (item : string * Row) : option (option string * Z) :=
  let '(best_id, best_dist) := best in
  let '(bid, row) := item in
  let rph := Row_get row "phash" in
  if negb (Py.truthy rph) then Some best
  else
    match _phash_dist phash_hex rph with
    | None => None
    | Some d => if (d <? best_dist)%Z then Some (Some bid, d) else Some best
    end.

(** The loop over [self.rows.items()], from the pair [best]. *)
Fixpoint scan_from (phash_hex : string) (best : option string * Z)
    (rs : list (string * Row)) : option (option string * Z) :=
  match rs with
  | [] => Some best
  | item :: t =>
      match near_step phash_hex best item with
      | None => None
      | Some best' => scan_from phash_hex best' t
      end
  end.

Definition near_scan (phash_hex : string) (rs : list (string * Row))
  : option (option string * Z) :=
  scan_from phash_hex (None, (10 ^ 9)%Z) rs.

(** The scan has no handler: what [imagehash] raises leaves the method. *)
Definition _find_by_phash_near (L : BannerLedger) (phash_hex : string)
  : outcome (option string) :=
  match _by_phash L !! phash_hex with
  | Some b => Return (Some b)
  | None =>
      match near_scan phash_hex (rows L) with
      | None => Raise HashError
      | Some (best_id, best_dist) =>
          Return
            match best_id with
            | Some b =>
                if Py.truthy b && (best_dist <=? MAX_HASH_DISTANCE)%Z
                then Some b else None
            | None => None
            end
      end
  end.

(** The dict literal of the "new" branch. *)
Definition new_row (bid site seen_date : string) (o : Observation)
    (md5s ph mtype : string) : Row :=
  list_to_map
    [ ("banner_id", bid); ("site", site);
      ("first_seen_date", seen_date); ("last_seen_date", seen_date);
      ("days_seen", "1"); ("seen_dates", seen_date);
      ("example_path", example_path o);
      ("example_rel", Py.opt_or (example_rel o) ""); ("example_url", "");
      ("md5", md5s); ("phash", ph); ("matches", mtype);
      ("advertiser_host", ""); ("advertiser_domain", "");
      ("source_host", ""); ("iframe_host", ""); ("page_domain", "");
      ("advertiser_hosts_all", ""); ("advertiser_domains_all", "") ].

(** Which record an observation goes to: [(bid, mtype)] and the rows, to
    which the "new" branch has added its record; or the exception of the
    scan, raised before anything is written. *)
Definition classify (L : BannerLedger) (site seen_date : string)
    (o : Observation) (md5s ph : string)
  : outcome (string * string * list (string * Row)) :=
  match _by_md5 L !! md5s with
  | Some b => Return (b, "exact", rows L)
  | None =>
      let fresh :=
        let bid := _alloc_banner_id md5s in
        (bid, "new",
         rows_set (rows L) bid (new_row bid site seen_date o md5s ph "new")) in
      match _find_by_phash_near L ph with
      | Raise e => Raise e
      | Return (Some near_id) =>
          Return (if Py.truthy near_id then (near_id, "near", rows L) else fresh)
      | Return None => Return fresh
      end
  end.

(** The dates block. *)
Definition merge_dates (row : Row) (seen_date : string) : Row :=
  let row :=
    <["first_seen_date" :=
        str_min (Py.or (Row_get row "first_seen_date") seen_date) seen_date]> row in
  let row :=
    <["last_seen_date" :=
        str_max (Py.or (Row_get row "last_seen_date") seen_date) seen_date]> row in
  let prev : gset string :=
    list_to_set (List.filter Py.truthy (Py.split ";" (Row_get row "seen_dates"))) in
  let prev := prev ∪ {[ seen_date ]} in
  let row := <["seen_dates" := Py.join ";" (sorted prev)]> row in
  <["days_seen" := pretty (size prev)]> row.

(** The example, attribution and host blocks. *)
Definition merge_context (row : Row) (o : Observation) : Row :=
  let row :=
    if negb (Py.truthy (Row_get row "example_path"))
    then <["example_path" := example_path o]> row else row in
  let row :=
    if Py.opt_truthy (example_rel o) then
      let rel := Py.opt_or (example_rel o) "" in
      <["example_url" := _public_url_from_rel rel]> (<["example_rel" := rel]> row)
    else row in
  let '(adv_host, adv_domain) :=
    _choose_advertiser (advertiser_hint o) (click_url o) (page_url o) in
  let row :=
    if Py.truthy adv_host then <["advertiser_host" := adv_host]> row else row in
  let row :=
    if Py.truthy adv_domain then <["advertiser_domain" := adv_domain]> row else row in
  let row := _add_unique row "advertiser_hosts_all" adv_host in
  let row := _add_unique row "advertiser_domains_all" adv_domain in
  let src_host := _host_from_url (asset_url o) in
  let row :=
    if Py.truthy src_host && negb (Py.truthy (Row_get row "source_host"))
    then <["source_host" := src_host]> row else row in
  let row :=
    if Py.opt_truthy (iframe_src o) then
      let ifh := _host_from_url (iframe_src o) in
      if Py.truthy ifh && negb (Py.truthy (Row_get row "iframe_host"))
      then <["iframe_host" := ifh]> row else row
    else row in
  let pg_host := _host_from_url (page_url o) in
  let pg_dom := if Py.truthy pg_host then _etld1_from_host pg_host else "" in
  if Py.truthy pg_dom && negb (Py.truthy (Row_get row "page_domain"))
  then <["page_domain" := pg_dom]> row else row.

(** Everything [observe_image] does to the selected row. *)
Definition merge_row (row : Row) (site seen_date : string) (o : Observation)
    (md5s ph mtype : string) : Row :=
  let row := <["site" := Py.or (Row_get row "site") site]> row in
  let row := merge_dates row seen_date in
  let row := merge_context row o in
  let row := <["md5" := md5s]> row in
  let row := <["phash" := ph]> row in
  <["matches" := mtype]> row.

Definition observe_image (L : BannerLedger) (img_bytes : bytes) (site : string)
    (o : Observation) : BannerLedger * outcome (string * string) :=
  let seen_date := Py.opt_or (seen_date o) _today in
  let md5s := _md5_short img_bytes in
  match _phash_hex img_bytes with
  | None => (L, Raise DecodeError)
  | Some ph =>
      match classify L site seen_date o md5s ph with
      | Raise e => (L, Raise e)
      | Return (bid, mtype, rows1) =>
          match rows_get rows1 bid with
          | None =>
              ({| rows := rows1; _by_md5 := _by_md5 L;
                  _by_phash := _by_phash L |},
               Raise (KeyError bid))
          | Some row =>
              let row := merge_row row site seen_date o md5s ph mtype in
              ({| rows := rows_set rows1 bid row;
                  _by_md5 := <[md5s := bid]> (_by_md5 L);
                  _by_phash := <[ph := bid]> (_by_phash L) |},
               Return (bid, mtype))
          end
      end
  end.

(** The loop of [save]: each row is backfilled in place, then written;
    [writerow] refuses a row with a column outside [LEDGER_FIELDS].
    [written] is what the file holds so far. *)
Fixpoint save_rows (rs : list (string * Row)) (written : list Row)
  : list (string * Row) * list Row * outcome unit :=
  match rs with
  | [] => ([], written, Return ())
  | (k, row) :: t =>
      let row := backfill row in
      if bool_decide (dom row ⊆ list_to_set LEDGER_FIELDS) then
        let '(t', w, out) := save_rows t (written ++ [row])%list in
        ((k, row) :: t', w, out)
      else ((k, row) :: t, written, Raise ValueError)
  end.

(** [save], on a destination that can be written: the ledger after the
    call, the file after the call and the outcome. *)
Definition save (L : BannerLedger) : BannerLedger * Store * outcome unit :=
  let '(rs, written, out) := save_rows (rows L) [] in
  ({| rows := rs; _by_md5 := _by_md5 L; _by_phash := _by_phash L |},
   Table written, out).

End Ledger.

(** ** Properties stated by the specification *)

Section Properties.
Context `{Externals}.

(** *** Resolvers *)

(** Dropping a final [:port] from a network location. *)
Definition is_digit (c : ascii) : bool :=
  let n := nat_of_ascii c in (48 <=? n)%nat && (n <=? 57)%nat.

Fixpoint all_digits (s : string) : bool :=
  match s with
  | "" => true
  | String c r => is_digit c && all_digits r
  end.

Definition strip_port (netloc : string) : string :=
  match reverse (Py.split ":" netloc) with
  | port :: host_parts =>
      match host_parts with
      | [] => netloc
      | _ :: _ =>
          if all_digits port then Py.join ":" (reverse host_parts) else netloc
      end
  | [] => netloc
  end.

(** [host_of] as the specification words it: the host without its port,
    lower-cased, and the empty text when there is nothing to parse. *)
Definition host_of_spec (url : option string) : string :=
  match url with
  | None => ""
  | Some u =>
      match urlparse_netloc u with
      | Some n => if Py.truthy u then Py.lower (strip_port n) else ""
      | None => ""
      end
  end.

(** [choose_advertiser] as the specification words it. *)
Definition accepted (host : string) (page_url : option string) : Prop :=
  let domain := _etld1_from_host host in
  domain ≠ "" ∧ (domain ∉ AD_HOST_SKIP)
  ∧ domain ≠ _etld1_from_host (_host_from_url page_url).

Definition choose_advertiser_spec (hint click_url page_url : option string)
  : string * string :=
  let hint_host := _host_from_hint hint in
  let click_host := _host_from_url click_url in
  if decide (accepted hint_host page_url)
  then (hint_host, _etld1_from_host hint_host)
  else if decide (accepted click_host page_url)
  then (click_host, _etld1_from_host click_host)
  else ("", "").

(** *** Ledger states *)

(** Every index entry names a record that exists, and no record is filed
    under the empty id: what [_load] and [observe_image] maintain, and what
    keeps [self.rows[bid]] from raising. *)
Definition index_sound (L : BannerLedger) : Prop :=
  (∀ k b, _by_md5 L !! k = Some b → is_Some (rows_get (rows L) b))
  ∧ (∀ k b, _by_phash L !! k = Some b → is_Some (rows_get (rows L) b))
  ∧ rows_get (rows L) "" = None.

(** The scanned records: those with a similarity hash. *)
Definition hashed (item : string * Row) : Prop :=
  Py.truthy (Row_get item.2 "phash") = true.

(** The distance of a record's hash from [ph], when [imagehash] gives
    one. *)
Definition dist_to (ph : string) (item : string * Row) : option Z :=
  _phash_dist ph (Row_get item.2 "phash").

(** [imagehash] compares [ph] with the hash of every scanned record. *)
Definition hashes_comparable (ph : string) (rs : list (string * Row)) : Prop :=
  ∀ it, it ∈ rs → hashed it → is_Some (dist_to ph it).

(** [bid] is the first record of [rs], in order, at the least distance [d]
    from [ph]. *)
Definition first_nearest (ph : string) (rs : list (string * Row))
    (bid : string) (d : Z) : Prop :=
  ∃ pre row post,
    rs = (pre ++ ((bid, row) :: post))%list
    ∧ hashed (bid, row) ∧ dist_to ph (bid, row) = Some d
    ∧ (∀ it, it ∈ pre → hashed it →
         ∃ d', dist_to ph it = Some d' ∧ (d < d')%Z)
    ∧ (∀ it, it ∈ post → hashed it →
         ∃ d', dist_to ph it = Some d' ∧ (d ≤ d')%Z).

(** No scanned record is within the threshold. *)
Definition none_near (ph : string) (rs : list (string * Row)) : Prop :=
  ∀ it, it ∈ rs → hashed it →
    ∃ d', dist_to ph it = Some d' ∧ (MAX_HASH_DISTANCE < d')%Z.

(** Each record's current fingerprints are indexed to the record. *)
Definition indexes_point_back (L : BannerLedger) : Prop :=
  ∀ bid row, rows_get (rows L) bid = Some row →
    _by_md5 L !! Row_get row "md5" = Some bid
    ∧ _by_phash L !! Row_get row "phash" = Some bid.

(** Among the images [seen], the ones a run observes, two readable images
    of one digest have one similarity hash.  Nothing is asked of the images
    a run never meets, nor of the ones PIL cannot read. *)
Definition digest_determines_hash (seen : bytes → Prop) : Prop :=
  ∀ b1 b2 ph1 ph2,
    seen b1 → seen b2 → _md5_short b1 = _md5_short b2 →
    _phash_hex b1 = Some ph1 → _phash_hex b2 = Some ph2 → ph1 = ph2.

(** The hash of an image of the run whose digest is indexed is indexed to
    the same record. *)
Definition indexes_agree (seen : bytes → Prop) (L : BannerLedger) : Prop :=
  ∀ img bid ph,
    seen img →
    _by_md5 L !! _md5_short img = Some bid → _phash_hex img = Some ph →
    _by_phash L !! ph = Some bid.

Definition coherent (seen : bytes → Prop) (L : BannerLedger) : Prop :=
  index_sound L ∧ indexes_point_back L ∧ indexes_agree seen L.

(** A run of observations; one that raises leaves the ledger where the
    exception found it, and the caller goes on. *)
Definition observe_all (L : BannerLedger)
    (obs : list (bytes * string * Observation)) : BannerLedger :=
  foldl (λ L ob, (observe_image L ob.1.1 ob.1.2 ob.2).1) L obs.

(** The cell [k] of the record [bid], when there is such a record. *)
Definition ledger_cell (L : BannerLedger) (bid k : string) : option string :=
  (λ row, Row_get row k) <$> rows_get (rows L) bid.

(** The dates a [seen_dates] cell holds. *)
Definition parse_dates (cell : string) : gset string :=
  list_to_set (List.filter Py.truthy (Py.split ";" cell)).

Definition no_semicolon (s : string) : Prop := Py.contains ";" s = false.

(** A date as [strftime("%Y-%m-%d")] writes it and as the scrapers pass
    it: four digits, two digits and two digits, with [-] in between. *)
Definition is_ymd (s : string) : bool :=
  match s with
  | String y1 (String y2 (String y3 (String y4 (String h1
      (String m1 (String m2 (String h2 (String d1 (String d2 ""))))))))) =>
      is_digit y1 && is_digit y2 && is_digit y3 && is_digit y4
      && Ascii.eqb h1 "-" && is_digit m1 && is_digit m2
      && Ascii.eqb h2 "-" && is_digit d1 && is_digit d2
  | _ => false
  end.

(** A [seen_dates] cell that lists its dates in order, each once. *)
Definition sorted_dedup (cell : string) : Prop :=
  StronglySorted String.le (Py.split ";" cell) ∧ NoDup (Py.split ";" cell).

(** The set of dates [merge_dates] works with. *)
Definition dates_after (row : Row) (date : string) : gset string :=
  parse_dates (Row_get row "seen_dates") ∪ {[ date ]}.

(** The date an observation counts for. *)
Definition effective_date (o : Observation) : string :=
  Py.opt_or (seen_date o) _today.

(** A row as [observe_image] makes it and [save] writes it: filed under its
    own [banner_id], which is not empty, with the columns of
    [LEDGER_FIELDS] and no other. *)
Definition full_row (bid : string) (row : Row) : Prop :=
  bid ≠ "" ∧ row !! "banner_id" = Some bid
  ∧ dom row = list_to_set LEDGER_FIELDS.

(** The columns of a row are those of [LEDGER_FIELDS]; a write to one of
    them leaves it so. *)
Definition has_fields (row : Row) : Prop := dom row = list_to_set LEDGER_FIELDS.

#[global] Instance full_row_dec bid row : Decision (full_row bid row).
Proof. unfold full_row. apply _. Defined.

Definition rows_filed (L : BannerLedger) : Prop :=
  NoDup (rows L).*1 ∧ Forall (λ it, full_row it.1 it.2) (rows L).

#[global] Instance rows_filed_dec L : Decision (rows_filed L).
Proof. unfold rows_filed. apply _. Defined.

(** The longest field [csv.reader] accepts, [csv.field_size_limit()]; a
    longer one makes it raise. *)
Definition FIELD_SIZE_LIMIT : N := 131072%N.

(** No cell of the ledger is longer than the reader accepts. *)
Definition cells_readable (L : BannerLedger) : Prop :=
  Forall (λ it : string * Row,
            map_Forall (λ _ v, (N.of_nat (String.length v) ≤ FIELD_SIZE_LIMIT)%N)
              it.2)
    (rows L).

(** The index [_load] builds on top of [m] from rows in file order: each
    row's cell [key], when it is not empty, is mapped to the row's id. *)
Definition index_rows (key : string) (m : gmap string string)
    (rs : list (string * Row)) : gmap string string :=
  foldl (λ m it, if Py.truthy (Row_get it.2 key)
                 then <[Row_get it.2 key := it.1]> m else m) m rs.

Definition current_index (key : string) (rs : list (string * Row))
  : gmap string string := index_rows key ∅ rs.

(** Each record's fingerprints are those of one image of the run. *)
Definition rows_fingerprinted (seen : bytes → Prop) (L : BannerLedger) : Prop :=
  ∀ bid row, rows_get (rows L) bid = Some row →
    ∃ img, seen img ∧ _md5_short img = Row_get row "md5"
           ∧ _phash_hex img = Some (Row_get row "phash").

(** The fingerprints of a readable image of the run are not empty texts. *)
Definition fingerprints_nonempty (seen : bytes → Prop) : Prop :=
  ∀ img ph, seen img → _phash_hex img = Some ph →
    _md5_short img ≠ "" ∧ ph ≠ "".

(** The ledgers a deployment goes through when it starts without a file
    and observes images among [seen]: observations, whether they return or
    raise, and saving followed by a fresh start from the saved file. *)
Inductive reachable (seen : bytes → Prop) : BannerLedger → Prop :=
  | reach_empty : reachable seen empty_ledger
  | reach_observe L img site o :
      seen img → reachable seen L →
      reachable seen (observe_image L img site o).1
  | reach_save L :
      reachable seen L → reachable seen (save L).1.1
  | reach_reload L L2 :
      reachable seen L → (save L).2 = Return () →
      __init__ (save L).1.2 = Return L2 → reachable seen L2.

(** What every reachable ledger turns out to be. *)
Definition settled (seen : bytes → Prop) (L : BannerLedger) : Prop :=
  coherent seen L ∧ rows_filed L ∧ rows_fingerprinted seen L.

(** The three ways [classify] ends when it returns. *)
Inductive classified (L : BannerLedger) (site date : string) (o : Observation)
    (md5s ph : string) : string → string → list (string * Row) → Prop :=
  | classified_exact bid :
      _by_md5 L !! md5s = Some bid →
      classified L site date o md5s ph bid "exact" (rows L)
  | classified_near bid :
      _by_md5 L !! md5s = None →
      _find_by_phash_near L ph = Return (Some bid) → bid ≠ "" →
      classified L site date o md5s ph bid "near" (rows L)
  | classified_new :
      _by_md5 L !! md5s = None →
      (∀ b, _find_by_phash_near L ph = Return (Some b) → b = "") →
      (∃ r, _find_by_phash_near L ph = Return r) →
      classified L site date o md5s ph (_alloc_banner_id md5s) "new"
        (rows_set (rows L) (_alloc_banner_id md5s)
           (new_row (_alloc_banner_id md5s) site date o md5s ph "new")).

(** The columns [merge_context] may write. *)
Definition context_columns : list string :=
  [ "example_path"; "example_rel"; "example_url";
    "advertiser_host"; "advertiser_domain";
    "advertiser_hosts_all"; "advertiser_domains_all";
    "source_host"; "iframe_host"; "page_domain" ].

End Properties.

(** ** A laboratory instance of the libraries

    Small stand-ins on which the definitions above run: the digest of an
    image is its own text, its similarity hash shows its first byte, the
    distance of two hashes is the number of bits that differ, and a URL is
    split the way [urllib.parse.urlsplit] splits plain ASCII text. *)

Module Lab.

Definition hexdigit (n : N) : ascii :=
  match String.get (N.to_nat n) "0123456789abcdef" with
  | Some c => c
  | None => "0"%char
  end.

Definition hex2 (x : Byte.byte) : string :=
  let n := Byte.to_N x in
  String (hexdigit (n / 16)%N) (String (hexdigit (n mod 16)%N) "").

Definition hexval (c : ascii) : N :=
  let n := N_of_ascii c in
  if (48 <=? n)%N && (n <=? 57)%N then (n - 48)%N
  else if (97 <=? n)%N && (n <=? 102)%N then (n - 87)%N
  else 0%N.

Definition popcount4 (n : N) : Z :=
  (Z.b2z (N.testbit n 0) + Z.b2z (N.testbit n 1)
   + Z.b2z (N.testbit n 2) + Z.b2z (N.testbit n 3))%Z.

Fixpoint hamming (a b : string) : Z :=
  match a, b with
  | String x a', String y b' =>
      (popcount4 (N.lxor (hexval x) (hexval y)) + hamming a' b')%Z
  | _, _ => 0%Z
  end.

Fixpoint hex_text (s : string) : bool :=
  match s with
  | "" => true
  | String c r =>
      let n := N_of_ascii c in
      (((48 <=? n)%N && (n <=? 57)%N) || ((97 <=? n)%N && (n <=? 102)%N))
      && hex_text r
  end.

(** The distance, refused as [imagehash] refuses it: for a text that is no
    hexadecimal number and for two texts of different lengths. *)
Definition difference (a b : string) : option Z :=
  if Py.truthy a && hex_text a && hex_text b
     && (String.length a =? String.length b)%nat
  then Some (hamming a b) else None.

Definition phash_of (b : bytes) : option string :=
  match b with
  | [] => None
  | x :: _ => Some ("00000000000000" +:+ hex2 x)
  end.

Definition is_alpha (c : ascii) : bool :=
  let n := nat_of_ascii c in
  ((65 <=? n)%nat && (n <=? 90)%nat) || ((97 <=? n)%nat && (n <=? 122)%nat).

Definition is_scheme_char (c : ascii) : bool :=
  is_alpha c || is_digit c
  || Ascii.eqb c "+" || Ascii.eqb c "-" || Ascii.eqb c ".".

Fixpoint all_chars (p : ascii → bool) (s : string) : bool :=
  match s with
  | "" => true
  | String c r => p c && all_chars p r
  end.

(** The text before the first [:] and the text after it. *)
Fixpoint cut_colon (s : string) : option (string * string) :=
  match s with
  | "" => None
  | String c r =>
      if Ascii.eqb c ":" then Some ("", r)
      else match cut_colon r with
           | Some (a, b) => Some (String c a, b)
           | None => None
           end
  end.

Definition after_scheme (url : string) : string :=
  match cut_colon url with
  | Some (String c0 pre, rest) =>
      if is_alpha c0 && all_chars is_scheme_char pre then rest else url
  | _ => url
  end.

Fixpoint upto_delim (s : string) : string :=
  match s with
  | "" => ""
  | String c r =>
      if Ascii.eqb c "/" || Ascii.eqb c "?" || Ascii.eqb c "#" then ""
      else String c (upto_delim r)
  end.

Definition netloc (url : string) : option string :=
  match after_scheme url with
  | String "/" (String "/" r) =>
      let n := upto_delim r in
      if (Py.contains "[" n && negb (Py.contains "]" n))
         || (Py.contains "]" n && negb (Py.contains "[" n))
      then None else Some n
  | _ => Some ""
  end.

Definition lab : Externals :=
  {| md5_hexdigest := string_of_list_byte;
     image_phash := phash_of;
     hash_difference := difference;
     urlparse_netloc := netloc;
     tldextract := None;
     env_BANNER_LEDGER_PHASH_DIST := None;
     env_PUBLIC_BASE_URL := None;
     now_ymd := "2024-01-01" |}.

(** The same, except that the similarity hash shows the last byte of the
    image: images that agree on their first ten bytes then share a digest
    and may differ in their hash. *)
Definition phash_of_last (b : bytes) : option string := phash_of (reverse b).

Definition lab_colliding : Externals :=
  {| md5_hexdigest := string_of_list_byte;
     image_phash := phash_of_last;
     hash_difference := difference;
     urlparse_netloc := netloc;
     tldextract := None;
     env_BANNER_LEDGER_PHASH_DIST := None;
     env_PUBLIC_BASE_URL := None;
     now_ymd := "2024-01-01" |}.

Definition image (text : string) : bytes := list_byte_of_string text.

Definition plain (date : string) : Observation :=
  {| example_path := "out/a.png"; example_rel := None;
     seen_date := Some date; click_url := None; asset_url := None;
     page_url := None; iframe_src := None; advertiser_hint := None |}.

(** A ledger that has seen one image, and the same ledger after a close
    variant of that image has been merged into its record. *)
Definition seen_A : BannerLedger :=
  (@observe_image lab empty_ledger (image "A-one") "s1" (plain "2024-01-01")).1.

Definition seen_AC : BannerLedger :=
  (@observe_image lab seen_A (image "C-two") "s1" (plain "2024-01-02")).1.

(** The images of that run. *)
Definition observed (b : bytes) : Prop :=
  b = image "A-one" ∨ b = image "C-two".

(** What a fresh start from the file [seen_AC] saves holds. *)
Definition reloaded_AC : BannerLedger :=
  match __init__ (save seen_AC).1.2 with
  | Return L => L
  | Raise _ => empty_ledger
  end.

(** A file in which two rows carry the same digest. *)
Definition twin_a : Row :=
  list_to_map [("banner_id", "bn_a"); ("md5", "aaaaaaaaaa");
               ("phash", "0000000000000041")].

Definition twin_b : Row :=
  list_to_map [("banner_id", "bn_b"); ("md5", "aaaaaaaaaa");
               ("phash", "0000000000000041")].

Definition twin_file : Store := Table [twin_a; twin_b].

(** A file with a row whose hash is no hexadecimal number, and the ledger
    loaded from it after one observation that matches the other row. *)
Definition odd_row : Row :=
  list_to_map [("banner_id", "bn_z"); ("md5", "zzzzzzzzzz"); ("phash", "zz")].

Definition odd_file : Store := Table [twin_a; odd_row].

Definition odd_seen : BannerLedger :=
  @observe_all lab (foldl load_row empty_ledger [twin_a; odd_row])
    [(image "aaaaaaaaaa", "s1", plain "2024-01-01")].

End Lab.

(** ** Further definitions: the merge, block by block

    [merge_context] is the composition of the blocks below (see
    [merge_context_blocks]); each block is the source text of one group of
    statements of [observe_image]. *)

(** The entries of a semicolon-joined cell:
    [[p for p in cur.split(";") if p]] *)
Definition entries (cell : string) : list string :=
  List.filter Py.truthy (Py.split ";" cell).

(** How the attribution block treats a resolved value [v]: an empty one
    changes neither the best attribution nor the list of all attributions;
    another one becomes the best attribution and, when it holds no
    semicolon, is listed after the earlier entries unless it is one. *)
Definition merged_attribution (v best all best' all' : string) : Prop :=
  (v = "" → best' = best ∧ all' = all)
  ∧ (v ≠ "" →
     best' = v
     ∧ (Py.contains ";" v = false →
        entries all'
        = if decide (v ∈ entries all) then entries all
          else (entries all ++ [v])%list)).

(** The columns [observe_image] fills once and then leaves alone. *)
Definition first_wins_columns : list string :=
  [ "site"; "example_path"; "source_host"; "iframe_host"; "page_domain" ].

Section MergeBlocks.
Context `{Externals}.

(** [if not row.get("example_path"): ...; if example_rel: ...] *)
Definition merge_example (row : Row) (o : Observation) : Row :=
  let row :=
    if negb (Py.truthy (Row_get row "example_path"))
    then <["example_path" := example_path o]> row else row in
  if Py.opt_truthy (example_rel o) then
    let rel := Py.opt_or (example_rel o) "" in
    <["example_url" := _public_url_from_rel rel]> (<["example_rel" := rel]> row)
  else row.

(** The attribution block, for the pair [_choose_advertiser] returned. *)
Definition merge_attribution (row : Row) (adv_host adv_domain : string) : Row :=
  let row :=
    if Py.truthy adv_host then <["advertiser_host" := adv_host]> row else row in
  let row :=
    if Py.truthy adv_domain then <["advertiser_domain" := adv_domain]> row else row in
  let row := _add_unique row "advertiser_hosts_all" adv_host in
  _add_unique row "advertiser_domains_all" adv_domain.

(** [if src_host and not row.get("source_host"): ...] *)
Definition merge_source (row : Row) (o : Observation) : Row :=
  let src_host := _host_from_url (asset_url o) in
  if Py.truthy src_host && negb (Py.truthy (Row_get row "source_host"))
  then <["source_host" := src_host]> row else row.

(** [if iframe_src: ...] *)
Definition merge_iframe (row : Row) (o : Observation) : Row :=
  if Py.opt_truthy (iframe_src o) then
    let ifh := _host_from_url (iframe_src o) in
    if Py.truthy ifh && negb (Py.truthy (Row_get row "iframe_host"))
    then <["iframe_host" := ifh]> row else row
  else row.

(** [if pg_dom and not row.get("page_domain"): ...] *)
Definition merge_page (row : Row) (o : Observation) : Row :=
  let pg_host := _host_from_url (page_url o) in
  let pg_dom := if Py.truthy pg_host then _etld1_from_host pg_host else "" in
  if Py.truthy pg_dom && negb (Py.truthy (Row_get row "page_domain"))
  then <["page_domain" := pg_dom]> row else row.

(** The attribution an observation resolves to. *)
Definition attribution (o : Observation) : string * string :=
  _choose_advertiser (advertiser_hint o) (click_url o) (page_url o).

End MergeBlocks.

(** Every column of [LEDGER_FIELDS] is a key of every record: what the
    scrapers rely on when they read [ledger.rows[banner_id]['advertiser_host']]
    and the like after [observe_image]. *)
Definition present (row : Row) : Prop :=
  ∀ k, k ∈ LEDGER_FIELDS → is_Some (row !! k).

Definition columns_present (L : BannerLedger) : Prop :=
  ∀ bid row, rows_get (rows L) bid = Some row → present row.

(** What one merge makes of the cell of a column, as a function of what
    the cell held: the columns of a record do not depend on one another,
    but for [days_seen], which counts [seen_dates]. *)
Definition add_entry (cell value : string) : string :=
  if Py.truthy value then
    Py.join ";" (if bool_decide (value ∈ entries cell) then entries cell
                 else (entries cell ++ [value])%list)
  else cell.

Section CellSteps.
Context `{Externals}.

Definition cell_after (site date : string) (o : Observation)
    (md5s ph : string) (k old : string) : string :=
  if decide (k = "site") then Py.or old site
  else if decide (k = "first_seen_date") then str_min (Py.or old date) date
  else if decide (k = "last_seen_date") then str_max (Py.or old date) date
  else if decide (k = "seen_dates")
  then Py.join ";" (sorted (parse_dates old ∪ {[ date ]}))
  else if decide (k = "example_path")
  then (if Py.truthy old then old else example_path o)
  else if decide (k = "example_rel")
  then (if Py.opt_truthy (example_rel o)
        then Py.opt_or (example_rel o) "" else old)
  else if decide (k = "example_url")
  then (if Py.opt_truthy (example_rel o)
        then _public_url_from_rel (Py.opt_or (example_rel o) "") else old)
  else if decide (k = "advertiser_host")
  then (if Py.truthy (attribution o).1 then (attribution o).1 else old)
  else if decide (k = "advertiser_domain")
  then (if Py.truthy (attribution o).2 then (attribution o).2 else old)
  else if decide (k = "advertiser_hosts_all")
  then add_entry old (attribution o).1
  else if decide (k = "advertiser_domains_all")
  then add_entry old (attribution o).2
  else if decide (k = "source_host")
  then (if Py.truthy (_host_from_url (asset_url o)) && negb (Py.truthy old)
        then _host_from_url (asset_url o) else old)
  else if decide (k = "iframe_host")
  then (if Py.opt_truthy (iframe_src o)
        then (if Py.truthy (_host_from_url (iframe_src o))
                 && negb (Py.truthy old)
              then _host_from_url (iframe_src o) else old)
        else old)
  else if decide (k = "page_domain")
  then (let pg_host := _host_from_url (page_url o) in
        let pg_dom :=
          if Py.truthy pg_host then _etld1_from_host pg_host else "" in
        if Py.truthy pg_dom && negb (Py.truthy old) then pg_dom else old)
  else if decide (k = "md5") then md5s
  else if decide (k = "phash") then ph
  else old.

End CellSteps.

(** ** The scrapers' own resolvers

    [ikon_mn.py] and [gogo_mn.py] resolve hosts and domains themselves
    before they call the ledger.  Their helpers that are plain functions of
    text are embedded here, next to the ledger's. *)

Module Ikon.
Section Ikon.
Context `{Externals}.

Definition _host (u : string) : string :=
  match urlparse_netloc u with
  | Some n => Py.lower n
  | None => ""
  end.

Definition _etld1_naive (host : string) : string :=
  if negb (Py.truthy host) then ""
  else
    let parts := Py.split "." host in
    if (2 <=? List.length parts)%nat then Py.join "." (Py.last_two parts)
    else host.

(** The loop of [_guess_click_url] over the [href]s of the banner's
    anchors, in document order; [hrefs] is what
    [a.evaluate("(el) => el.href || ''") or ""] gives for each. *)
Fixpoint guess_loop (page_dom first_fallback : string) (hrefs : list string)
  : string :=
  match hrefs with
  | [] => first_fallback
  | href_abs :: rest =>
      if negb (Py.truthy href_abs) then guess_loop page_dom first_fallback rest
      else
        let first_fallback :=
          if negb (Py.truthy first_fallback) then href_abs else first_fallback in
        let h := _host href_abs in
        if Py.truthy (_etld1_naive h) && bool_decide (_etld1_naive h ≠ page_dom)
        then href_abs
        else guess_loop page_dom first_fallback rest
  end.

(** [_guess_click_url], on a page whose anchors can be read *)
Definition _guess_click_url (page_url : string) (hrefs : list string) : string :=
  if bool_decide (List.length hrefs = 0%nat) then ""
  else guess_loop (_etld1_naive (_host page_url)) "" hrefs.

(** An anchor that leads off the page's own domain. *)
Definition off_site (page_url href : string) : bool :=
  Py.truthy href
  && Py.truthy (_host href)
  && bool_decide (_etld1_naive (_host href) ≠ _etld1_naive (_host page_url)).

End Ikon.
End Ikon.

(** [urljoin(base, url)]; [None] when it raises *)
Class UrlJoin := {
  urljoin : string → string → option string;
}.

Module Gogo.

Definition AD_HOST_SKIP : gset string :=
  {[ "boost.mn"; "edge.boost.mn"; "exchange.boost.mn";
     "doubleclick.net"; "googlesyndication.com"; "adservice.google.com";
     "gogo.mn"; "www.gogo.mn" ]}.

Definition SOCIAL_SKIP : gset string :=
  {[ "facebook.com"; "www.facebook.com"; "m.facebook.com"; "fb.com";
     "x.com"; "twitter.com"; "t.co";
     "instagram.com"; "www.instagram.com";
     "youtube.com"; "www.youtube.com"; "youtu.be";
     "linkedin.com"; "www.linkedin.com";
     "t.me"; "telegram.me";
     "pinterest.com"; "www.pinterest.com" ]}.

Section Gogo.
Context `{Externals}.

Definition _host (u : string) : string :=
  match urlparse_netloc u with
  | Some n => Py.lower n
  | None => ""
  end.

Definition _etld1 (host : string) : string :=
  if negb (Py.truthy host) then ""
  else
    let fallback :=
      let parts := Py.split "." host in
      if (2 <=? List.length parts)%nat then Py.join "." (Py.last_two parts)
      else host in
    match tldextract with
    | Some extract =>
        let '(domain, suffix) := extract host in
        if Py.truthy domain && Py.truthy suffix then domain +:+ "." +:+ suffix
        else fallback
    | None => fallback
    end.

Definition _choose_advertiser_host (click_url page_url : string) : string :=
  let h := _host click_url in
  if negb (Py.truthy h) then ""
  else if bool_decide (_etld1 h = _etld1 (_host page_url)) then ""
  else if bool_decide (h ∈ AD_HOST_SKIP) || bool_decide (_etld1 h ∈ AD_HOST_SKIP)
  then ""
  else if bool_decide (h ∈ SOCIAL_SKIP) || bool_decide (_etld1 h ∈ SOCIAL_SKIP)
  then ""
  else h.

Definition _is_useless_href (h : string) : bool :=
  let h := Py.strip h in
  negb (Py.truthy h) || bool_decide (h = "#") || bool_decide (h = "/").

Context `{UrlJoin}.

Definition join_url (base maybe_rel : string) : option string :=
  urljoin base maybe_rel.

(** [_normalize_click_choice]; [None] when the call raises.  The two
    [try] blocks are [first] and [second]: each gives [Some r] when it
    returns [r] and [None] when control leaves it without a [return], by
    its condition being false or by its [except] clause. *)
Definition _normalize_click_choice (page_url dest_attr a_href : string)
  : option string :=
  let dest_attr := Py.strip dest_attr in
  let a_href := Py.strip a_href in
  if Py.truthy dest_attr && negb (_is_useless_href dest_attr) then
    let first :=
      if Py.truthy a_href then
        match urlparse_netloc a_href with
        | None => None
        | Some ap =>
            match urlparse_netloc page_url with
            | None => None
            | Some pp =>
                if negb (Py.truthy ap) || bool_decide (ap = pp)
                then join_url page_url dest_attr else None
            end
        end
      else
        match urlparse_netloc page_url with
        | None => None
        | Some _ => join_url page_url dest_attr
        end in
    match first with
    | Some r => Some r
    | None =>
        let second :=
          if Py.truthy a_href then
            match urlparse_netloc a_href with
            | None => None
            | Some ap =>
                match urlparse_netloc page_url with
                | None => None
                | Some pp =>
                    if Py.truthy ap && bool_decide (ap ≠ pp)
                    then join_url page_url a_href else None
                end
            end
          else None in
        match second with
        | Some r => Some r
        | None => join_url page_url dest_attr
        end
    end
  else if Py.truthy a_href && negb (_is_useless_href a_href)
  then join_url page_url a_href
  else Some "".

(** The anchor leads to another network location than the page's. *)
Definition anchor_off_site (page_url a_href : string) : bool :=
  Py.truthy a_href
  && match urlparse_netloc a_href, urlparse_netloc page_url with
     | Some ap, Some pp => Py.truthy ap && bool_decide (ap ≠ pp)
     | _, _ => false
     end.

(** [_normalize_click_choice] as its docstring words it: the slide's
    destination is preferred unless the anchor leads off the site. *)
Definition click_choice_spec (page_url dest_attr a_href : string)
  : option string :=
  let d := Py.strip dest_attr in
  let a := Py.strip a_href in
  if Py.truthy d && negb (_is_useless_href d) then
    if anchor_off_site page_url a then
      match join_url page_url a with
      | Some r => Some r
      | None => join_url page_url d
      end
    else join_url page_url d
  else if Py.truthy a && negb (_is_useless_href a) then join_url page_url a
  else Some "".

End Gogo.
End Gogo.

(** ** The link [shipping.py] builds for the workbook *)

Module Shipping.

(** [s.lstrip("/")] *)
Fixpoint lstrip_slash (s : string) : string :=
  match s with
  | "" => ""
  | String c r => if Ascii.eqb c "/" then lstrip_slash r else s
  end.

(** [s.rstrip("/")] *)
Fixpoint rstrip_slash (s : string) : string :=
  match s with
  | "" => ""
  | String c r =>
      match rstrip_slash r with
      | "" => if Ascii.eqb c "/" then "" else String c ""
      | r' => String c r'
      end
  end.

Section Shipping.
Context `{Externals}.

Definition _public_url_from_rel (rel_path : string) : string :=
  let base := rstrip_slash (Py.opt_or env_PUBLIC_BASE_URL "") in
  if negb (Py.truthy base) || negb (Py.truthy rel_path) then ""
  else base +:+ "/" +:+ lstrip_slash rel_path.

End Shipping.
End Shipping.

(** ** Concrete observations and files for the further properties *)

Module Cases.

(** An observation that carries a click URL and the page it was seen on. *)
Definition clicked : Observation :=
  {| example_path := "out/c.png"; example_rel := None;
     seen_date := Some "2024-01-02";
     click_url := Some "https://Shop.Example/x"; asset_url := None;
     page_url := Some "https://news.mn/"; iframe_src := None;
     advertiser_hint := None |}.

Definition seen_A_clicked : BannerLedger :=
  (@observe_image Lab.lab Lab.seen_A (Lab.image "C-two") "s1" clicked).1.

(** A record with a column that is not one of [LEDGER_FIELDS]. *)
Definition noted : Row :=
  list_to_map [("banner_id", "bn_x"); ("note", "kept by hand")].

Definition noted_ledger : BannerLedger :=
  {| rows := [("bn_a", Lab.twin_a); ("bn_x", noted)];
     _by_md5 := ∅; _by_phash := ∅ |}.

(** The laboratory with a public base URL configured. *)
Definition lab_public : Externals :=
  {| md5_hexdigest := string_of_list_byte;
     image_phash := Lab.phash_of;
     hash_difference := Lab.difference;
     urlparse_netloc := Lab.netloc;
     tldextract := None;
     env_BANNER_LEDGER_PHASH_DIST := None;
     env_PUBLIC_BASE_URL := Some "https://cdn.example/banners";
     now_ymd := "2024-01-01" |}.

End Cases.

(** * Proofs *)

(** ** Text *)

Section PyFacts.

Lemma truthy_true (s : string) : Py.truthy s = true ↔ s ≠ "".
Proof. destruct s; simpl; split; intros; congruence. Qed.

Lemma truthy_false (s : string) : Py.truthy s = false ↔ s = "".
Proof. destruct s; simpl; split; intros; congruence. Qed.

Lemma or_empty_r (s : string) : Py.or s "" = s.
Proof. by destruct s. Qed.

Lemma lower_app (a b : string) :
  Py.lower (a +:+ b) = Py.lower a +:+ Py.lower b.
Proof. induction a as [|c a IH]; simpl; [done | by rewrite IH]. Qed.

Lemma lower_colon : Py.lower ":" = ":".
Proof. reflexivity. Qed.

Lemma contains_char_cons c a r :
  Py.contains (String c "") (String a r)
  = Ascii.eqb a c || Py.contains (String c "") r.
Proof.
  simpl. destruct (ascii_dec c a) as [->|Hne].
  - rewrite Ascii.eqb_refl. by destruct r.
  - assert (Ascii.eqb a c = false) as -> by (apply Ascii.eqb_neq; congruence).
    done.
Qed.

Lemma split_no_sep sep s :
  Py.contains (String sep "") s = false → Py.split sep s = [s].
Proof.
  induction s as [|a r IH]; [done |].
  rewrite contains_char_cons. intros [Ha Hr]%orb_false_elim.
  simpl. rewrite Ha. by rewrite (IH Hr).
Qed.

Lemma split_sep_app sep x rest :
  Py.contains (String sep "") x = false →
  Py.split sep (x +:+ String sep rest) = x :: Py.split sep rest.
Proof.
  induction x as [|a r IH].
  - intros _. simpl. by rewrite Ascii.eqb_refl.
  - rewrite contains_char_cons. intros [Ha Hr]%orb_false_elim.
    simpl. rewrite Ha. by rewrite (IH Hr).
Qed.

Lemma split_elems_no_sep sep s x :
  x ∈ Py.split sep s → Py.contains (String sep "") x = false.
Proof.
  revert x. induction s as [|a r IH]; intros x; simpl.
  - by intros ->%list_elem_of_singleton.
  - destruct (Ascii.eqb a sep) eqn:Ha.
    + intros [->|Hin]%elem_of_cons; [done | by apply IH].
    + destruct (Py.split sep r) as [|h t] eqn:Hs.
      * intros ->%list_elem_of_singleton.
        rewrite contains_char_cons, Ha. done.
      * intros [->|Hin]%elem_of_cons.
        -- rewrite contains_char_cons, Ha. simpl. apply IH. left.
        -- apply IH. by right.
Qed.

Lemma join_split (l : list string) :
  l ≠ [] → Forall (λ x, Py.contains ";" x = false) l →
  Py.split ";" (Py.join ";" l) = l.
Proof.
  induction l as [|x [|y t] IH]; [done | |]; intros _ Hall.
  - apply split_no_sep. by inversion Hall.
  - inversion Hall as [|? ? Hx Ht]; subst.
    change (Py.join ";" (x :: y :: t))
      with (x +:+ String ";" (Py.join ";" (y :: t))).
    rewrite split_sep_app by done. by rewrite IH.
Qed.

Lemma filter_truthy_id (l : list string) :
  Forall (λ x, Py.truthy x = true) l → List.filter Py.truthy l = l.
Proof.
  induction 1 as [|x l Hx _ IH]; simpl; [done |]. by rewrite Hx, IH.
Qed.

End PyFacts.

(** ** Resolvers *)

Section ResolverFacts.
Context `{Externals}.

Lemma host_from_url_falsy (url : option string) :
  Py.opt_truthy url = false → _host_from_url url = "".
Proof. destruct url as [[|c u]|]; simpl; intros; congruence. Qed.

Lemma etld1_empty : _etld1_from_host "" = "".
Proof. reflexivity. Qed.

Lemma acceptable_spec (etld1 page_dom : string) :
  acceptable etld1 page_dom = true
  ↔ etld1 ≠ "" ∧ (etld1 ∉ AD_HOST_SKIP) ∧ etld1 ≠ page_dom.
Proof.
  unfold acceptable.
  rewrite !andb_true_iff, !bool_decide_eq_true, truthy_true. tauto.
Qed.

(** The guard [if page_url] of [_choose_advertiser] changes nothing: a
    page that is absent or empty resolves to the empty domain anyway. *)
Lemma page_dom_guard (page_url : option string) :
  (if Py.opt_truthy page_url then _etld1_from_host (_host_from_url page_url)
   else "") = _etld1_from_host (_host_from_url page_url).
Proof.
  destruct (Py.opt_truthy page_url) eqn:E; [done |].
  by rewrite (host_from_url_falsy _ E).
Qed.

Lemma accepted_acceptable (host : string) (page_url : option string) :
  accepted host page_url
  ↔ Py.truthy host = true
    ∧ acceptable (_etld1_from_host host)
        (_etld1_from_host (_host_from_url page_url)) = true.
Proof.
  unfold accepted. rewrite acceptable_spec, truthy_true. split.
  - intros (Hne & Hskip & Hpg). repeat split; try done.
    intros ->. by rewrite etld1_empty in Hne.
  - tauto.
Qed.

(** C9, as amended.  [_host_from_url] gives the empty text for an absent
    or empty URL and when parsing raises; otherwise, for a network
    location of ASCII characters, it gives the whole network location in
    lower case, so that a location [host:port] comes back with its
    [:port]. *)
Theorem host_from_url_is_lowered_netloc (url : option string) :
  match url with
  | None => _host_from_url url = ""
  | Some u =>
      match u, urlparse_netloc u with
      | "", _ => _host_from_url url = ""
      | _, None => _host_from_url url = ""
      | _, Some n =>
          Py.is_ascii n = true →
          _host_from_url url = Py.lower n
          ∧ ∀ host port, n = host +:+ ":" +:+ port →
              _host_from_url url = Py.lower host +:+ ":" +:+ Py.lower port
      end
  end.
Proof.
  destruct url as [u|]; [|done].
  destruct u as [|c u]; [done |].
  unfold _host_from_url; simpl.
  destruct (urlparse_netloc (String c u)) as [n|]; [|done].
  intros _. split; [done |]. intros host port ->.
  by rewrite !lower_app, lower_colon.
Qed.

Lemma app_dot_nonempty (a b : string) : a +:+ "." +:+ b ≠ "".
Proof. by destruct a. Qed.

Lemma etld1_fallback_nonempty (host : string) :
  host ≠ "" → _etld1_fallback host ≠ "".
Proof.
  intros Hne. unfold _etld1_fallback.
  destruct (2 <=? List.length (Py.split "." host))%nat eqn:E; [|done].
  apply Nat.leb_le in E. unfold Py.last_two.
  pose proof (length_drop (Py.split "." host)
                (List.length (Py.split "." host) - 2)) as Hlen.
  destruct (drop _ (Py.split "." host)) as [|x [|y [|z t]]];
    simpl in Hlen; try lia.
  apply app_dot_nonempty.
Qed.

(** A host that is not empty never resolves to an empty domain. *)
Lemma etld1_nonempty (host : string) :
  host ≠ "" → _etld1_from_host host ≠ "".
Proof.
  intros Hne. unfold _etld1_from_host.
  apply truthy_true in Hne as Ht. rewrite Ht. simpl.
  destruct tldextract as [extract|]; [|by apply etld1_fallback_nonempty].
  destruct (extract host) as [domain suffix].
  destruct (Py.truthy domain && Py.truthy suffix);
    [apply app_dot_nonempty | by apply etld1_fallback_nonempty].
Qed.

Lemma from_click_spec (click_url page_url : option string) :
  (if Py.truthy (_host_from_url click_url)
   then if acceptable (_etld1_from_host (_host_from_url click_url))
             (_etld1_from_host (_host_from_url page_url))
        then (_host_from_url click_url,
              _etld1_from_host (_host_from_url click_url))
        else ("", "")
   else ("", ""))
  = if decide (accepted (_host_from_url click_url) page_url)
    then (_host_from_url click_url,
          _etld1_from_host (_host_from_url click_url))
    else ("", "").
Proof.
  destruct (decide (accepted (_host_from_url click_url) page_url)) as [Ha|Hn].
  - apply accepted_acceptable in Ha as [-> Ha]. by rewrite Ha.
  - rewrite accepted_acceptable in Hn.
    destruct (Py.truthy _); [|done].
    destruct (acceptable _ _); [|done]. tauto.
Qed.

Lemma choose_advertiser_unfold (hint click_url page_url : option string) :
  _choose_advertiser hint click_url page_url
  = choose_advertiser_spec hint click_url page_url.
Proof.
  unfold _choose_advertiser, choose_advertiser_spec.
  rewrite page_dom_guard. simpl. rewrite from_click_spec.
  destruct (decide (accepted (_host_from_hint hint) page_url)) as [Ha|Hn].
  - apply accepted_acceptable in Ha as [-> Ha]. by rewrite Ha.
  - rewrite accepted_acceptable in Hn.
    destruct (Py.truthy (_host_from_hint hint)); [|done].
    destruct (acceptable (_etld1_from_host (_host_from_hint hint)) _); [|done].
    tauto.
Qed.

(** C5.  [_choose_advertiser] returns the hint's host and domain when the
    hint is accepted (its domain is not empty, not on the denylist and not
    the page's), else the click URL's under the same rule, else two empty
    texts; so an accepted hint wins over an accepted click URL. *)
Theorem choose_advertiser_meets_spec (hint click_url page_url : option string) :
  _choose_advertiser hint click_url page_url
  = choose_advertiser_spec hint click_url page_url
  ∧ (accepted (_host_from_hint hint) page_url →
     accepted (_host_from_url click_url) page_url →
     _choose_advertiser hint click_url page_url
     = (_host_from_hint hint, _etld1_from_host (_host_from_hint hint))).
Proof.
  split; [apply choose_advertiser_unfold |].
  intros Ha _. rewrite choose_advertiser_unfold. unfold choose_advertiser_spec.
  by rewrite decide_True.
Qed.

(** C10.  The denylist is consulted with the registrable domain of a
    candidate and never with its host.  A hint whose domain is neither
    listed nor the page's is returned; and when no hint is accepted, a click
    URL whose domain is neither listed nor the page's is returned, whether
    or not its host is itself an entry of the list. *)
Theorem denylist_is_tested_on_domain (hint click_url page_url : option string) :
  (_host_from_hint hint ≠ "" →
   _etld1_from_host (_host_from_hint hint) ∉ AD_HOST_SKIP →
   _etld1_from_host (_host_from_hint hint)
   ≠ _etld1_from_host (_host_from_url page_url) →
   _choose_advertiser hint click_url page_url
   = (_host_from_hint hint, _etld1_from_host (_host_from_hint hint)))
  ∧ (¬ accepted (_host_from_hint hint) page_url →
     _host_from_url click_url ≠ "" →
     _etld1_from_host (_host_from_url click_url) ∉ AD_HOST_SKIP →
     _etld1_from_host (_host_from_url click_url)
     ≠ _etld1_from_host (_host_from_url page_url) →
     _choose_advertiser hint click_url page_url
     = (_host_from_url click_url, _etld1_from_host (_host_from_url click_url))).
Proof.
  rewrite choose_advertiser_unfold. unfold choose_advertiser_spec. split.
  - intros Hne Hskip Hpg. rewrite decide_True; [done |].
    unfold accepted. auto using etld1_nonempty.
  - intros Hhint Hne Hskip Hpg. rewrite decide_False by done.
    rewrite decide_True; [done |].
    unfold accepted. auto using etld1_nonempty.
Qed.

End ResolverFacts.

(** ** The rows as a dict *)

Section RowsFacts.

Lemma rows_get_set_eq rs k (r : Row) : rows_get (rows_set rs k r) k = Some r.
Proof.
  induction rs as [|[k' r'] t IH]; simpl.
  - by rewrite decide_True.
  - destruct (decide (k' = k)) as [->|Hne]; simpl.
    + by rewrite decide_True.
    + by rewrite decide_False.
Qed.

Lemma rows_get_set_ne rs k k' (r : Row) :
  k ≠ k' → rows_get (rows_set rs k r) k' = rows_get rs k'.
Proof.
  intros Hne. induction rs as [|[k0 r0] t IH]; simpl.
  - by rewrite decide_False.
  - destruct (decide (k0 = k)) as [->|Hne0]; simpl.
    + by rewrite !decide_False.
    + by rewrite IH.
Qed.

Lemma rows_get_set rs k k' (r : Row) :
  rows_get (rows_set rs k r) k'
  = if decide (k = k') then Some r else rows_get rs k'.
Proof.
  case_decide as Hk; [subst; apply rows_get_set_eq | by apply rows_get_set_ne].
Qed.

Lemma rows_get_elem rs k (r : Row) : rows_get rs k = Some r → (k, r) ∈ rs.
Proof.
  induction rs as [|[k' r'] t IH]; simpl; [done |].
  case_decide as Hk.
  - intros [= ->]. subst. left.
  - intros Hg. right. auto.
Qed.

Lemma elem_rows_get rs k (r : Row) : (k, r) ∈ rs → is_Some (rows_get rs k).
Proof.
  induction rs as [|[k' r'] t IH]; simpl.
  - by intros ?%elem_of_nil.
  - intros [Heq|Hin]%elem_of_cons; case_decide; eauto.
    congruence.
Qed.

Lemma rows_get_keys rs k : is_Some (rows_get rs k) ↔ k ∈ rs.*1.
Proof.
  split.
  - intros [r Hr]. apply rows_get_elem in Hr.
    apply list_elem_of_fmap. by exists (k, r).
  - intros ((k' & r) & -> & Hin)%list_elem_of_fmap. by eapply elem_rows_get.
Qed.

Lemma rows_set_keys_in rs k (r : Row) :
  k ∈ rs.*1 → (rows_set rs k r).*1 = rs.*1.
Proof.
  induction rs as [|[k' r'] t IH]; simpl.
  - by intros ?%elem_of_nil.
  - intros Hin. case_decide as Hk; simpl; [by subst |].
    f_equal. apply IH. apply elem_of_cons in Hin as [?|?]; [congruence | done].
Qed.

Lemma rows_set_keys_fresh rs k (r : Row) :
  k ∉ rs.*1 → rows_set rs k r = (rs ++ [(k, r)])%list.
Proof.
  induction rs as [|[k' r'] t IH]; simpl; [done |].
  intros Hin. apply not_elem_of_cons in Hin as [Hne Hin].
  rewrite decide_False by done. by rewrite IH.
Qed.

Lemma rows_set_NoDup rs k (r : Row) :
  NoDup rs.*1 → NoDup (rows_set rs k r).*1.
Proof.
  intros Hnd. destruct (decide (k ∈ rs.*1)) as [Hin|Hout].
  - by rewrite rows_set_keys_in.
  - rewrite rows_set_keys_fresh by done. rewrite fmap_app. simpl.
    apply NoDup_app. split; [done |]. split.
    + intros x Hx ?%list_elem_of_singleton. by subst.
    + apply NoDup_singleton.
Qed.

(** Under distinct keys, membership and lookup say the same. *)
Lemma elem_rows_get_NoDup rs k (r : Row) :
  NoDup rs.*1 → (k, r) ∈ rs → rows_get rs k = Some r.
Proof.
  induction rs as [|[k' r'] t IH]; simpl.
  - by intros _ ?%elem_of_nil.
  - intros [Hout Hnd]%NoDup_cons [Heq|Hin]%elem_of_cons.
    + injection Heq as -> ->. by rewrite decide_True.
    + case_decide as Hk; [|by apply IH].
      subst. exfalso. apply Hout. apply list_elem_of_fmap. by exists (k, r).
Qed.

End RowsFacts.

(** ** The near-duplicate scan *)

Section ScanFacts.
Context `{Externals}.

(** What the loop has found after [rs], started from [(acc_id, acc_d)],
    when no comparison raised: either nothing closer than where it started,
    or the first record of [rs] at the least distance. *)
Lemma near_fold_spec ph rs acc_id acc_d best_id best_d :
  scan_from ph (acc_id, acc_d) rs = Some (best_id, best_d) →
  (best_id = acc_id ∧ best_d = acc_d
   ∧ ∀ it, it ∈ rs → hashed it →
       ∃ d', dist_to ph it = Some d' ∧ (acc_d ≤ d')%Z)
  ∨ (∃ b, best_id = Some b ∧ first_nearest ph rs b best_d
          ∧ (best_d < acc_d)%Z).
Proof.
  revert acc_id acc_d.
  induction rs as [|[k row] t IH]; intros acc_id acc_d; simpl.
  - intros [= <- <-]. left. repeat split; try done.
    by intros it ?%elem_of_nil.
  - destruct (Py.truthy (Row_get row "phash")) eqn:Hph; simpl.
    + destruct (_phash_dist ph (Row_get row "phash")) as [d0|] eqn:Hd0;
        [|done].
      destruct (d0 <? acc_d)%Z eqn:Hlt.
      * apply Z.ltb_lt in Hlt. intros Hf.
        destruct (IH _ _ Hf) as [(-> & -> & Hall) | (b & -> & Hfn & Hlt')].
        -- right. exists k. split; [done |]. split; [|done].
           exists [], row, t. repeat split; try done.
           by intros it ?%elem_of_nil.
        -- right. exists b. split; [done |]. split; [|lia].
           destruct Hfn as (pre & row' & post & -> & Hh & Hd & Hpre & Hpost).
           exists ((k, row) :: pre), row', post. repeat split; try done.
           intros it [->|Hin]%elem_of_cons Hit; [|by apply Hpre].
           exists d0. split; [done | lia].
      * apply Z.ltb_ge in Hlt. intros Hf.
        destruct (IH _ _ Hf) as [(-> & -> & Hall) | (b & -> & Hfn & Hlt')].
        -- left. repeat split; try done.
           intros it [->|Hin]%elem_of_cons Hit; [|by apply Hall].
           exists d0. split; [done | lia].
        -- right. exists b. split; [done |]. split; [|done].
           destruct Hfn as (pre & row' & post & -> & Hh & Hd & Hpre & Hpost).
           exists ((k, row) :: pre), row', post. repeat split; try done.
           intros it [->|Hin]%elem_of_cons Hit; [|by apply Hpre].
           exists d0. split; [done | lia].
    + intros Hf.
      destruct (IH _ _ Hf) as [(-> & -> & Hall) | (b & -> & Hfn & Hlt')].
      * left. repeat split; try done.
        intros it [->|Hin]%elem_of_cons Hit; [|by apply Hall].
        unfold hashed in Hit. simpl in Hit. congruence.
      * right. exists b. split; [done |]. split; [|done].
        destruct Hfn as (pre & row' & post & -> & Hh & Hd & Hpre & Hpost).
        exists ((k, row) :: pre), row', post. repeat split; try done.
        intros it [->|Hin]%elem_of_cons Hit; [|by apply Hpre].
        unfold hashed in Hit. simpl in Hit. congruence.
Qed.

(** The loop raises exactly when it meets a record whose hash [imagehash]
    does not compare with [ph]. *)
Lemma scan_from_raises ph rs acc :
  scan_from ph acc rs = None
  ↔ ∃ it, it ∈ rs ∧ hashed it ∧ dist_to ph it = None.
Proof.
  revert acc. induction rs as [|[k row] t IH]; intros [acc_id acc_d]; simpl.
  - split; [done |]. by intros (it & ?%elem_of_nil & _).
  - destruct (Py.truthy (Row_get row "phash")) eqn:Hph; simpl.
    + destruct (_phash_dist ph (Row_get row "phash")) as [d0|] eqn:Hd0.
      * assert (Hstep : ∀ acc' : option string * Z,
                  scan_from ph acc' t = None
                  ↔ ∃ it, it ∈ (k, row) :: t ∧ hashed it ∧ dist_to ph it = None).
        { intros acc'. rewrite IH. split.
          - intros (it & Hin & Hh & Hd). exists it. split; [by right | done].
          - intros (it & [->|Hin]%elem_of_cons & Hh & Hd); [|by exists it].
            unfold dist_to in Hd. simpl in Hd. congruence. }
        destruct (d0 <? acc_d)%Z; apply Hstep.
      * split; [|done]. intros _. exists (k, row). split; [left | done].
    + rewrite IH. split.
      * intros (it & Hin & Hh & Hd). exists it. split; [by right | done].
      * intros (it & [->|Hin]%elem_of_cons & Hh & Hd); [|by exists it].
        unfold hashed in Hh. simpl in Hh. congruence.
Qed.

Lemma comparable_when_scanned ph rs :
  is_Some (near_scan ph rs) → hashes_comparable ph rs.
Proof.
  intros [r Hr] it Hin Hh. destruct (dist_to ph it) as [d|] eqn:Hd; [by eexists |].
  assert (Hnone : near_scan ph rs = None).
  { apply scan_from_raises. by exists it. }
  rewrite Hnone in Hr. discriminate Hr.
Qed.

Lemma scan_from_returns ph rs acc :
  hashes_comparable ph rs → is_Some (scan_from ph acc rs).
Proof.
  intros Hcmp. destruct (scan_from ph acc rs) eqn:Hs; [eauto |].
  apply scan_from_raises in Hs as (it & Hin & Hh & Hd).
  destruct (Hcmp it Hin Hh) as [d Hd']. congruence.
Qed.

Lemma first_nearest_elem ph rs b d :
  first_nearest ph rs b d → ∃ row, (b, row) ∈ rs.
Proof.
  intros (pre & row & post & -> & _). exists row.
  apply elem_of_app. right. left.
Qed.

Lemma first_nearest_least ph rs b d :
  first_nearest ph rs b d →
  ∀ it, it ∈ rs → hashed it → ∃ d', dist_to ph it = Some d' ∧ (d ≤ d')%Z.
Proof.
  intros (pre & row & post & -> & Hh & Hd & Hpre & Hpost) it Hin Hit.
  apply elem_of_app in Hin as [Hin|Hin].
  - destruct (Hpre _ Hin Hit) as (d' & Hd' & Hlt). exists d'. split; [done | lia].
  - apply elem_of_cons in Hin as [->|Hin]; [|by apply Hpost].
    exists d. split; [done | lia].
Qed.

(** Whatever [_find_by_phash_near] returns names a record that exists. *)
Lemma find_near_exists L ph b :
  index_sound L → _find_by_phash_near L ph = Return (Some b) →
  is_Some (rows_get (rows L) b).
Proof.
  intros (_ & Hph & _). unfold _find_by_phash_near.
  destruct (_by_phash L !! ph) as [b'|] eqn:E.
  - intros [= <-]. eauto.
  - destruct (near_scan ph (rows L)) as [[best_id best_d]|] eqn:Hs; [|done].
    destruct best_id as [b'|]; [|done].
    destruct (Py.truthy b' && (best_d <=? MAX_HASH_DISTANCE)%Z); [|done].
    intros [= <-].
    destruct (near_fold_spec _ _ _ _ _ _ Hs) as [(? & _) | (b & [= <-] & Hfn & _)];
      [done |].
    destruct (first_nearest_elem _ _ _ _ Hfn) as [row Hin].
    by eapply elem_rows_get.
Qed.

Lemma keys_nonempty rs k (row : Row) :
  rows_get rs "" = None → (k, row) ∈ rs → Py.truthy k = true.
Proof.
  intros Hnone Hin. apply truthy_true. intros ->.
  apply elem_rows_get in Hin as [r Hr]. congruence.
Qed.

(** The scan of [_find_by_phash_near], when the hash itself is not
    indexed and the threshold is below the scan's starting bound: it
    raises when a stored hash cannot be compared, and otherwise returns
    the first record at the least distance if that is within the
    threshold. *)
Lemma find_near_scan L ph :
  rows_get (rows L) "" = None →
  (MAX_HASH_DISTANCE < 10 ^ 9)%Z →
  _by_phash L !! ph = None →
  match _find_by_phash_near L ph with
  | Return (Some b) =>
      ∃ d, first_nearest ph (rows L) b d ∧ (d ≤ MAX_HASH_DISTANCE)%Z
  | Return None => none_near ph (rows L)
  | Raise e =>
      e = HashError
      ∧ ∃ it, it ∈ rows L ∧ hashed it ∧ dist_to ph it = None
  end.
Proof.
  intros Hkeys Hthr Hidx. unfold _find_by_phash_near. rewrite Hidx.
  destruct (near_scan ph (rows L)) as [[best_id best_d]|] eqn:Hs.
  2:{ split; [done |]. by apply (scan_from_raises ph (rows L) (None, (10 ^ 9)%Z)). }
  destruct (near_fold_spec _ _ _ _ _ _ Hs)
    as [(-> & -> & Hall) | (b & -> & Hfn & Hlt)].
  - intros it Hin Hit. destruct (Hall it Hin Hit) as (d' & Hd' & Hle).
    exists d'. split; [done | lia].
  - destruct (first_nearest_elem _ _ _ _ Hfn) as [row Hin].
    rewrite (keys_nonempty _ _ _ Hkeys Hin). simpl.
    destruct (best_d <=? MAX_HASH_DISTANCE)%Z eqn:Hle.
    + apply Z.leb_le in Hle. eauto.
    + apply Z.leb_gt in Hle. intros it Hit Hh.
      destruct (first_nearest_least _ _ _ _ Hfn it Hit Hh) as (d' & Hd' & Hle').
      exists d'. split; [done | lia].
Qed.

(** [_find_by_phash_near] returns when the hash is indexed or every
    stored hash can be compared with it. *)
Lemma find_near_returns L ph :
  (_by_phash L !! ph = None → hashes_comparable ph (rows L)) →
  ∃ r, _find_by_phash_near L ph = Return r.
Proof.
  intros Hcmp. unfold _find_by_phash_near.
  destruct (_by_phash L !! ph) as [b|] eqn:E; [eauto |].
  destruct (scan_from_returns ph (rows L) (None, (10 ^ 9)%Z) (Hcmp eq_refl))
    as [[best_id best_d] Hs].
  unfold near_scan. rewrite Hs. eauto.
Qed.

(** The only exception of [_find_by_phash_near] is that of the scan. *)
Lemma find_near_raises L ph e :
  _find_by_phash_near L ph = Raise e →
  e = HashError ∧ _by_phash L !! ph = None
  ∧ ∃ it, it ∈ rows L ∧ hashed it ∧ dist_to ph it = None.
Proof.
  unfold _find_by_phash_near.
  destruct (_by_phash L !! ph) as [b|] eqn:E; [done |].
  destruct (near_scan ph (rows L)) as [[best_id best_d]|] eqn:Hs; [done |].
  intros [= <-]. split; [done |]. split; [done |].
  by apply (scan_from_raises ph (rows L) (None, (10 ^ 9)%Z)).
Qed.

End ScanFacts.

(** ** [observe_image]: which record, and that it returns *)

Section ObserveFacts.
Context `{Externals}.

Lemma alloc_nonempty md5s : _alloc_banner_id md5s ≠ "".
Proof. done. Qed.

Lemma index_sound_nonempty L b :
  index_sound L → is_Some (rows_get (rows L) b) → b ≠ "".
Proof. intros (_ & _ & Hk) [r Hr] ->. congruence. Qed.

Lemma classify_classified L site date o md5s ph :
  match classify L site date o md5s ph with
  | Return (bid, mtype, rows1) =>
      classified L site date o md5s ph bid mtype rows1
  | Raise e =>
      _by_md5 L !! md5s = None ∧ _find_by_phash_near L ph = Raise e
  end.
Proof.
  unfold classify.
  destruct (_by_md5 L !! md5s) as [b|] eqn:Hm; [by constructor |].
  destruct (_find_by_phash_near L ph) as [[b|]|e] eqn:Hn; [| |done].
  - destruct (Py.truthy b) eqn:Hb.
    + constructor; try done. by apply truthy_true.
    + constructor; [done | | eauto]. intros b' Hb'. rewrite Hn in Hb'.
      injection Hb' as <-. by apply truthy_false.
  - constructor; [done | | eauto]. intros b' Hb'. rewrite Hn in Hb'.
    discriminate Hb'.
Qed.

(** The selected record exists and its id is not empty. *)
Lemma classified_selected L site date o md5s ph bid mtype rows1 :
  index_sound L →
  classified L site date o md5s ph bid mtype rows1 →
  is_Some (rows_get rows1 bid) ∧ bid ≠ "".
Proof.
  intros Hs Hc. destruct Hc as [bid Hm | bid Hm Hn Hne | Hm Hn].
  - destruct Hs as (Hmd & Hph & Hk).
    pose proof (Hmd _ _ Hm) as Hr. split; [done |].
    destruct Hr as [r Hr]. intros ->. congruence.
  - split; [|done]. by eapply find_near_exists.
  - split; [|apply alloc_nonempty]. rewrite rows_get_set_eq. eauto.
Qed.

Lemma classified_rows_extend L site date o md5s ph bid mtype rows1 b :
  classified L site date o md5s ph bid mtype rows1 →
  is_Some (rows_get (rows L) b) → is_Some (rows_get rows1 b).
Proof.
  intros Hc Hb. destruct Hc; try done.
  rewrite rows_get_set. case_decide; eauto.
Qed.

(** On a sound ledger and a readable image [observe_image] either raises
    the exception of the scan, leaving the ledger as it was, or returns,
    with the record [classify] selected merged and both indexes
    refreshed. *)
Lemma observe_image_cases L img site o ph :
  index_sound L → _phash_hex img = Some ph →
  (observe_image L img site o = (L, Raise HashError)
   ∧ _by_md5 L !! _md5_short img = None ∧ _by_phash L !! ph = None
   ∧ ∃ it, it ∈ rows L ∧ hashed it ∧ dist_to ph it = None)
  ∨ ∃ bid mtype rows1 row,
      classified L site (effective_date o) o (_md5_short img) ph bid mtype rows1
      ∧ rows_get rows1 bid = Some row
      ∧ bid ≠ ""
      ∧ observe_image L img site o =
          ({| rows := rows_set rows1 bid
                        (merge_row row site (effective_date o) o
                           (_md5_short img) ph mtype);
              _by_md5 := <[_md5_short img := bid]> (_by_md5 L);
              _by_phash := <[ph := bid]> (_by_phash L) |},
           Return (bid, mtype)).
Proof.
  intros Hs Hph. unfold observe_image. rewrite Hph.
  fold (effective_date o).
  pose proof (classify_classified L site (effective_date o) o
                (_md5_short img) ph) as Hc.
  destruct (classify L site (effective_date o) o (_md5_short img) ph)
    as [[[bid mtype] rows1]|e].
  - right.
    destruct (classified_selected _ _ _ _ _ _ _ _ _ Hs Hc) as [[row Hrow] Hne].
    exists bid, mtype, rows1, row. by rewrite Hrow.
  - left. destruct Hc as [Hm Hf].
    destruct (find_near_raises _ _ _ Hf) as (-> & Hp & Hit). done.
Qed.

(** It returns when the scan is not run or every stored hash can be
    compared with the image's. *)
Lemma observe_image_returns L img site o ph :
  index_sound L → _phash_hex img = Some ph →
  (_by_md5 L !! _md5_short img = None → _by_phash L !! ph = None →
   hashes_comparable ph (rows L)) →
  ∃ bid mtype rows1 row,
    classified L site (effective_date o) o (_md5_short img) ph bid mtype rows1
    ∧ rows_get rows1 bid = Some row
    ∧ bid ≠ ""
    ∧ observe_image L img site o =
        ({| rows := rows_set rows1 bid
                      (merge_row row site (effective_date o) o
                         (_md5_short img) ph mtype);
            _by_md5 := <[_md5_short img := bid]> (_by_md5 L);
            _by_phash := <[ph := bid]> (_by_phash L) |},
         Return (bid, mtype)).
Proof.
  intros Hs Hph Hcmp.
  destruct (observe_image_cases L img site o ph Hs Hph)
    as [(_ & Hm & Hp & it & Hin & Hh & Hd) | Hret]; [|done].
  destruct (Hcmp Hm Hp it Hin Hh) as [d Hd']. congruence.
Qed.

(** What a returning call has done, whatever the ledger. *)
Lemma observe_image_inv L img site o L' bid mtype :
  observe_image L img site o = (L', Return (bid, mtype)) →
  ∃ ph rows1 row0,
    _phash_hex img = Some ph
    ∧ classified L site (effective_date o) o (_md5_short img) ph bid mtype rows1
    ∧ rows_get rows1 bid = Some row0
    ∧ L' = {| rows := rows_set rows1 bid
                        (merge_row row0 site (effective_date o) o
                           (_md5_short img) ph mtype);
              _by_md5 := <[_md5_short img := bid]> (_by_md5 L);
              _by_phash := <[ph := bid]> (_by_phash L) |}.
Proof.
  unfold observe_image. fold (effective_date o).
  destruct (_phash_hex img) as [ph|]; [|done].
  pose proof (classify_classified L site (effective_date o) o
                (_md5_short img) ph) as Hc.
  destruct (classify L site (effective_date o) o (_md5_short img) ph)
    as [[[bid' mtype'] rows1]|e]; [|done].
  destruct (rows_get rows1 bid') as [row0|] eqn:Hrow; [|done].
  intros [= <- <- <-]. by exists ph, rows1, row0.
Qed.

(** An image whose digest is indexed goes to the indexed record: the scan
    is not run. *)
Lemma observe_image_exact L img site o ph bid row :
  _phash_hex img = Some ph →
  _by_md5 L !! _md5_short img = Some bid →
  rows_get (rows L) bid = Some row →
  observe_image L img site o
  = ({| rows := rows_set (rows L) bid
                  (merge_row row site (effective_date o) o (_md5_short img)
                     ph "exact");
        _by_md5 := <[_md5_short img := bid]> (_by_md5 L);
        _by_phash := <[ph := bid]> (_by_phash L) |},
     Return (bid, "exact")).
Proof.
  intros Hph Hmd5 Hrow. unfold observe_image, effective_date.
  rewrite Hph. cbv zeta. unfold classify. rewrite Hmd5.
  cbv beta iota. by rewrite Hrow.
Qed.

Lemma observe_image_sound L img site o :
  index_sound L → index_sound (observe_image L img site o).1.
Proof.
  intros Hs. destruct (_phash_hex img) as [ph|] eqn:Hph.
  2:{ unfold observe_image. by rewrite Hph. }
  destruct (observe_image_cases L img site o ph Hs Hph)
    as [(Heq & _) | (bid & mtype & rows1 & row & Hc & Hrow & Hne & Heq)];
    rewrite Heq; [done |].
  pose proof Hs as (Hmd & Hp & Hk). repeat split; simpl.
  - intros k b Hl. rewrite rows_get_set. case_decide; [eauto |].
    apply lookup_insert_Some in Hl as [[_ ->] | [_ Hl]]; [done |].
    eapply classified_rows_extend; eauto.
  - intros k b Hl. rewrite rows_get_set. case_decide; [eauto |].
    apply lookup_insert_Some in Hl as [[_ ->] | [_ Hl]]; [done |].
    eapply classified_rows_extend; eauto.
  - rewrite rows_get_set_ne by done.
    destruct Hc; try done. by rewrite rows_get_set_ne.
Qed.

End ObserveFacts.

(** ** What the merge writes *)

(** Closed questions about column names are settled by evaluation. *)
Ltac decide_col := apply (bool_decide_unpack _); by vm_compute.

Section MergeFacts.
Context `{Externals}.

Lemma cond_insert_ne (c : bool) (row : Row) k k' v :
  k' ≠ k → (if c then <[k':=v]> row else row) !! k = row !! k.
Proof. intros Hne. destruct c; [by rewrite lookup_insert_ne | done]. Qed.

Lemma add_unique_ne (row : Row) key value k :
  key ≠ k → _add_unique row key value !! k = row !! k.
Proof.
  intros Hne. unfold _add_unique.
  destruct (negb (Py.truthy value)); [done |]. by rewrite lookup_insert_ne.
Qed.

Lemma merge_context_other (row : Row) o k :
  k ∉ context_columns → merge_context row o !! k = row !! k.
Proof.
  intros Hk. unfold context_columns in Hk.
  repeat (apply not_elem_of_cons in Hk as [? Hk]).
  unfold merge_context.
  destruct (_choose_advertiser _ _ _) as [adv_host adv_domain].
  cbv beta iota zeta.
  assert (Hif : ∀ (c1 c2 : bool) (r : Row) v,
    (if c1 then if c2 then <["iframe_host":=v]> r else r else r) !! k = r !! k).
  { intros [] [] r v; try done. by rewrite lookup_insert_ne. }
  assert (Hrel : ∀ (c : bool) (r : Row) v w,
    (if c then <["example_url":=v]> (<["example_rel":=w]> r) else r) !! k = r !! k).
  { intros [] r v w; [|done]. by rewrite !lookup_insert_ne. }
  rewrite cond_insert_ne by done.
  rewrite Hif.
  rewrite cond_insert_ne by done.
  rewrite !add_unique_ne by done.
  rewrite !cond_insert_ne by done.
  rewrite Hrel.
  by rewrite cond_insert_ne.
Qed.

Lemma merge_dates_other (row : Row) date k :
  k ∉ ["first_seen_date"; "last_seen_date"; "seen_dates"; "days_seen"] →
  merge_dates row date !! k = row !! k.
Proof.
  intros Hk. repeat (apply not_elem_of_cons in Hk as [? Hk]).
  unfold merge_dates. cbv zeta. by rewrite !lookup_insert_ne.
Qed.

Lemma merge_row_banner_id (row : Row) site date o md5s ph mtype :
  merge_row row site date o md5s ph mtype !! "banner_id" = row !! "banner_id".
Proof.
  unfold merge_row. cbv zeta. rewrite !lookup_insert_ne by done.
  rewrite merge_context_other by decide_col.
  rewrite merge_dates_other by decide_col.
  by rewrite lookup_insert_ne.
Qed.

Lemma merge_row_md5 (row : Row) site date o md5s ph mtype :
  Row_get (merge_row row site date o md5s ph mtype) "md5" = md5s.
Proof.
  unfold merge_row, Row_get. cbv zeta.
  rewrite !lookup_insert_ne by done. by rewrite lookup_insert_eq.
Qed.

Lemma merge_row_phash (row : Row) site date o md5s ph mtype :
  Row_get (merge_row row site date o md5s ph mtype) "phash" = ph.
Proof.
  unfold merge_row, Row_get. cbv zeta.
  rewrite !lookup_insert_ne by done. by rewrite lookup_insert_eq.
Qed.

Lemma merge_row_matches (row : Row) site date o md5s ph mtype :
  Row_get (merge_row row site date o md5s ph mtype) "matches" = mtype.
Proof. unfold merge_row, Row_get. cbv zeta. by rewrite lookup_insert_eq. Qed.

Lemma new_row_banner_id bid site date o md5s ph mtype :
  new_row bid site date o md5s ph mtype !! "banner_id" = Some bid.
Proof. reflexivity. Qed.

End MergeFacts.

(** ** [observe_image]: the classification *)

Section Classification.
Context `{Externals}.

Lemma index_sound_empty : index_sound empty_ledger.
Proof. repeat split; simpl; try done; intros k b Hl; by rewrite lookup_empty in Hl. Qed.

Lemma find_near_indexed L ph b :
  _by_phash L !! ph = Some b → _find_by_phash_near L ph = Return (Some b).
Proof. intros Hl. unfold _find_by_phash_near. by rewrite Hl. Qed.

(** C1.  On a ledger whose indexes name existing records, with a threshold
    below the scan's starting bound, [observe_image] of a readable image
    decides in this order: the record the digest index gives for the
    image's digest, as "exact"; else the record the hash index gives for
    the image's hash, as "near"; else the first record, in the order of the
    rows, at the least distance from the image's hash, as "near", when that
    distance is within the threshold; else a new record named after the
    digest, as "new".  It returns whenever the scan is not run, and when it
    is run provided [imagehash] can compare the image's hash with every
    stored one.  The threshold is 6 unless the environment sets it. *)
Theorem observe_image_classifies L img site o ph :
  index_sound L → (MAX_HASH_DISTANCE < 10 ^ 9)%Z → _phash_hex img = Some ph →
  (_by_md5 L !! _md5_short img = None → _by_phash L !! ph = None →
   hashes_comparable ph (rows L)) →
  ∃ L' bid mtype,
    observe_image L img site o = (L', Return (bid, mtype))
    ∧ match _by_md5 L !! _md5_short img with
      | Some b => bid = b ∧ mtype = "exact"
      | None =>
          match _by_phash L !! ph with
          | Some b => bid = b ∧ mtype = "near"
          | None =>
              (∃ d, first_nearest ph (rows L) bid d
                    ∧ (d ≤ MAX_HASH_DISTANCE)%Z ∧ mtype = "near")
              ∨ (none_near ph (rows L)
                 ∧ bid = "bn_" +:+ _md5_short img ∧ mtype = "new"
                 ∧ ∃ row, rows_get (rows L') bid = Some row
                          ∧ row !! "banner_id" = Some bid
                          ∧ Row_get row "matches" = "new")
          end
      end
    ∧ (env_BANNER_LEDGER_PHASH_DIST = None → MAX_HASH_DISTANCE = 6%Z).
Proof.
  intros Hs Hthr Hph Hcmp.
  destruct (observe_image_returns L img site o ph Hs Hph Hcmp)
    as (bid & mtype & rows1 & row & Hc & Hrow & Hne & Heq).
  eexists _, bid, mtype. split; [exact Heq |].
  split; [|by unfold MAX_HASH_DISTANCE; intros ->].
  pose proof Hs as (_ & Hidx & Hkeys).
  destruct Hc as [bid Hm | bid Hm Hn _ | Hm Hn Hret]; rewrite Hm; [done | |].
  - destruct (_by_phash L !! ph) as [b|] eqn:Hl.
    + rewrite (find_near_indexed _ _ _ Hl) in Hn. by injection Hn as ->.
    + left. pose proof (find_near_scan L ph Hkeys Hthr Hl) as Hscan.
      rewrite Hn in Hscan. destruct Hscan as (d & Hfn & Hle). eauto.
  - destruct (_by_phash L !! ph) as [b|] eqn:Hl.
    + exfalso. pose proof (Hn _ (find_near_indexed _ _ _ Hl)) as ->.
      destruct (Hidx _ _ Hl) as [r Hr]. congruence.
    + right. pose proof (find_near_scan L ph Hkeys Hthr Hl) as Hscan.
      destruct (_find_by_phash_near L ph) as [[b|]|e] eqn:Hf.
      * exfalso. rewrite (Hn b eq_refl) in Hscan.
        destruct Hscan as (d & Hfn & _).
        destruct (first_nearest_elem _ _ _ _ Hfn) as [r Hin].
        by pose proof (keys_nonempty _ _ _ Hkeys Hin).
      * repeat split; try done. simpl. rewrite rows_get_set_eq.
        eexists. split; [done |]. split; [|apply merge_row_matches].
        rewrite merge_row_banner_id. rewrite rows_get_set_eq in Hrow.
        injection Hrow as <-. apply new_row_banner_id.
      * by destruct Hret.
Qed.

(** C4.  When [observe_image] has returned for an image, observing the
    same image again returns the same [banner_id], as "exact", whatever
    context the second observation carries (the same one in particular);
    and the first call does return on a ledger whose indexes name existing
    records, for a readable image whose hash [imagehash] can compare with
    the stored ones. *)
Theorem observe_image_twice L img site o site' o' :
  (∀ L1 bid mtype,
     observe_image L img site o = (L1, Return (bid, mtype)) →
     ∃ L2, observe_image L1 img site' o' = (L2, Return (bid, "exact")))
  ∧ (∀ ph,
       index_sound L → _phash_hex img = Some ph →
       hashes_comparable ph (rows L) →
       ∃ L1 bid mtype, observe_image L img site o = (L1, Return (bid, mtype))).
Proof.
  split.
  - intros L1 bid mtype Ho.
    apply observe_image_inv in Ho as (ph & rows1 & row0 & Hph & _ & _ & ->).
    eexists. eapply (observe_image_exact _ img site' o' ph bid); [done | |].
    + cbn [_by_md5]. apply lookup_insert_eq.
    + cbn [rows]. apply rows_get_set_eq.
  - intros ph Hs Hph Hcmp.
    destruct (observe_image_returns L img site o ph Hs Hph (λ _ _, Hcmp))
      as (bid & mtype & rows1 & row & _ & _ & _ & Heq).
    eauto.
Qed.

(** C7.  When the bytes are not an image PIL reads, [observe_image] raises
    the decoding error and leaves the ledger, rows and both indexes, as it
    found it. *)
Theorem observe_image_decode_failure L img site o :
  _phash_hex img = None →
  observe_image L img site o = (L, Raise DecodeError).
Proof. intros Hph. unfold observe_image. by rewrite Hph. Qed.

End Classification.

(** ** The dates of a record *)

Section DatesFacts.
Context `{Externals}.

Lemma parse_dates_elem cell x :
  x ∈ parse_dates cell → Py.truthy x = true ∧ no_semicolon x.
Proof.
  unfold parse_dates. rewrite elem_of_list_to_set, list_elem_of_In, filter_In.
  intros [Hin Ht]. split; [done |].
  apply (split_elems_no_sep ";"%char cell). by apply list_elem_of_In.
Qed.

Lemma dates_after_elem row date x :
  date ≠ "" → no_semicolon date →
  x ∈ dates_after row date → Py.truthy x = true ∧ no_semicolon x.
Proof.
  intros Hne Hsc Hin. unfold dates_after in Hin.
  apply elem_of_union in Hin as [Hin | ->%elem_of_singleton].
  - by eapply parse_dates_elem.
  - split; [by apply truthy_true | done].
Qed.

Lemma sorted_perm (X : gset string) : sorted X ≡ₚ elements X.
Proof. apply merge_sort_Permutation. Qed.

Lemma sorted_elem (X : gset string) x : x ∈ sorted X ↔ x ∈ X.
Proof. by rewrite sorted_perm, elem_of_elements. Qed.

Lemma sorted_length (X : gset string) : List.length (sorted X) = size X.
Proof. by rewrite sorted_perm. Qed.

Lemma sorted_NoDup (X : gset string) : NoDup (sorted X).
Proof. rewrite sorted_perm. apply NoDup_elements. Qed.

Lemma sorted_StronglySorted (X : gset string) :
  StronglySorted String.le (sorted X).
Proof. apply StronglySorted_merge_sort; apply _. Qed.

Lemma sorted_to_set (X : gset string) : list_to_set (sorted X) = X.
Proof. rewrite sorted_perm. apply list_to_set_elements_L. Qed.

(** Writing a set of well-formed dates to a cell and reading the cell back
    gives the sorted list, and so the set. *)
Lemma split_join_sorted (X : gset string) :
  X ≠ ∅ → (∀ x, x ∈ X → Py.truthy x = true ∧ no_semicolon x) →
  Py.split ";" (Py.join ";" (sorted X)) = sorted X.
Proof.
  intros Hne Hall. apply join_split.
  - intros Hnil. apply Hne. rewrite <- (sorted_to_set X), Hnil. done.
  - apply Forall_forall. intros x Hx%sorted_elem. by apply Hall.
Qed.

Lemma parse_join_sorted (X : gset string) :
  X ≠ ∅ → (∀ x, x ∈ X → Py.truthy x = true ∧ no_semicolon x) →
  parse_dates (Py.join ";" (sorted X)) = X.
Proof.
  intros Hne Hall. unfold parse_dates.
  rewrite split_join_sorted by done.
  rewrite filter_truthy_id; [apply sorted_to_set |].
  apply Forall_forall. intros x Hx%sorted_elem. by apply Hall.
Qed.

Lemma merge_dates_seen_dates (row : Row) date :
  Row_get (merge_dates row date) "seen_dates"
  = Py.join ";" (sorted (dates_after row date)).
Proof.
  unfold merge_dates, Row_get. cbv zeta.
  rewrite lookup_insert_ne by done. rewrite lookup_insert_eq. simpl.
  unfold dates_after, parse_dates, Row_get.
  by rewrite !lookup_insert_ne.
Qed.

Lemma merge_dates_days_seen (row : Row) date :
  Row_get (merge_dates row date) "days_seen"
  = pretty (size (dates_after row date)).
Proof.
  unfold merge_dates, Row_get. cbv zeta. rewrite lookup_insert_eq. simpl.
  unfold dates_after, parse_dates, Row_get.
  by rewrite !lookup_insert_ne.
Qed.

Lemma merge_row_dates (row : Row) site date o md5s ph mtype k :
  k ∈ ["seen_dates"; "days_seen"] →
  Row_get (merge_row row site date o md5s ph mtype) k
  = Row_get (merge_dates row date) k.
Proof.
  intros Hk. unfold merge_row. cbv zeta.
  assert (Row_get (merge_dates (<["site" := Py.or (Row_get row "site") site]> row)
                     date) k
          = Row_get (merge_dates row date) k) as <-.
  { apply elem_of_cons in Hk as [->|Hk];
      [|apply list_elem_of_singleton in Hk as ->].
    - rewrite !merge_dates_seen_dates. unfold dates_after, Row_get.
      by rewrite lookup_insert_ne.
    - rewrite !merge_dates_days_seen. unfold dates_after, Row_get.
      by rewrite lookup_insert_ne. }
  unfold Row_get. f_equal.
  apply elem_of_cons in Hk as [->|Hk];
    [|apply list_elem_of_singleton in Hk as ->].
  - rewrite !lookup_insert_ne by done. by rewrite merge_context_other by decide_col.
  - rewrite !lookup_insert_ne by done. by rewrite merge_context_other by decide_col.
Qed.

(** The two date cells after a merge, for a date that is a single entry. *)
Lemma merge_row_counts (row : Row) site date o md5s ph mtype :
  date ≠ "" → no_semicolon date →
  let row' := merge_row row site date o md5s ph mtype in
  Row_get row' "days_seen"
  = pretty (size (parse_dates (Row_get row' "seen_dates")))
  ∧ sorted_dedup (Row_get row' "seen_dates").
Proof.
  intros Hne Hsc row'. unfold row'.
  rewrite !merge_row_dates by decide_col.
  rewrite merge_dates_seen_dates, merge_dates_days_seen.
  assert (Hnonempty : dates_after row date ≠ ∅).
  { unfold dates_after. intros Hempty.
    assert (date ∈ (∅ : gset string)) as Hin; [|by apply elem_of_empty in Hin].
    rewrite <- Hempty. apply elem_of_union. right. by apply elem_of_singleton. }
  pose proof (dates_after_elem row date) as Hall.
  split.
  - rewrite parse_join_sorted; eauto.
  - unfold sorted_dedup. rewrite split_join_sorted by eauto.
    split; [apply sorted_StronglySorted | apply sorted_NoDup].
Qed.

End DatesFacts.

(** ** [observe_image]: dates and indexes *)

Section Invariants.
Context `{Externals}.

Lemma digit_not_semicolon c : is_digit c = true → Ascii.eqb c ";" = false.
Proof. by destruct c as [[] [] [] [] [] [] [] []]. Qed.

Lemma dash_not_semicolon c : Ascii.eqb c "-" = true → Ascii.eqb c ";" = false.
Proof. by intros ->%Ascii.eqb_eq. Qed.

(** A date in the format of the scrapers is not empty and holds no
    semicolon. *)
Lemma is_ymd_plain d : is_ymd d = true → d ≠ "" ∧ no_semicolon d.
Proof.
  destruct d as [|y1 [|y2 [|y3 [|y4 [|h1 [|m1 [|m2 [|h2 [|d1 [|d2 [|x r]]]]]]]]]]];
    try done.
  unfold is_ymd. rewrite !andb_true_iff.
  intros (((((((((? & ?) & ?) & ?) & ?) & ?) & ?) & ?) & ?) & ?).
  split; [done |]. unfold no_semicolon. rewrite !contains_char_cons.
  rewrite (digit_not_semicolon y1), (digit_not_semicolon y2),
    (digit_not_semicolon y3), (digit_not_semicolon y4),
    (dash_not_semicolon h1), (digit_not_semicolon m1),
    (digit_not_semicolon m2), (dash_not_semicolon h2),
    (digit_not_semicolon d1), (digit_not_semicolon d2) by done.
  reflexivity.
Qed.

(** C6.  For a date in the format [YYYY-MM-DD] (the one passed, or
    today's), after an [observe_image] call that returns the observed
    record's [days_seen] is the number of distinct dates its [seen_dates]
    cell lists, and that cell lists them in order, each once. *)
Theorem days_seen_counts_seen_dates L img site o L' bid mtype :
  is_ymd (effective_date o) = true →
  observe_image L img site o = (L', Return (bid, mtype)) →
  ∃ row,
    rows_get (rows L') bid = Some row
    ∧ Row_get row "days_seen"
      = pretty (size (parse_dates (Row_get row "seen_dates")))
    ∧ sorted_dedup (Row_get row "seen_dates").
Proof.
  intros [Hne Hsc]%is_ymd_plain Ho.
  apply observe_image_inv in Ho as (ph & rows1 & row0 & _ & _ & _ & ->).
  eexists. split; [apply rows_get_set_eq |].
  by apply merge_row_counts.
Qed.

(** A record whose digest is indexed to another record shows that the
    indexes do not point back. *)
Lemma index_names_other L bid k b :
  ledger_cell L bid "md5" = Some k → _by_md5 L !! k = Some b → b ≠ bid →
  ¬ indexes_point_back L.
Proof.
  unfold ledger_cell. intros Hcell Hidx Hne Hback.
  destruct (rows_get (rows L) bid) as [row|] eqn:Hr; [|done].
  simpl in Hcell. injection Hcell as Hcell.
  destruct (Hback _ _ Hr) as [Hm _]. congruence.
Qed.

Lemma coherent_empty seen : coherent seen empty_ledger.
Proof.
  split; [apply index_sound_empty |]. split.
  - intros bid row Hr. done.
  - intros img bid ph _ Hl. simpl in Hl. by rewrite lookup_empty in Hl.
Qed.

(** The record an observation selects is the one its hash is already
    indexed to, if it is indexed at all. *)
Lemma classified_hash_owner seen L site date o img ph bid mtype rows1 b :
  coherent seen L → seen img → _phash_hex img = Some ph →
  classified L site date o (_md5_short img) ph bid mtype rows1 →
  _by_phash L !! ph = Some b → b = bid.
Proof.
  intros (Hs & _ & Hagree) Hseen Hph Hc Hl.
  destruct Hc as [bid Hm | bid Hm Hn _ | Hm Hn].
  - pose proof (Hagree _ _ _ Hseen Hm Hph). congruence.
  - rewrite (find_near_indexed _ _ _ Hl) in Hn. congruence.
  - exfalso. pose proof (Hn _ (find_near_indexed _ _ _ Hl)) as ->.
    destruct Hs as (_ & Hidx & Hk). destruct (Hidx _ _ Hl) as [r Hr]. congruence.
Qed.

Lemma classified_digest_owner L site date o md5s ph bid mtype rows1 b :
  classified L site date o md5s ph bid mtype rows1 →
  _by_md5 L !! md5s = Some b → b = bid.
Proof. intros Hc Hl. destruct Hc; congruence. Qed.

Lemma classified_rows_other L site date o md5s ph bid mtype rows1 b :
  classified L site date o md5s ph bid mtype rows1 →
  b ≠ bid → rows_get rows1 b = rows_get (rows L) b.
Proof. intros Hc Hne. destruct Hc; try done. by rewrite rows_get_set_ne. Qed.

(** One observation of an image of the run keeps a coherent ledger
    coherent, whether it returns or raises. *)
Lemma observe_image_coherent seen L img site o :
  digest_determines_hash seen → seen img → coherent seen L →
  coherent seen (observe_image L img site o).1.
Proof.
  intros Hdet Hseen Hco.
  destruct (_phash_hex img) as [ph|] eqn:Hph.
  2:{ unfold observe_image. by rewrite Hph. }
  pose proof Hco as (Hs & Hback & Hagree).
  destruct (observe_image_cases L img site o ph Hs Hph)
    as [(Heq & _) | (bid & mtype & rows1 & row & Hc & Hrow & Hne & Heq)];
    [by rewrite Heq |].
  split; [by apply observe_image_sound |].
  rewrite Heq. simpl. split.
  - intros b r. simpl. rewrite rows_get_set. case_decide as Hb.
    + intros [= <-]. subst b. rewrite merge_row_md5, merge_row_phash.
      by rewrite !lookup_insert_eq.
    + rewrite (classified_rows_other _ _ _ _ _ _ _ _ _ _ Hc) by done.
      intros Hr. destruct (Hback _ _ Hr) as [Hm Hp]. split.
      * rewrite lookup_insert_ne; [done |]. intros Heqm.
        rewrite <- Heqm in Hm.
        pose proof (classified_digest_owner _ _ _ _ _ _ _ _ _ _ Hc Hm). congruence.
      * rewrite lookup_insert_ne; [done |]. intros Heqp.
        rewrite <- Heqp in Hp.
        pose proof (classified_hash_owner _ _ _ _ _ _ _ _ _ _ _ Hco Hseen Hph Hc Hp).
        congruence.
  - intros img' b ph' Hseen' Hl Hph'. simpl in *.
    destruct (decide (_md5_short img = _md5_short img')) as [Hm|Hm].
    + rewrite Hm, lookup_insert_eq in Hl. injection Hl as <-.
      rewrite (Hdet _ _ _ _ Hseen Hseen' Hm Hph Hph').
      by rewrite lookup_insert_eq.
    + rewrite lookup_insert_ne in Hl by done.
      pose proof (Hagree _ _ _ Hseen' Hl Hph') as Hp.
      destruct (decide (ph = ph')) as [<-|Hp'].
      * rewrite lookup_insert_eq. f_equal. symmetry.
        exact (classified_hash_owner _ _ _ _ _ _ _ _ _ _ _ Hco Hseen Hph Hc Hp).
      * by rewrite lookup_insert_ne.
Qed.

Lemma observe_all_coherent seen L obs :
  digest_determines_hash seen → Forall (λ ob, seen ob.1.1) obs →
  coherent seen L → coherent seen (observe_all L obs).
Proof.
  intros Hdet Hall. revert L.
  induction Hall as [|ob obs Hob _ IH]; intros L Hco; [done |].
  simpl. apply IH. by apply observe_image_coherent.
Qed.

(** A run of observations keeps the indexes of a coherent ledger pointing
    back to its records. *)
Lemma observe_all_points_back seen L obs :
  digest_determines_hash seen → Forall (λ ob, seen ob.1.1) obs →
  coherent seen L → indexes_point_back (observe_all L obs).
Proof.
  intros Hdet Hall Hco.
  by destruct (observe_all_coherent seen L obs Hdet Hall Hco) as (_ & ? & _).
Qed.

End Invariants.

(** ** [save] and [_load] *)

Section Persistence.

Lemma setdefault_present (row : Row) k v :
  is_Some (row !! k) → setdefault row k v = row.
Proof. intros [x Hx]. unfold setdefault. by rewrite Hx. Qed.

Lemma backfill_full bid (row : Row) : full_row bid row → backfill row = row.
Proof.
  intros (_ & _ & Hdom). unfold backfill.
  assert (Hall : ∀ k, k ∈ LEDGER_FIELDS → is_Some (row !! k)).
  { intros k Hk. apply elem_of_dom. rewrite Hdom. by apply elem_of_list_to_set. }
  revert Hall. generalize LEDGER_FIELDS. intros ks.
  induction ks as [|k ks IH]; intros Hall; simpl; [done |].
  rewrite setdefault_present by (apply Hall; left).
  apply IH. intros k' Hk'. apply Hall. by right.
Qed.

Lemma save_rows_full rs written :
  Forall (λ it, full_row it.1 it.2) rs →
  save_rows rs written = (rs, (written ++ rs.*2)%list, Return ()).
Proof.
  intros Hall. revert written.
  induction Hall as [|[k row] t Hrow _ IH]; intros written.
  - simpl. by rewrite app_nil_r.
  - cbn [fst snd] in Hrow. cbn [save_rows].
    rewrite (backfill_full _ _ Hrow).
    destruct Hrow as (_ & _ & Hdom).
    rewrite bool_decide_eq_true_2 by (rewrite Hdom; reflexivity).
    rewrite IH. cbn [fmap list_fmap snd]. by rewrite <- app_assoc.
Qed.

Lemma load_row_full L bid row :
  full_row bid row → bid ∉ (rows L).*1 →
  load_row L row
  = {| rows := (rows L ++ [(bid, row)])%list;
       _by_md5 := index_rows "md5" (_by_md5 L) [(bid, row)];
       _by_phash := index_rows "phash" (_by_phash L) [(bid, row)] |}.
Proof.
  intros Hfull Hfresh. unfold load_row.
  rewrite (backfill_full _ _ Hfull).
  destruct Hfull as (Hne & Hid & _).
  assert (Row_get row "banner_id" = bid) as -> by (unfold Row_get; by rewrite Hid).
  apply truthy_true in Hne as ->. cbn [negb index_rows foldl fst snd].
  by rewrite rows_set_keys_fresh.
Qed.

Lemma load_rows_full L rs :
  Forall (λ it, full_row it.1 it.2) rs →
  NoDup ((rows L).*1 ++ rs.*1) →
  foldl load_row L rs.*2
  = {| rows := (rows L ++ rs)%list;
       _by_md5 := index_rows "md5" (_by_md5 L) rs;
       _by_phash := index_rows "phash" (_by_phash L) rs |}.
Proof.
  intros Hall. revert L.
  induction Hall as [|[k row] t Hrow _ IH]; intros L Hnd.
  - simpl. rewrite app_nil_r. by destruct L.
  - cbn [fst snd] in Hrow. cbn [fmap list_fmap foldl fst snd] in *.
    assert (k ∉ (rows L).*1) as Hfresh.
    { apply NoDup_app in Hnd as (_ & Hdisj & _). intros Hin.
      apply (Hdisj _ Hin). left. }
    rewrite (load_row_full _ _ _ Hrow Hfresh). rewrite IH.
    + cbn [rows _by_md5 _by_phash index_rows foldl]. by rewrite <- app_assoc.
    + cbn [rows]. rewrite fmap_app. cbn [fmap list_fmap fst].
      by rewrite <- app_assoc.
Qed.

(** Every entry of the index built from rows is there from the start or
    is the cell of one of the rows. *)
Lemma index_rows_entry key m rs k b :
  index_rows key m rs !! k = Some b →
  m !! k = Some b ∨ ∃ row, (b, row) ∈ rs ∧ Row_get row key = k.
Proof.
  revert m. induction rs as [|[k' row] t IH]; intros m; simpl; [by left |].
  intros Hl. destruct (IH _ Hl) as [Hm | (r & Hin & Hr)].
  - destruct (Py.truthy (Row_get row key)); [|by left].
    apply lookup_insert_Some in Hm as [[<- <-] | [_ Hm]]; [|by left].
    right. exists row. split; [left | done].
  - right. exists r. split; [by right | done].
Qed.

(** Reloading cannot know of more than the saving ledger did, when that
    ledger's indexes pointed back. *)
Lemma current_index_subseteq L :
  NoDup (rows L).*1 → indexes_point_back L →
  current_index "md5" (rows L) ⊆ _by_md5 L
  ∧ current_index "phash" (rows L) ⊆ _by_phash L.
Proof.
  intros Hnd Hback. split; apply map_subseteq_spec; intros k b Hl;
    apply index_rows_entry in Hl as [Hl | (row & Hin & <-)];
    try (by rewrite lookup_empty in Hl);
    apply elem_rows_get_NoDup in Hin; try done;
    by destruct (Hback _ _ Hin).
Qed.

(** What [_load] files: every row of the table that has an id. *)
Lemma load_rows_keeps L t b :
  is_Some (rows_get (rows L) b) →
  is_Some (rows_get (rows (foldl load_row L t)) b).
Proof.
  revert L. induction t as [|row t IH]; intros L Hb; simpl; [done |].
  apply IH. unfold load_row.
  destruct (negb (Py.truthy (Row_get row "banner_id"))); [done |]. simpl.
  rewrite rows_get_set. case_decide; eauto.
Qed.

Lemma load_rows_files L t row :
  row ∈ t → Row_get row "banner_id" ≠ "" →
  is_Some (rows_get (rows (foldl load_row L t)) (Row_get row "banner_id")).
Proof.
  revert L. induction t as [|row' t IH]; intros L Hin Hne.
  - by apply elem_of_nil in Hin.
  - simpl. apply elem_of_cons in Hin as [<-|Hin]; [|by apply IH].
    apply load_rows_keeps. unfold load_row.
    apply truthy_true in Hne as ->. simpl.
    rewrite rows_get_set_eq. eauto.
Qed.

Lemma save_filed L :
  rows_filed L → save L = (L, Table (rows L).*2, Return ()).
Proof.
  intros [_ Hall]. unfold save. rewrite (save_rows_full _ _ Hall).
  simpl. by destruct L.
Qed.

Lemma init_saved L :
  rows_filed L →
  __init__ (Table (rows L).*2)
  = Return {| rows := rows L;
              _by_md5 := current_index "md5" (rows L);
              _by_phash := current_index "phash" (rows L) |}.
Proof.
  intros [Hnd Hall]. unfold __init__, _load.
  by rewrite (load_rows_full empty_ledger _ Hall).
Qed.

Lemma index_rows_snoc key m rs it :
  index_rows key m (rs ++ [it])
  = if Py.truthy (Row_get it.2 key)
    then <[Row_get it.2 key := it.1]> (index_rows key m rs)
    else index_rows key m rs.
Proof. unfold index_rows. by rewrite foldl_app. Qed.

(** A cell value that only rows of one id carry is indexed to that id. *)
Lemma index_rows_lookup_unique key m rs k bid :
  k ≠ "" →
  (∀ b r, (b, r) ∈ rs → Row_get r key = k → b = bid) →
  (∃ r, (bid, r) ∈ rs ∧ Row_get r key = k) →
  index_rows key m rs !! k = Some bid.
Proof.
  intros Hk. induction rs as [|[b0 r0] rs IH] using rev_ind;
    intros Huniq (r & Hin & Hr).
  - by apply elem_of_nil in Hin.
  - rewrite index_rows_snoc. cbn [fst snd].
    destruct (decide (Row_get r0 key = k)) as [Hk0|Hk0].
    + rewrite Hk0. apply truthy_true in Hk as ->.
      rewrite lookup_insert_eq. f_equal. apply (Huniq b0 r0); [|done].
      apply elem_of_app. right. left.
    + assert (index_rows key m rs !! k = Some bid) as Hrec.
      { apply IH.
        - intros b' r' Hin' Hr'. apply (Huniq b' r'); [|done].
          apply elem_of_app. by left.
        - exists r. split; [|done].
          apply elem_of_app in Hin as [Hin|Hin]; [done |].
          apply list_elem_of_singleton in Hin. congruence. }
      destruct (Py.truthy (Row_get r0 key)); [|done].
      by rewrite lookup_insert_ne.
Qed.

(** C3, as amended.  For a ledger whose rows are filed under their own ids
    with the columns of [LEDGER_FIELDS], and whose cells are no longer
    than the csv reader accepts, [save] writes the file and leaves the
    ledger as it was, and a ledger constructed from that file has the same
    rows, cell for cell and in the same order.  Its indexes are the ones
    built from the current [md5] and [phash] cells of those rows: every
    entry is the current fingerprint of the record it names, and, when the
    saved ledger's indexes pointed back to its records, they are contained
    in the saved ledger's indexes. *)
Theorem save_then_load L :
  rows_filed L → cells_readable L →
  ∃ file L2,
    save L = (L, file, Return ())
    ∧ __init__ file = Return L2
    ∧ rows L2 = rows L
    ∧ _by_md5 L2 = current_index "md5" (rows L)
    ∧ _by_phash L2 = current_index "phash" (rows L)
    ∧ (∀ k b, _by_md5 L2 !! k = Some b →
         ∃ row, (b, row) ∈ rows L2 ∧ Row_get row "md5" = k)
    ∧ (∀ k b, _by_phash L2 !! k = Some b →
         ∃ row, (b, row) ∈ rows L2 ∧ Row_get row "phash" = k)
    ∧ (indexes_point_back L →
         _by_md5 L2 ⊆ _by_md5 L ∧ _by_phash L2 ⊆ _by_phash L).
Proof.
  intros Hfiled _. pose proof Hfiled as [Hnd Hall].
  eexists _, _. split; [by apply save_filed |].
  split; [by apply init_saved |]. simpl.
  repeat split; try done.
  - intros k b Hl. apply index_rows_entry in Hl as [Hl | Hl]; [|done].
    by rewrite lookup_empty in Hl.
  - intros k b Hl. apply index_rows_entry in Hl as [Hl | Hl]; [|done].
    by rewrite lookup_empty in Hl.
  - by apply current_index_subseteq.
  - by apply current_index_subseteq.
Qed.

(** C8, as amended.  Constructing a ledger when the file is missing does
    not raise and gives the empty ledger.  When the file is there, [_load]
    reads it without a handler: what reading raises leaves the
    constructor, and a file that is read is loaded, each of its rows that
    has a [banner_id] becoming a record. *)
Theorem init_from_store :
  __init__ Missing = Return empty_ledger
  ∧ __init__ Undecodable = Raise ReadError
  ∧ ∀ t, ∃ L,
      __init__ (Table t) = Return L
      ∧ ∀ row, row ∈ t → Row_get row "banner_id" ≠ "" →
          is_Some (rows_get (rows L) (Row_get row "banner_id")).
Proof.
  repeat split.
  intros t. exists (foldl load_row empty_ledger t). split; [done |].
  intros row Hin Hne. by apply load_rows_files.
Qed.

End Persistence.

(** ** The ledgers the code builds *)

Section Reachable.
Context `{Externals}.

Lemma load_row_sound L row : index_sound L → index_sound (load_row L row).
Proof.
  intros (Hmd & Hph & Hk). unfold load_row.
  destruct (Py.truthy (Row_get row "banner_id")) eqn:Hb; [|done]. cbn [negb].
  apply truthy_true in Hb.
  assert (Hext : ∀ b, is_Some (rows_get (rows L) b) →
            is_Some (rows_get (rows_set (rows L) (Row_get row "banner_id")
                                 (backfill row)) b)).
  { intros b Hsome. rewrite rows_get_set. case_decide; eauto. }
  repeat split; cbn [rows _by_md5 _by_phash].
  - intros k b. destruct (Py.truthy (Row_get (backfill row) "md5")); [|by eauto].
    intros [[_ <-] | [_ Hl]]%lookup_insert_Some; [|by eauto].
    rewrite rows_get_set_eq. eauto.
  - intros k b. destruct (Py.truthy (Row_get (backfill row) "phash")); [|by eauto].
    intros [[_ <-] | [_ Hl]]%lookup_insert_Some; [|by eauto].
    rewrite rows_get_set_eq. eauto.
  - by rewrite rows_get_set_ne.
Qed.

(** Every ledger the constructor returns has sound indexes. *)
Lemma init_sound file L : __init__ file = Return L → index_sound L.
Proof.
  destruct file as [| |t]; simpl; try done.
  - intros [= <-]. apply index_sound_empty.
  - intros [= <-]. generalize index_sound_empty. generalize empty_ledger.
    induction t as [|row t IH]; intros L0 HL0; simpl; [done |].
    apply IH. by apply load_row_sound.
Qed.

Lemma observe_all_sound L obs : index_sound L → index_sound (observe_all L obs).
Proof.
  revert L. induction obs as [|ob obs IH]; intros L Hs; [done |].
  simpl. apply IH. by apply observe_image_sound.
Qed.

Lemma has_fields_insert (row : Row) k v :
  k ∈ LEDGER_FIELDS → has_fields row → has_fields (<[k:=v]> row).
Proof.
  unfold has_fields. intros Hk Hd. rewrite dom_insert_lookup_L; [exact Hd |].
  apply elem_of_dom. rewrite Hd. apply elem_of_list_to_set. exact Hk.
Qed.

Lemma has_fields_cond (c : bool) (row : Row) k v :
  k ∈ LEDGER_FIELDS → has_fields row →
  has_fields (if c then <[k:=v]> row else row).
Proof. intros Hk Hd. destruct c; [by apply has_fields_insert | done]. Qed.

Lemma has_fields_add_unique (row : Row) key value :
  key ∈ LEDGER_FIELDS → has_fields row → has_fields (_add_unique row key value).
Proof.
  intros Hk Hd. unfold _add_unique.
  destruct (negb (Py.truthy value)); [done | by apply has_fields_insert].
Qed.

Lemma merge_dates_fields (row : Row) date :
  has_fields row → has_fields (merge_dates row date).
Proof.
  intros Hd. unfold merge_dates. cbv zeta.
  repeat (apply has_fields_insert; [decide_col |]). done.
Qed.

Lemma merge_context_fields (row : Row) o :
  has_fields row → has_fields (merge_context row o).
Proof.
  intros Hd. unfold merge_context.
  destruct (_choose_advertiser _ _ _) as [adv_host adv_domain].
  cbv beta iota zeta.
  assert (Hif : ∀ (c1 c2 : bool) (r : Row) v,
    has_fields r →
    has_fields (if c1 then if c2 then <["iframe_host":=v]> r else r else r)).
  { intros [] [] r v Hr; try done. apply has_fields_insert; [decide_col | done]. }
  assert (Hrel : ∀ (c : bool) (r : Row) v w,
    has_fields r →
    has_fields (if c then <["example_url":=v]> (<["example_rel":=w]> r) else r)).
  { intros [] r v w Hr; [|done].
    repeat (apply has_fields_insert; [decide_col |]). done. }
  apply has_fields_cond; [decide_col |].
  apply Hif.
  apply has_fields_cond; [decide_col |].
  apply has_fields_add_unique; [decide_col |].
  apply has_fields_add_unique; [decide_col |].
  apply has_fields_cond; [decide_col |].
  apply has_fields_cond; [decide_col |].
  apply Hrel.
  by apply has_fields_cond; [decide_col |].
Qed.

Lemma merge_row_full bid (row : Row) site date o md5s ph mtype :
  full_row bid row → full_row bid (merge_row row site date o md5s ph mtype).
Proof.
  intros (Hne & Hid & Hd). split; [done |]. split.
  - by rewrite merge_row_banner_id.
  - unfold merge_row. cbv zeta.
    repeat (apply has_fields_insert; [decide_col |]).
    apply merge_context_fields, merge_dates_fields.
    by apply has_fields_insert; [decide_col |].
Qed.

Lemma new_row_full md5s site date o ph mtype :
  full_row (_alloc_banner_id md5s)
    (new_row (_alloc_banner_id md5s) site date o md5s ph mtype).
Proof.
  split; [done |]. split; [reflexivity |].
  unfold new_row. by rewrite dom_list_to_map_L.
Qed.

Lemma rows_set_full rs k (r : Row) :
  Forall (λ it, full_row it.1 it.2) rs → full_row k r →
  Forall (λ it, full_row it.1 it.2) (rows_set rs k r).
Proof.
  intros Hall Hr. induction Hall as [|[k' r'] t Hhd Htl IH]; simpl.
  - constructor; [exact Hr | constructor].
  - case_decide; constructor; done.
Qed.

Lemma rows_get_full rs k (r : Row) :
  Forall (λ it, full_row it.1 it.2) rs → rows_get rs k = Some r → full_row k r.
Proof.
  intros Hall Hr%rows_get_elem.
  by apply (proj1 (Forall_forall _ _) Hall (k, r)).
Qed.

(** One observation keeps the rows filed; so every ledger grown from the
    empty one by observations can be saved and reloaded. *)
Lemma observe_image_filed L img site o :
  index_sound L → rows_filed L → rows_filed (observe_image L img site o).1.
Proof.
  intros Hs [Hnd Hall].
  destruct (_phash_hex img) as [ph|] eqn:Hph.
  2:{ unfold observe_image. by rewrite Hph. }
  destruct (observe_image_cases L img site o ph Hs Hph)
    as [(Heq & _) | (bid & mtype & rows1 & row & Hc & Hrow & Hne & Heq)];
    [by rewrite Heq |].
  rewrite Heq. simpl.
  assert (Hfiled1 : NoDup rows1.*1 ∧ Forall (λ it, full_row it.1 it.2) rows1).
  { destruct Hc; try done. split.
    - by apply rows_set_NoDup.
    - apply rows_set_full; [done | apply new_row_full]. }
  destruct Hfiled1 as [Hnd1 Hall1]. split; simpl.
  - by apply rows_set_NoDup.
  - apply rows_set_full; [done |]. apply merge_row_full.
    by eapply rows_get_full.
Qed.

Lemma observe_all_filed obs : rows_filed (observe_all empty_ledger obs).
Proof.
  assert (Hgen : ∀ L, index_sound L → rows_filed L → rows_filed (observe_all L obs)).
  { induction obs as [|ob obs IH]; intros L Hs Hf; [done |].
    simpl. apply IH.
    - apply (observe_all_sound L [ob] Hs).
    - by apply observe_image_filed. }
  apply Hgen; [apply index_sound_empty |].
  split; simpl; constructor.
Qed.

(** A record whose hash is indexed to another record shows, as a digest
    does, that the indexes do not point back. *)
Lemma hash_index_names_other L bid k b :
  ledger_cell L bid "phash" = Some k → _by_phash L !! k = Some b → b ≠ bid →
  ¬ indexes_point_back L.
Proof.
  unfold ledger_cell. intros Hcell Hidx Hne Hback.
  destruct (rows_get (rows L) bid) as [row|] eqn:Hr; [|done].
  simpl in Hcell. injection Hcell as Hcell.
  destruct (Hback _ _ Hr) as [_ Hp]. congruence.
Qed.

Lemma observe_image_fingerprinted seen L img site o :
  seen img → index_sound L → rows_fingerprinted seen L →
  rows_fingerprinted seen (observe_image L img site o).1.
Proof.
  intros Hseen Hs Hfp.
  destruct (_phash_hex img) as [ph|] eqn:Hph.
  2:{ unfold observe_image. by rewrite Hph. }
  destruct (observe_image_cases L img site o ph Hs Hph)
    as [(Heq & _) | (bid & mtype & rows1 & row & Hc & Hrow & Hne & Heq)];
    [by rewrite Heq |].
  rewrite Heq. intros b r. cbn [fst rows]. rewrite rows_get_set.
  case_decide as Hb.
  - intros [= <-]. exists img. by rewrite merge_row_md5, merge_row_phash.
  - rewrite (classified_rows_other _ _ _ _ _ _ _ _ _ _ Hc) by done. apply Hfp.
Qed.

(** Starting afresh from the file a settled ledger saved gives a coherent
    ledger again: the rebuilt indexes hold every record's fingerprints. *)
Lemma reload_coherent seen L :
  digest_determines_hash seen → fingerprints_nonempty seen → settled seen L →
  coherent seen {| rows := rows L;
                   _by_md5 := current_index "md5" (rows L);
                   _by_phash := current_index "phash" (rows L) |}.
Proof.
  intros Hdet Hfne ((Hs & Hback & Hagree) & Hfiled & Hfp).
  pose proof Hfiled as [Hnd Hall].
  assert (Hback2 : indexes_point_back
            {| rows := rows L;
               _by_md5 := current_index "md5" (rows L);
               _by_phash := current_index "phash" (rows L) |}).
  { intros bid row Hr. cbn [rows _by_md5 _by_phash] in *.
    destruct (Hfp _ _ Hr) as (img & Hseen & Hmd5 & Hph).
    destruct (Hfne _ _ Hseen Hph) as [Hne1 Hne2]. rewrite Hmd5 in Hne1.
    destruct (Hback _ _ Hr) as [Hm Hp].
    split; apply index_rows_lookup_unique; try done.
    - intros b r Hin Hk. apply elem_rows_get_NoDup in Hin; [|done].
      destruct (Hback _ _ Hin) as [Hm' _]. congruence.
    - exists row. split; [by apply rows_get_elem | done].
    - intros b r Hin Hk. apply elem_rows_get_NoDup in Hin; [|done].
      destruct (Hback _ _ Hin) as [_ Hp']. congruence.
    - exists row. split; [by apply rows_get_elem | done]. }
  split; [|split; [exact Hback2 |]].
  - apply (init_sound (Table (rows L).*2)). by apply init_saved.
  - intros img bid ph Hseen Hl Hph. cbn [rows _by_md5 _by_phash] in *.
    apply index_rows_entry in Hl as [Hl | (row & Hin & Hk)];
      [by rewrite lookup_empty in Hl |].
    apply elem_rows_get_NoDup in Hin; [|done].
    destruct (Hfp _ _ Hin) as (img0 & Hseen0 & Hmd5 & Hph0).
    rewrite Hk in Hmd5.
    rewrite <- (Hdet _ _ _ _ Hseen0 Hseen Hmd5 Hph0 Hph).
    by destruct (Hback2 _ _ Hin).
Qed.

Lemma reachable_settled seen L :
  digest_determines_hash seen → fingerprints_nonempty seen →
  reachable seen L → settled seen L.
Proof.
  intros Hdet Hfne Hr.
  induction Hr as [| L img site o Hseen _ IH | L _ IH | L L2 _ IH Hout Hinit].
  - split; [apply coherent_empty |]. split; [|by intros bid row Hg].
    split; simpl; constructor.
  - destruct IH as (Hco & Hfiled & Hfp). pose proof Hco as (Hs & _).
    split; [by apply observe_image_coherent |].
    split; [by apply observe_image_filed | by apply observe_image_fingerprinted].
  - destruct IH as (Hco & Hfiled & Hfp). by rewrite (save_filed _ Hfiled).
  - pose proof IH as (Hco & Hfiled & Hfp).
    rewrite (save_filed _ Hfiled) in Hinit. cbn [fst snd] in Hinit.
    rewrite (init_saved _ Hfiled) in Hinit. injection Hinit as <-.
    split; [by apply reload_coherent |]. split; [done |].
    intros bid row Hg. by apply (Hfp bid row).
Qed.

(** C2, as amended.  Let [seen] hold of the images a run observes.  Where
    two readable images among them that have one digest have one
    similarity hash, and no readable image among them has an empty
    fingerprint, in every ledger that a start without a file reaches
    through [observe_image] calls on these images and through saving and
    starting afresh from the saved file, the digest index maps each
    record's current [md5], and the hash index its current [phash], to the
    record's own [banner_id]. *)
Theorem indexes_point_back_when_reachable seen L :
  digest_determines_hash seen → fingerprints_nonempty seen →
  reachable seen L → indexes_point_back L.
Proof.
  intros Hdet Hfne Hr.
  by destruct (reachable_settled seen L Hdet Hfne Hr) as ((_ & Hback & _) & _).
Qed.

End Reachable.

(** ** Runs on the laboratory instance *)

Section LabRuns.
Import Lab.
Local Existing Instance lab.

Lemma lab_threshold : (MAX_HASH_DISTANCE < 10 ^ 9)%Z.
Proof. by vm_compute. Qed.

Lemma lab_digest_determines_hash seen : digest_determines_hash seen.
Proof.
  intros [|x b1] [|y b2] ph1 ph2 _ _; simpl; try done.
  unfold _md5_short, _phash_hex. simpl. intros [= Hxy _] [= <-] [= <-].
  assert (x = y) as ->; [|done].
  rewrite <- (Ascii.byte_of_ascii_of_byte x), <- (Ascii.byte_of_ascii_of_byte y).
  by rewrite Hxy.
Qed.

Lemma seen_A_sound : index_sound seen_A.
Proof.
  exact (observe_image_sound empty_ledger (image "A-one") "s1"
           (plain "2024-01-01") index_sound_empty).
Qed.

Lemma seen_A_comparable : hashes_comparable "0000000000000043" (rows seen_A).
Proof. apply comparable_when_scanned. vm_compute. by eexists. Qed.

Lemma seen_AC_run :
  observe_image seen_A (image "C-two") "s1" (plain "2024-01-02")
  = (seen_AC, Return ("bn_A-one", "near")).
Proof.
  rewrite (surjective_pairing (observe_image seen_A _ _ _)).
  apply (f_equal (pair seen_AC)). by vm_compute.
Qed.

Lemma accepted_shop : accepted "shop.example" (Some "https://news.mn/").
Proof. repeat split; [done | decide_col | done]. Qed.

Lemma accepted_brand : accepted "brand.example.org" (Some "https://news.mn/").
Proof. repeat split; [done | decide_col | done]. Qed.

Lemma observe_image_classifies_witness :
  ∃ L' bid mtype,
    observe_image seen_A (image "C-two") "s1" (plain "2024-01-02")
    = (L', Return (bid, mtype))
    ∧ ((∃ d, first_nearest "0000000000000043" (rows seen_A) bid d
             ∧ (d ≤ MAX_HASH_DISTANCE)%Z ∧ mtype = "near")
       ∨ (none_near "0000000000000043" (rows seen_A)
          ∧ bid = "bn_C-two" ∧ mtype = "new"
          ∧ ∃ row, rows_get (rows L') bid = Some row
                   ∧ row !! "banner_id" = Some bid
                   ∧ Row_get row "matches" = "new"))
    ∧ (env_BANNER_LEDGER_PHASH_DIST = None → MAX_HASH_DISTANCE = 6%Z).
Proof.
  exact (observe_image_classifies seen_A (image "C-two") "s1"
           (plain "2024-01-02") "0000000000000043"
           seen_A_sound lab_threshold eq_refl (λ _ _, seen_A_comparable)).
Defined.

Lemma observe_image_twice_witness :
  ∃ L1 bid mtype L2,
    observe_image seen_A (image "C-two") "s1" (plain "2024-01-02")
    = (L1, Return (bid, mtype))
    ∧ observe_image L1 (image "C-two") "s1" (plain "2024-01-02")
      = (L2, Return (bid, "exact")).
Proof.
  destruct (observe_image_twice seen_A (image "C-two") "s1"
              (plain "2024-01-02") "s1" (plain "2024-01-02"))
    as [Hsecond Hfirst].
  destruct (Hfirst "0000000000000043" seen_A_sound eq_refl seen_A_comparable)
    as (L1 & bid & mtype & H1).
  destruct (Hsecond L1 bid mtype H1) as [L2 H2].
  exists L1, bid, mtype, L2. by split.
Defined.

Lemma observe_image_decode_failure_witness :
  observe_image seen_A (image "") "s1" (plain "2024-01-02")
  = (seen_A, Raise DecodeError).
Proof.
  exact (observe_image_decode_failure seen_A (image "") "s1"
           (plain "2024-01-02") eq_refl).
Defined.

Lemma choose_advertiser_meets_spec_witness :
  _choose_advertiser (Some " Shop.Example ")
    (Some "https://brand.example.org/landing") (Some "https://news.mn/")
  = ("shop.example", "shop.example").
Proof.
  exact (proj2 (choose_advertiser_meets_spec (Some " Shop.Example ")
                  (Some "https://brand.example.org/landing")
                  (Some "https://news.mn/"))
           accepted_shop accepted_brand).
Defined.

Lemma denylist_is_tested_on_domain_witness :
  "adservice.google.com" ∈ AD_HOST_SKIP
  ∧ _choose_advertiser None (Some "https://adservice.google.com/pagead")
      (Some "https://news.mn/")
    = ("adservice.google.com", "google.com").
Proof.
  split; [decide_col |].
  change ("adservice.google.com", "google.com")
    with (_host_from_url (Some "https://adservice.google.com/pagead"),
          _etld1_from_host
            (_host_from_url (Some "https://adservice.google.com/pagead"))).
  apply (proj2 (denylist_is_tested_on_domain None
                  (Some "https://adservice.google.com/pagead")
                  (Some "https://news.mn/"))).
  - intros (Hne & _). by apply Hne.
  - done.
  - decide_col.
  - done.
Defined.

Lemma host_from_url_is_lowered_netloc_witness :
  Py.is_ascii "Example.com:8080" = true
  ∧ _host_from_url (Some "http://Example.com:8080/x") = "example.com:8080".
Proof.
  split; [reflexivity |].
  exact (proj2 (host_from_url_is_lowered_netloc
                  (Some "http://Example.com:8080/x") eq_refl)
           "Example.com" "8080" eq_refl).
Defined.

Lemma days_seen_counts_seen_dates_witness :
  is_ymd "2024-01-02" = true
  ∧ ∃ row,
      rows_get (rows seen_AC) "bn_A-one" = Some row
      ∧ Row_get row "days_seen"
        = pretty (size (parse_dates (Row_get row "seen_dates")))
      ∧ sorted_dedup (Row_get row "seen_dates").
Proof.
  split; [reflexivity |].
  exact (days_seen_counts_seen_dates seen_A (image "C-two") "s1"
           (plain "2024-01-02") seen_AC "bn_A-one" "near" eq_refl seen_AC_run).
Defined.

Lemma lab_fingerprints_nonempty seen : fingerprints_nonempty seen.
Proof.
  intros [|x b] ph _; [done |]. unfold _phash_hex, _md5_short. simpl.
  intros [= <-]. done.
Qed.

Lemma seen_AC_filed : rows_filed seen_AC.
Proof. decide_col. Qed.

Lemma seen_AC_readable : cells_readable seen_AC.
Proof. decide_col. Qed.

Lemma save_then_load_witness :
  ∃ file L2,
    save seen_AC = (seen_AC, file, Return ())
    ∧ __init__ file = Return L2
    ∧ rows L2 = rows seen_AC
    ∧ _by_md5 L2 = current_index "md5" (rows seen_AC)
    ∧ _by_phash L2 = current_index "phash" (rows seen_AC)
    ∧ (∀ k b, _by_md5 L2 !! k = Some b →
         ∃ row, (b, row) ∈ rows L2 ∧ Row_get row "md5" = k)
    ∧ (∀ k b, _by_phash L2 !! k = Some b →
         ∃ row, (b, row) ∈ rows L2 ∧ Row_get row "phash" = k)
    ∧ (indexes_point_back seen_AC →
         _by_md5 L2 ⊆ _by_md5 seen_AC ∧ _by_phash L2 ⊆ _by_phash seen_AC).
Proof. exact (save_then_load seen_AC seen_AC_filed seen_AC_readable). Defined.

Lemma seen_AC_reachable : reachable observed seen_AC.
Proof.
  apply reach_observe; [by right |].
  apply reach_observe; [by left |]. apply reach_empty.
Qed.

Lemma reloaded_AC_reachable : reachable observed reloaded_AC.
Proof.
  apply (reach_reload observed seen_AC reloaded_AC seen_AC_reachable);
    unfold reloaded_AC; rewrite (save_filed _ seen_AC_filed); [done |].
  cbn [fst snd]. by rewrite (init_saved _ seen_AC_filed).
Qed.

Lemma indexes_point_back_when_reachable_witness :
  indexes_point_back reloaded_AC.
Proof.
  apply (indexes_point_back_when_reachable observed).
  - apply lab_digest_determines_hash.
  - apply lab_fingerprints_nonempty.
  - apply reloaded_AC_reachable.
Defined.

Lemma init_from_store_witness :
  ∃ L, __init__ twin_file = Return L ∧ is_Some (rows_get (rows L) "bn_a").
Proof.
  destruct (proj2 (proj2 init_from_store) [twin_a; twin_b]) as (L & HL & Hrows).
  exists L. split; [exact HL |].
  assert (Hin : twin_a ∈ [twin_a; twin_b]) by left.
  assert (Hne : Row_get twin_a "banner_id" ≠ "") by done.
  exact (Hrows twin_a Hin Hne).
Defined.

(** *** Where the specification says more than the code does *)

(** C9, as stated, fails: a port in the URL stays in the result. *)
Lemma host_from_url_keeps_port :
  _host_from_url (Some "http://Example.com:8080/x") = "example.com:8080"
  ∧ host_of_spec (Some "http://Example.com:8080/x") = "example.com"
  ∧ _host_from_url (Some "http://Example.com:8080/x")
    ≠ host_of_spec (Some "http://Example.com:8080/x").
Proof. by vm_compute. Qed.

(** The premise of C6 on the date is needed: a text with a semicolon in
    it, passed as the date, is counted once and stored as several
    entries, out of order and repeated. *)
Lemma split_date_is_miscounted :
  let after :=
    observe_image empty_ledger (image "A-one") "s1" (plain "a;b") in
  after.2 = Return ("bn_A-one", "new")
  ∧ ledger_cell after.1 "bn_A-one" "seen_dates" = Some "a;a;b;b"
  ∧ ledger_cell after.1 "bn_A-one" "days_seen" = Some "3"
  ∧ pretty (size (parse_dates "a;a;b;b")) = "2"
  ∧ ¬ sorted_dedup "a;a;b;b".
Proof.
  repeat split; try (by vm_compute).
  intros [_ Hnd]. vm_compute in Hnd.
  apply NoDup_cons in Hnd as [Hnot _]. apply Hnot. left.
Qed.

(** C2, as stated, fails: there is a file, two rows of which have
    different identifiers and one digest, such that in the ledger loaded
    from it the digest index names the later row for the digest of the
    earlier one, before an observation of an image unlike both and after
    it. *)
Lemma twin_rows_break_index :
  ∃ L, __init__ twin_file = Return L
    ∧ ¬ indexes_point_back L
    ∧ let after :=
        observe_image L (image ">-far") "s1" (plain "2024-01-01") in
      after.2 = Return ("bn_>-far", "new")
      ∧ ledger_cell after.1 "bn_a" "md5" = Some "aaaaaaaaaa"
      ∧ _by_md5 after.1 !! "aaaaaaaaaa" = Some "bn_b"
      ∧ ¬ indexes_point_back after.1.
Proof.
  exists (foldl load_row empty_ledger [twin_a; twin_b]).
  split; [reflexivity |].
  split.
  { apply (index_names_other _ "bn_a" "aaaaaaaaaa" "bn_b");
      [by vm_compute | by vm_compute | done]. }
  cbv zeta.
  split; [by vm_compute |].
  assert (Hcell :
    ledger_cell (observe_image (foldl load_row empty_ledger [twin_a; twin_b])
                   (image ">-far") "s1" (plain "2024-01-01")).1 "bn_a" "md5"
    = Some "aaaaaaaaaa") by (by vm_compute).
  assert (Hidx :
    _by_md5 (observe_image (foldl load_row empty_ledger [twin_a; twin_b])
               (image ">-far") "s1" (plain "2024-01-01")).1 !! "aaaaaaaaaa"
    = Some "bn_b") by (by vm_compute).
  split; [exact Hcell |]. split; [exact Hidx |].
  by apply (index_names_other _ _ _ _ Hcell Hidx).
Qed.

(** The premise on digests in the amended C2 is needed too: on a run from
    the empty ledger, an image that shares its digest with one seen before
    and its hash with another record takes that record's place in the
    hash index. *)
Lemma colliding_digests_break_index :
  let run :=
    @observe_all lab_colliding empty_ledger
      [ (image "0123456789A", "s1", plain "2024-01-01");
        (image "zzzzzzzzzz>", "s1", plain "2024-01-01");
        (image "0123456789>", "s1", plain "2024-01-02") ] in
  ledger_cell run "bn_zzzzzzzzzz" "phash" = Some "000000000000003e"
  ∧ _by_phash run !! "000000000000003e" = Some "bn_0123456789"
  ∧ ¬ indexes_point_back run.
Proof.
  cbv zeta.
  assert (Hcell :
    ledger_cell
      (@observe_all lab_colliding empty_ledger
         [ (image "0123456789A", "s1", plain "2024-01-01");
           (image "zzzzzzzzzz>", "s1", plain "2024-01-01");
           (image "0123456789>", "s1", plain "2024-01-02") ])
      "bn_zzzzzzzzzz" "phash" = Some "000000000000003e") by (by vm_compute).
  assert (Hidx :
    _by_phash
      (@observe_all lab_colliding empty_ledger
         [ (image "0123456789A", "s1", plain "2024-01-01");
           (image "zzzzzzzzzz>", "s1", plain "2024-01-01");
           (image "0123456789>", "s1", plain "2024-01-02") ])
      !! "000000000000003e" = Some "bn_0123456789") by (by vm_compute).
  split; [exact Hcell |]. split; [exact Hidx |].
  by apply (hash_index_names_other _ _ _ _ Hcell Hidx).
Qed.

(** C3, as stated, fails: the saved ledger still indexes the digest of an
    image that was merged into a record earlier; the reloaded one has the
    same rows and no such entry. *)
Lemma reload_forgets_earlier_digest :
  let saved := save seen_AC in
  saved.2 = Return () ∧ saved.1.1 = seen_AC
  ∧ match __init__ saved.1.2 with
    | Return L2 =>
        rows L2 = rows seen_AC
        ∧ _by_md5 seen_AC !! "A-one" = Some "bn_A-one"
        ∧ _by_md5 L2 !! "A-one" = None
        ∧ _by_md5 L2 ≠ _by_md5 seen_AC
    | Raise _ => False
    end.
Proof.
  assert (Hsave : save seen_AC = (seen_AC, Table (rows seen_AC).*2, Return ())).
  { unfold save. rewrite (save_rows_full (rows seen_AC) []).
    - by destruct seen_AC.
    - apply seen_AC_filed. }
  assert (Hrows : rows (foldl load_row empty_ledger (rows seen_AC).*2)
                  = rows seen_AC).
  { destruct seen_AC_filed as [Hnd Hall].
    by rewrite (load_rows_full empty_ledger (rows seen_AC) Hall Hnd). }
  assert (Hold : _by_md5 seen_AC !! "A-one" = Some "bn_A-one") by (by vm_compute).
  assert (Hnew : _by_md5 (foldl load_row empty_ledger (rows seen_AC).*2) !! "A-one"
                 = None) by (by vm_compute).
  cbv zeta. rewrite Hsave.
  change (Return () = Return () ∧ seen_AC = seen_AC
          ∧ rows (foldl load_row empty_ledger (rows seen_AC).*2) = rows seen_AC
          ∧ _by_md5 seen_AC !! "A-one" = Some "bn_A-one"
          ∧ _by_md5 (foldl load_row empty_ledger (rows seen_AC).*2) !! "A-one"
            = None
          ∧ _by_md5 (foldl load_row empty_ledger (rows seen_AC).*2)
            ≠ _by_md5 seen_AC).
  split; [reflexivity |]. split; [reflexivity |].
  split; [exact Hrows |]. split; [exact Hold |]. split; [exact Hnew |].
  intros Heq. rewrite Heq, Hold in Hnew. discriminate Hnew.
Qed.

(** C8, as stated, fails: a file that is there and cannot be read makes
    the constructor raise, and a file of stray rows is loaded as it is. *)
Lemma init_raises_on_unreadable_file :
  __init__ Undecodable = Raise ReadError
  ∧ (∀ L, __init__ Undecodable ≠ Return L)
  ∧ ∃ L, __init__ (Table [ {[ "banner_id" := "???" ]} ]) = Return L
         ∧ rows L ≠ [].
Proof.
  split; [reflexivity |]. split; [intros L HL; discriminate HL |].
  exists (foldl load_row empty_ledger [ {[ "banner_id" := "???" ]} ]).
  split; [reflexivity |].
  assert (Hlen : List.length
                   (rows (foldl load_row empty_ledger [ {[ "banner_id" := "???" ]} ]))
                 = 1) by (vm_compute; reflexivity).
  intros Hnil. rewrite Hnil in Hlen. discriminate Hlen.
Qed.

End LabRuns.

(** * Further properties of the ledger *)

Section MergeBlocksFacts.
Context `{Externals}.

Lemma merge_context_blocks (row : Row) o :
  merge_context row o
  = merge_page
      (merge_iframe
         (merge_source
            (merge_attribution (merge_example row o)
               (attribution o).1 (attribution o).2) o) o) o.
Proof.
  unfold merge_context, attribution.
  by destruct (_choose_advertiser _ _ _) as [adv_host adv_domain].
Qed.

End MergeBlocksFacts.

Section EntriesFacts.

Lemma entries_elem cell x :
  x ∈ entries cell → Py.truthy x = true ∧ Py.contains ";" x = false.
Proof.
  unfold entries. rewrite list_elem_of_In, filter_In. intros [Hin Ht].
  split; [done |].
  apply (split_elems_no_sep ";"%char cell). by apply list_elem_of_In.
Qed.

Lemma entries_empty : entries "" = [].
Proof. reflexivity. Qed.

(** Joining well-formed entries and splitting the cell again gives them
    back. *)
Lemma entries_join (l : list string) :
  (∀ x, x ∈ l → Py.truthy x = true ∧ Py.contains ";" x = false) →
  entries (Py.join ";" l) = l.
Proof.
  intros Hall. destruct l as [|x l]; [done |].
  unfold entries. rewrite join_split; [| done |].
  - apply filter_truthy_id, Forall_forall. intros y Hy. by apply Hall.
  - apply Forall_forall. intros y Hy. by apply Hall.
Qed.

Lemma add_unique_truthy (row : Row) key value :
  Py.truthy value = true →
  _add_unique row key value
  = <[key := Py.join ";"
               (if bool_decide (value ∈ entries (Row_get row key))
                then entries (Row_get row key)
                else (entries (Row_get row key) ++ [value])%list)]> row.
Proof. intros Ht. unfold _add_unique. by rewrite Ht. Qed.

Lemma add_unique_cell (row : Row) key value :
  Row_get (_add_unique row key value) key
  = if Py.truthy value
    then Py.join ";"
           (if bool_decide (value ∈ entries (Row_get row key))
            then entries (Row_get row key)
            else (entries (Row_get row key) ++ [value])%list)
    else Row_get row key.
Proof.
  unfold _add_unique. destruct (Py.truthy value); [|done]. simpl.
  unfold Row_get at 1. by rewrite lookup_insert_eq.
Qed.

Lemma add_unique_appends_once_aux (row : Row) key value :
  value ≠ "" → Py.contains ";" value = false →
  entries (Row_get (_add_unique row key value) key)
  = (if decide (value ∈ entries (Row_get row key))
     then entries (Row_get row key)
     else (entries (Row_get row key) ++ [value])%list).
Proof.
  intros Hne Hsc. apply truthy_true in Hne as Ht.
  rewrite add_unique_cell, Ht. rewrite entries_join.
  - by destruct (decide (value ∈ entries (Row_get row key)));
      [rewrite bool_decide_eq_true_2 | rewrite bool_decide_eq_false_2].
  - intros x Hx. case_bool_decide; [by eapply entries_elem |].
    apply elem_of_app in Hx as [Hx | ->%list_elem_of_singleton];
      [by eapply entries_elem | done].
Qed.

(** X1.  [_add_unique] with a value that is not empty and holds no
    semicolon keeps the entries of the cell, in order, and adds the value
    at the end unless it is there already; doing it twice is doing it
    once. *)
Theorem add_unique_appends_once (row : Row) key value :
  value ≠ "" → Py.contains ";" value = false →
  entries (Row_get (_add_unique row key value) key)
  = (if decide (value ∈ entries (Row_get row key))
     then entries (Row_get row key)
     else (entries (Row_get row key) ++ [value])%list)
  ∧ _add_unique (_add_unique row key value) key value
    = _add_unique row key value.
Proof.
  intros Hne Hsc. apply truthy_true in Hne as Ht.
  pose proof (add_unique_appends_once_aux row key value Hne Hsc) as Hcell.
  split; [exact Hcell |].
  rewrite (add_unique_truthy (_add_unique row key value)) by done.
  rewrite Hcell.
  assert (Hin : value ∈ (if decide (value ∈ entries (Row_get row key))
                         then entries (Row_get row key)
                         else (entries (Row_get row key) ++ [value])%list)).
  { case_decide; [done |]. apply elem_of_app. right. by left. }
  rewrite bool_decide_eq_true_2 by done.
  rewrite (add_unique_truthy row) by done. rewrite insert_insert_eq.
  f_equal. f_equal.
  by destruct (decide (value ∈ entries (Row_get row key)));
    [rewrite bool_decide_eq_true_2 | rewrite bool_decide_eq_false_2].
Qed.

End EntriesFacts.

Section ObserveFrame.
Context `{Externals}.

Lemma classified_matched L site date o md5s ph bid mtype rows1 :
  classified L site date o md5s ph bid mtype rows1 →
  mtype ≠ "new" → rows1 = rows L.
Proof. by destruct 1. Qed.

(** X2.  A returning [observe_image] files the image under the record it
    names: the record's [md5], [phash] and [matches] cells are the image's
    digest, its hash and the match type returned, and both indexes map the
    image's fingerprints to the record.  It touches nothing else: every
    other record, and every index entry under another key, is as before,
    and no record is lost. *)
Theorem observe_image_touches_one_record L img site o L' bid mtype :
  observe_image L img site o = (L', Return (bid, mtype)) →
  ∃ ph row',
    _phash_hex img = Some ph
    ∧ rows_get (rows L') bid = Some row'
    ∧ Row_get row' "md5" = _md5_short img
    ∧ Row_get row' "phash" = ph
    ∧ Row_get row' "matches" = mtype
    ∧ _by_md5 L' !! _md5_short img = Some bid
    ∧ _by_phash L' !! ph = Some bid
    ∧ (∀ b, b ≠ bid → rows_get (rows L') b = rows_get (rows L) b)
    ∧ (∀ b, is_Some (rows_get (rows L) b) → is_Some (rows_get (rows L') b))
    ∧ (∀ k, k ≠ _md5_short img → _by_md5 L' !! k = _by_md5 L !! k)
    ∧ (∀ k, k ≠ ph → _by_phash L' !! k = _by_phash L !! k).
Proof.
  intros (ph & rows1 & row0 & Hph & Hc & Hrow & ->)%observe_image_inv.
  eexists ph, _. split; [done |]. cbn [rows _by_md5 _by_phash].
  split; [apply rows_get_set_eq |].
  rewrite merge_row_md5, merge_row_phash, merge_row_matches, !lookup_insert_eq.
  repeat split.
  - intros b Hb. rewrite rows_get_set_ne by done.
    by eapply classified_rows_other.
  - intros b Hb. rewrite rows_get_set. case_decide; [eauto |].
    by eapply classified_rows_extend.
  - intros k Hk. by rewrite lookup_insert_ne.
  - intros k Hk. by rewrite lookup_insert_ne.
Qed.

(** X3.  [observe_image] keeps the order of the records: a record that is
    matched, or made anew under an id already in use, stays where it is,
    and a new record under a fresh id goes last. *)
Theorem observe_image_keeps_order L img site o L' bid mtype :
  observe_image L img site o = (L', Return (bid, mtype)) →
  (rows L').*1
  = if decide (bid ∈ (rows L).*1) then (rows L).*1
    else ((rows L).*1 ++ [bid])%list.
Proof.
  intros (ph & rows1 & row0 & Hph & Hc & Hrow & ->)%observe_image_inv.
  cbn [rows].
  assert (Hin1 : bid ∈ rows1.*1) by (apply rows_get_keys; eauto).
  rewrite rows_set_keys_in by done.
  destruct Hc as [bid Hm | bid Hm Hn Hne | Hm Hn].
  - by rewrite decide_True.
  - by rewrite decide_True.
  - case_decide as Hk.
    + by rewrite rows_set_keys_in.
    + rewrite rows_set_keys_fresh by done. by rewrite fmap_app.
Qed.

End ObserveFrame.

Section BlockFacts.
Context `{Externals}.

Lemma Row_get_insert_eq (row : Row) k v : Row_get (<[k:=v]> row) k = v.
Proof. unfold Row_get. by rewrite lookup_insert_eq. Qed.

Lemma Row_get_insert_ne (row : Row) k k' v :
  k' ≠ k → Row_get (<[k':=v]> row) k = Row_get row k.
Proof. intros Hne. unfold Row_get. by rewrite lookup_insert_ne. Qed.

Lemma Row_get_cond_ne (c : bool) (row : Row) k k' v :
  k' ≠ k → Row_get (if c then <[k':=v]> row else row) k = Row_get row k.
Proof. intros Hne. destruct c; [by apply Row_get_insert_ne | done]. Qed.

Lemma Row_get_add_unique_ne (row : Row) key value k :
  key ≠ k → Row_get (_add_unique row key value) k = Row_get row k.
Proof. intros Hne. unfold Row_get. by rewrite add_unique_ne. Qed.

(** A guarded write: [if v and not row.get(k): row[k] = v]. *)
Lemma Row_get_guarded (c : bool) (row : Row) k v :
  Row_get (if c && negb (Py.truthy (Row_get row k)) then <[k:=v]> row else row) k
  = if c && negb (Py.truthy (Row_get row k)) then v else Row_get row k.
Proof.
  destruct (c && negb (Py.truthy (Row_get row k))); [|done].
  apply Row_get_insert_eq.
Qed.

Lemma merge_example_other (row : Row) o k :
  k ∉ ["example_path"; "example_rel"; "example_url"] →
  Row_get (merge_example row o) k = Row_get row k.
Proof.
  intros Hk. repeat (apply not_elem_of_cons in Hk as [? Hk]).
  unfold merge_example. cbv zeta.
  destruct (Py.opt_truthy (example_rel o));
    rewrite ?Row_get_insert_ne by done; by apply Row_get_cond_ne.
Qed.

Lemma merge_example_path (row : Row) o :
  Row_get (merge_example row o) "example_path"
  = if Py.truthy (Row_get row "example_path")
    then Row_get row "example_path" else example_path o.
Proof.
  unfold merge_example. cbv zeta.
  destruct (Py.opt_truthy (example_rel o));
    rewrite ?Row_get_insert_ne by done;
    destruct (Py.truthy (Row_get row "example_path")); simpl; try done;
    apply Row_get_insert_eq.
Qed.

Lemma merge_attribution_other (row : Row) h d k :
  k ∉ ["advertiser_host"; "advertiser_domain";
       "advertiser_hosts_all"; "advertiser_domains_all"] →
  Row_get (merge_attribution row h d) k = Row_get row k.
Proof.
  intros Hk. repeat (apply not_elem_of_cons in Hk as [? Hk]).
  unfold merge_attribution. cbv zeta.
  rewrite !Row_get_add_unique_ne by done. by rewrite !Row_get_cond_ne.
Qed.

Lemma merge_attribution_host (row : Row) h d :
  Row_get (merge_attribution row h d) "advertiser_host"
  = if Py.truthy h then h else Row_get row "advertiser_host".
Proof.
  unfold merge_attribution. cbv zeta.
  rewrite !Row_get_add_unique_ne by done. rewrite Row_get_cond_ne by done.
  destruct (Py.truthy h); [apply Row_get_insert_eq | done].
Qed.

Lemma merge_attribution_domain (row : Row) h d :
  Row_get (merge_attribution row h d) "advertiser_domain"
  = if Py.truthy d then d else Row_get row "advertiser_domain".
Proof.
  unfold merge_attribution. cbv zeta.
  rewrite !Row_get_add_unique_ne by done.
  destruct (Py.truthy d); [apply Row_get_insert_eq |].
  by rewrite Row_get_cond_ne.
Qed.

Lemma merge_attribution_hosts_all (row : Row) h d :
  Row_get (merge_attribution row h d) "advertiser_hosts_all"
  = Row_get (_add_unique row "advertiser_hosts_all" h) "advertiser_hosts_all".
Proof.
  unfold merge_attribution. cbv zeta.
  rewrite Row_get_add_unique_ne by done.
  rewrite !add_unique_cell. by rewrite !Row_get_cond_ne.
Qed.

Lemma merge_attribution_domains_all (row : Row) h d :
  Row_get (merge_attribution row h d) "advertiser_domains_all"
  = Row_get (_add_unique row "advertiser_domains_all" d) "advertiser_domains_all".
Proof.
  unfold merge_attribution. cbv zeta.
  rewrite !add_unique_cell. rewrite Row_get_add_unique_ne by done.
  by rewrite !Row_get_cond_ne.
Qed.

Lemma merge_source_other (row : Row) o k :
  k ≠ "source_host" → Row_get (merge_source row o) k = Row_get row k.
Proof. intros Hk. unfold merge_source. cbv zeta. by apply Row_get_cond_ne. Qed.

Lemma merge_iframe_other (row : Row) o k :
  k ≠ "iframe_host" → Row_get (merge_iframe row o) k = Row_get row k.
Proof.
  intros Hk. unfold merge_iframe. cbv zeta.
  destruct (Py.opt_truthy (iframe_src o)); [|done]. by apply Row_get_cond_ne.
Qed.

Lemma merge_page_other (row : Row) o k :
  k ≠ "page_domain" → Row_get (merge_page row o) k = Row_get row k.
Proof. intros Hk. unfold merge_page. cbv zeta. by apply Row_get_cond_ne. Qed.

Lemma merge_source_keeps (row : Row) o :
  Row_get row "source_host" ≠ "" →
  Row_get (merge_source row o) "source_host" = Row_get row "source_host".
Proof.
  intros Hne%truthy_true. unfold merge_source. cbv zeta.
  rewrite Row_get_guarded, Hne. by rewrite andb_false_r.
Qed.

Lemma merge_iframe_keeps (row : Row) o :
  Row_get row "iframe_host" ≠ "" →
  Row_get (merge_iframe row o) "iframe_host" = Row_get row "iframe_host".
Proof.
  intros Hne%truthy_true. unfold merge_iframe. cbv zeta.
  destruct (Py.opt_truthy (iframe_src o)); [|done].
  rewrite Row_get_guarded, Hne. by rewrite andb_false_r.
Qed.

Lemma merge_page_keeps (row : Row) o :
  Row_get row "page_domain" ≠ "" →
  Row_get (merge_page row o) "page_domain" = Row_get row "page_domain".
Proof.
  intros Hne%truthy_true. unfold merge_page. cbv zeta.
  rewrite Row_get_guarded, Hne. by rewrite andb_false_r.
Qed.

(** Through [merge_context], a column that is filled stays as it is when it
    is one of the first-wins columns. *)
Lemma merge_context_keeps (row : Row) o k :
  k ∈ ["example_path"; "source_host"; "iframe_host"; "page_domain"] →
  Row_get row k ≠ "" → Row_get (merge_context row o) k = Row_get row k.
Proof.
  intros Hk Hne. rewrite merge_context_blocks.
  repeat (apply elem_of_cons in Hk as [-> | Hk]); [..|by apply elem_of_nil in Hk].
  - rewrite merge_page_other, merge_iframe_other, merge_source_other by done.
    rewrite merge_attribution_other by decide_col.
    rewrite merge_example_path. by apply truthy_true in Hne as ->.
  - rewrite merge_page_other, merge_iframe_other by done.
    assert (Hin : Row_get (merge_attribution (merge_example row o)
                             (attribution o).1 (attribution o).2) "source_host"
                  = Row_get row "source_host").
    { rewrite merge_attribution_other by decide_col.
      by rewrite merge_example_other by decide_col. }
    rewrite merge_source_keeps; [done | by rewrite Hin].
  - rewrite merge_page_other by done.
    assert (Hin : Row_get (merge_source
                             (merge_attribution (merge_example row o)
                                (attribution o).1 (attribution o).2) o)
                    "iframe_host"
                  = Row_get row "iframe_host").
    { rewrite merge_source_other by done.
      rewrite merge_attribution_other by decide_col.
      by rewrite merge_example_other by decide_col. }
    rewrite merge_iframe_keeps; [done | by rewrite Hin].
  - assert (Hin : Row_get (merge_iframe
                             (merge_source
                                (merge_attribution (merge_example row o)
                                   (attribution o).1 (attribution o).2) o) o)
                    "page_domain"
                  = Row_get row "page_domain").
    { rewrite merge_iframe_other, merge_source_other by done.
      rewrite merge_attribution_other by decide_col.
      by rewrite merge_example_other by decide_col. }
    rewrite merge_page_keeps; [done | by rewrite Hin].
Qed.

(** A cell of the merged row that the closing writes of [merge_row] leave
    alone is the cell [merge_context] left. *)
Lemma merge_row_inner (row : Row) site date o md5s ph mtype k :
  k ∉ ["md5"; "phash"; "matches"] →
  Row_get (merge_row row site date o md5s ph mtype) k
  = Row_get (merge_context
               (merge_dates (<["site" := Py.or (Row_get row "site") site]> row)
                  date) o) k.
Proof.
  intros Hk. repeat (apply not_elem_of_cons in Hk as [? Hk]).
  unfold merge_row. cbv zeta. by rewrite !Row_get_insert_ne.
Qed.

Lemma merge_dates_cell_other (row : Row) date k :
  k ∉ ["first_seen_date"; "last_seen_date"; "seen_dates"; "days_seen"] →
  Row_get (merge_dates row date) k = Row_get row k.
Proof. intros Hk. unfold Row_get. by rewrite merge_dates_other. Qed.

Lemma merge_context_cell_other (row : Row) o k :
  k ∉ context_columns → Row_get (merge_context row o) k = Row_get row k.
Proof. intros Hk. unfold Row_get. by rewrite merge_context_other. Qed.

Lemma or_truthy (a b : string) : a ≠ "" → Py.or a b = a.
Proof. intros Ha%truthy_true. unfold Py.or. by rewrite Ha. Qed.

Lemma merge_row_first_wins (row : Row) site date o md5s ph mtype k :
  k ∈ first_wins_columns → Row_get row k ≠ "" →
  Row_get (merge_row row site date o md5s ph mtype) k = Row_get row k.
Proof.
  intros Hk Hne. unfold first_wins_columns in Hk.
  apply elem_of_cons in Hk as [-> | Hk].
  - rewrite merge_row_inner by decide_col.
    rewrite merge_context_cell_other by decide_col.
    rewrite merge_dates_cell_other by decide_col.
    rewrite Row_get_insert_eq. by apply or_truthy.
  - assert (Hk' : (k ∉ ["md5"; "phash"; "matches"])
                  ∧ (k ∉ ["first_seen_date"; "last_seen_date"; "seen_dates";
                          "days_seen"])
                  ∧ "site" ≠ k).
    { repeat (apply elem_of_cons in Hk as [-> | Hk]);
        [..|by apply elem_of_nil in Hk];
        (split; [decide_col | split; [decide_col | done]]). }
    destruct Hk' as (Hk1 & Hk2 & Hk3).
    rewrite merge_row_inner by done.
    assert (Hin : Row_get (merge_dates
                             (<["site" := Py.or (Row_get row "site") site]> row)
                             date) k
                  = Row_get row k).
    { rewrite merge_dates_cell_other by done. by rewrite Row_get_insert_ne. }
    rewrite merge_context_keeps; [done | done | by rewrite Hin].
Qed.

End BlockFacts.

Section RecordFacts.
Context `{Externals}.

Lemma ltb_le (a b : string) : String.ltb a b = true → String.le a b.
Proof.
  unfold String.le, String.leb, String.ltb.
  by destruct (String.compare a b).
Qed.

Lemma nltb_le (a b : string) : String.ltb a b = false → String.le b a.
Proof.
  unfold String.le, String.leb, String.ltb.
  rewrite (String.compare_antisym b a).
  by destruct (String.compare a b).
Qed.

Lemma str_min_le_r (a b : string) : String.le (str_min a b) b.
Proof.
  unfold str_min. destruct (String.ltb b a) eqn:E; [done |]. by apply nltb_le.
Qed.

Lemma str_min_le_l (a b : string) : String.le (str_min a b) a.
Proof.
  unfold str_min. destruct (String.ltb b a) eqn:E; [by apply ltb_le | done].
Qed.

Lemma str_max_ge_r (a b : string) : String.le b (str_max a b).
Proof.
  unfold str_max. destruct (String.ltb a b) eqn:E; [done |]. by apply nltb_le.
Qed.

Lemma str_max_ge_l (a b : string) : String.le a (str_max a b).
Proof.
  unfold str_max. destruct (String.ltb a b) eqn:E; [by apply ltb_le | done].
Qed.

Lemma merge_row_first_seen (row : Row) site date o md5s ph mtype :
  Row_get (merge_row row site date o md5s ph mtype) "first_seen_date"
  = str_min (Py.or (Row_get row "first_seen_date") date) date.
Proof.
  rewrite merge_row_inner by decide_col.
  rewrite merge_context_cell_other by decide_col.
  unfold merge_dates. cbv zeta.
  rewrite !Row_get_insert_ne by done. rewrite Row_get_insert_eq.
  by rewrite Row_get_insert_ne.
Qed.

Lemma merge_row_last_seen (row : Row) site date o md5s ph mtype :
  Row_get (merge_row row site date o md5s ph mtype) "last_seen_date"
  = str_max (Py.or (Row_get row "last_seen_date") date) date.
Proof.
  rewrite merge_row_inner by decide_col.
  rewrite merge_context_cell_other by decide_col.
  unfold merge_dates. cbv zeta.
  rewrite !Row_get_insert_ne by done. rewrite Row_get_insert_eq.
  by rewrite !Row_get_insert_ne.
Qed.

(** The record a matching observation finds and the record it leaves. *)
Lemma observe_image_matched L img site o L' bid mtype row :
  observe_image L img site o = (L', Return (bid, mtype)) →
  mtype ≠ "new" → rows_get (rows L) bid = Some row →
  ∃ ph, _phash_hex img = Some ph
        ∧ rows_get (rows L') bid
          = Some (merge_row row site (effective_date o) o (_md5_short img)
                    ph mtype).
Proof.
  intros (ph & rows1 & row0 & Hph & Hc & Hrow & ->)%observe_image_inv Hm Hr.
  rewrite (classified_matched _ _ _ _ _ _ _ _ _ Hc Hm) in Hrow |- *.
  exists ph. split; [done |]. cbn [rows]. rewrite rows_get_set_eq.
  congruence.
Qed.

(** X4.  After [observe_image] the observed record's [first_seen_date] is
    not after the observation's date and its [last_seen_date] not before
    it; for a record that was matched, the first date has not moved forward
    and the last date has not moved back (text order, which is date order
    for ISO dates). *)
Theorem seen_dates_bracket_the_observation L img site o L' bid mtype row' :
  observe_image L img site o = (L', Return (bid, mtype)) →
  rows_get (rows L') bid = Some row' →
  String.le (Row_get row' "first_seen_date") (effective_date o)
  ∧ String.le (effective_date o) (Row_get row' "last_seen_date")
  ∧ ∀ row, mtype ≠ "new" → rows_get (rows L) bid = Some row →
      (Row_get row "first_seen_date" ≠ "" →
       String.le (Row_get row' "first_seen_date") (Row_get row "first_seen_date"))
      ∧ (Row_get row "last_seen_date" ≠ "" →
         String.le (Row_get row "last_seen_date") (Row_get row' "last_seen_date")).
Proof.
  intros Ho Hr'. pose proof Ho as Ho2.
  apply observe_image_inv in Ho as (ph & rows1 & row0 & Hph & Hc & Hrow & ->).
  cbn [rows] in Hr'. rewrite rows_get_set_eq in Hr'. injection Hr' as <-.
  rewrite merge_row_first_seen, merge_row_last_seen.
  split; [apply str_min_le_r |]. split; [apply str_max_ge_r |].
  intros row Hm Hr.
  rewrite (classified_matched _ _ _ _ _ _ _ _ _ Hc Hm) in Hrow.
  assert (row0 = row) as -> by congruence.
  split; intros Hne.
  - rewrite <- (or_truthy _ (effective_date o) Hne) at 2. apply str_min_le_l.
  - rewrite <- (or_truthy _ (effective_date o) Hne) at 1. apply str_max_ge_l.
Qed.

(** X5.  When the observation's date is not empty and holds no semicolon,
    the dates of a matched record after [observe_image] are the dates it
    had and the observation's date. *)
Theorem seen_dates_gain_the_observation L img site o L' bid mtype row row' :
  observe_image L img site o = (L', Return (bid, mtype)) →
  mtype ≠ "new" →
  rows_get (rows L) bid = Some row → rows_get (rows L') bid = Some row' →
  effective_date o ≠ "" → no_semicolon (effective_date o) →
  parse_dates (Row_get row' "seen_dates")
  = parse_dates (Row_get row "seen_dates") ∪ {[ effective_date o ]}.
Proof.
  intros Ho Hm Hr Hr' Hne Hsc.
  destruct (observe_image_matched _ _ _ _ _ _ _ _ Ho Hm Hr) as (ph & _ & Hrow).
  rewrite Hrow in Hr'. injection Hr' as <-.
  rewrite merge_row_dates by decide_col. rewrite merge_dates_seen_dates.
  rewrite parse_join_sorted; [done | |].
  - unfold dates_after. intros Hempty.
    assert (effective_date o ∈ (∅ : gset string)) as Hin;
      [|by apply elem_of_empty in Hin].
    rewrite <- Hempty. apply elem_of_union. right. by apply elem_of_singleton.
  - intros x Hx. by eapply dates_after_elem.
Qed.

(** X6.  A matched record keeps its [banner_id] cell, and keeps each of
    [site], [example_path], [source_host], [iframe_host] and [page_domain]
    once that cell is filled. *)
Theorem filled_cells_are_kept L img site o L' bid mtype row row' :
  observe_image L img site o = (L', Return (bid, mtype)) →
  mtype ≠ "new" →
  rows_get (rows L) bid = Some row → rows_get (rows L') bid = Some row' →
  row' !! "banner_id" = row !! "banner_id"
  ∧ ∀ k, k ∈ first_wins_columns → Row_get row k ≠ "" →
      Row_get row' k = Row_get row k.
Proof.
  intros Ho Hm Hr Hr'.
  destruct (observe_image_matched _ _ _ _ _ _ _ _ Ho Hm Hr) as (ph & _ & Hrow).
  rewrite Hrow in Hr'. injection Hr' as <-.
  split; [apply merge_row_banner_id |].
  intros k Hk Hne. by apply merge_row_first_wins.
Qed.

Lemma merge_row_attribution_cell (row : Row) site date o md5s ph mtype k :
  k ∈ ["advertiser_host"; "advertiser_domain";
       "advertiser_hosts_all"; "advertiser_domains_all"] →
  Row_get (merge_row row site date o md5s ph mtype) k
  = Row_get (merge_attribution row (attribution o).1 (attribution o).2) k.
Proof.
  intros Hk.
  assert (Hk' : (k ∉ ["md5"; "phash"; "matches"])
                ∧ (k ∉ ["first_seen_date"; "last_seen_date"; "seen_dates";
                        "days_seen"])
                ∧ (k ∉ ["example_path"; "example_rel"; "example_url"])
                ∧ k ≠ "page_domain" ∧ k ≠ "iframe_host" ∧ k ≠ "source_host"
                ∧ "site" ≠ k).
  { repeat (apply elem_of_cons in Hk as [-> | Hk]);
      [..|by apply elem_of_nil in Hk];
      (repeat split; try done; decide_col). }
  destruct Hk' as (Hk1 & Hk2 & Hk3 & Hk4 & Hk5 & Hk6 & Hk7).
  rewrite merge_row_inner by done. rewrite merge_context_blocks.
  rewrite merge_page_other, merge_iframe_other, merge_source_other by done.
  set (inner := merge_dates _ date).
  assert (Hinner : ∀ k', k' ∈ ["advertiser_host"; "advertiser_domain";
                               "advertiser_hosts_all"; "advertiser_domains_all"] →
            Row_get (merge_example inner o) k' = Row_get row k').
  { intros k' Hk'.
    assert ((k' ∉ ["example_path"; "example_rel"; "example_url"])
            ∧ (k' ∉ ["first_seen_date"; "last_seen_date"; "seen_dates";
                     "days_seen"])
            ∧ "site" ≠ k') as (? & ? & ?).
    { repeat (apply elem_of_cons in Hk' as [-> | Hk']);
        [..|by apply elem_of_nil in Hk'];
        (repeat split; try done; decide_col). }
    rewrite merge_example_other by done. unfold inner.
    rewrite merge_dates_cell_other by done. by rewrite Row_get_insert_ne. }
  repeat (apply elem_of_cons in Hk as [-> | Hk]); [..|by apply elem_of_nil in Hk].
  - rewrite !merge_attribution_host. by rewrite Hinner by decide_col.
  - rewrite !merge_attribution_domain. by rewrite Hinner by decide_col.
  - rewrite !merge_attribution_hosts_all, !add_unique_cell.
    by rewrite Hinner by decide_col.
  - rewrite !merge_attribution_domains_all, !add_unique_cell.
    by rewrite Hinner by decide_col.
Qed.

Lemma merged_attribution_cells (row : Row) h d best_key all_key v :
  (best_key, all_key, v) = ("advertiser_host", "advertiser_hosts_all", h)
  ∨ (best_key, all_key, v) = ("advertiser_domain", "advertiser_domains_all", d) →
  merged_attribution v
    (Row_get row best_key) (Row_get row all_key)
    (Row_get (merge_attribution row h d) best_key)
    (Row_get (merge_attribution row h d) all_key).
Proof.
  intros Hkeys.
  assert (Hbest : Row_get (merge_attribution row h d) best_key
                  = if Py.truthy v then v else Row_get row best_key).
  { destruct Hkeys as [[= -> -> ->] | [= -> -> ->]];
      [apply merge_attribution_host | apply merge_attribution_domain]. }
  assert (Hall : Row_get (merge_attribution row h d) all_key
                 = Row_get (_add_unique row all_key v) all_key).
  { destruct Hkeys as [[= -> -> ->] | [= -> -> ->]];
      [apply merge_attribution_hosts_all | apply merge_attribution_domains_all]. }
  rewrite Hbest, Hall. split.
  - intros ->. simpl. by rewrite add_unique_cell.
  - intros Hne. apply truthy_true in Hne as Ht. rewrite Ht.
    split; [done |]. intros Hsc.
    by apply (add_unique_appends_once_aux row all_key v).
Qed.

(** X7.  For a matched record, [observe_image] merges the attribution the
    observation resolves to: an empty host (or domain) changes neither the
    best host nor the list of all hosts; another one becomes the best host
    and is listed after the earlier ones unless it is one of them. *)
Theorem attribution_is_merged L img site o L' bid mtype row row' :
  observe_image L img site o = (L', Return (bid, mtype)) →
  mtype ≠ "new" →
  rows_get (rows L) bid = Some row → rows_get (rows L') bid = Some row' →
  merged_attribution (attribution o).1
    (Row_get row "advertiser_host") (Row_get row "advertiser_hosts_all")
    (Row_get row' "advertiser_host") (Row_get row' "advertiser_hosts_all")
  ∧ merged_attribution (attribution o).2
      (Row_get row "advertiser_domain") (Row_get row "advertiser_domains_all")
      (Row_get row' "advertiser_domain") (Row_get row' "advertiser_domains_all").
Proof.
  intros Ho Hm Hr Hr'.
  destruct (observe_image_matched _ _ _ _ _ _ _ _ Ho Hm Hr) as (ph & _ & Hrow).
  rewrite Hrow in Hr'. injection Hr' as <-.
  rewrite !merge_row_attribution_cell by decide_col.
  split; eapply merged_attribution_cells; [by left | by right].
Qed.

Lemma parse_dates_single date :
  date ≠ "" → no_semicolon date → parse_dates date = {[ date ]}.
Proof.
  intros Hne%truthy_true Hsc. unfold parse_dates.
  rewrite (split_no_sep ";"%char date Hsc). simpl. rewrite Hne. simpl.
  apply (right_id_L ∅ (∪)).
Qed.

Lemma sorted_single (x : string) : sorted {[ x ]} = [x].
Proof. unfold sorted. by rewrite elements_singleton. Qed.

(** X8.  A record made anew starts with the observation's date as its
    first date, its last date and its only seen date, one day seen, the
    site and the example path of the observation, and the id made from the
    image's digest. *)
Theorem new_record_starts_with_one_day L img site o L' bid :
  observe_image L img site o = (L', Return (bid, "new")) →
  effective_date o ≠ "" → no_semicolon (effective_date o) →
  ∃ row',
    rows_get (rows L') bid = Some row'
    ∧ bid = "bn_" +:+ _md5_short img
    ∧ row' !! "banner_id" = Some bid
    ∧ Row_get row' "site" = site
    ∧ Row_get row' "first_seen_date" = effective_date o
    ∧ Row_get row' "last_seen_date" = effective_date o
    ∧ Row_get row' "seen_dates" = effective_date o
    ∧ Row_get row' "days_seen" = "1"
    ∧ Row_get row' "example_path" = example_path o.
Proof.
  intros (ph & rows1 & row0 & Hph & Hc & Hrow & ->)%observe_image_inv Hne Hsc.
  inversion Hc as [| | Hm Hn Hb Ht Hrows]; subst.
  rewrite rows_get_set_eq in Hrow. injection Hrow as <-.
  eexists. split; [apply rows_get_set_eq |].
  set (date := effective_date o) in *.
  set (new := new_row _ site date o _ ph "new").
  assert (Hdates : dates_after new date = {[ date ]}).
  { unfold dates_after.
    change (Row_get new "seen_dates") with date.
    rewrite parse_dates_single by done. apply (idemp_L (∪)). }
  split; [done |]. split; [by rewrite merge_row_banner_id |].
  split.
  { rewrite merge_row_inner by decide_col.
    rewrite merge_context_cell_other by decide_col.
    rewrite merge_dates_cell_other by decide_col.
    rewrite Row_get_insert_eq. change (Row_get new "site") with site.
    unfold Py.or. by destruct (Py.truthy site). }
  split.
  { rewrite merge_row_first_seen. change (Row_get new "first_seen_date") with date.
    rewrite (or_truthy date date Hne). unfold str_min. by destruct (String.ltb _ _). }
  split.
  { rewrite merge_row_last_seen. change (Row_get new "last_seen_date") with date.
    rewrite (or_truthy date date Hne). unfold str_max. by destruct (String.ltb _ _). }
  split.
  { rewrite merge_row_dates by decide_col. rewrite merge_dates_seen_dates.
    by rewrite Hdates, sorted_single. }
  split.
  { rewrite merge_row_dates by decide_col. rewrite merge_dates_days_seen.
    by rewrite Hdates, size_singleton. }
  rewrite merge_row_inner by decide_col. rewrite merge_context_blocks.
  rewrite merge_page_other, merge_iframe_other, merge_source_other by done.
  rewrite merge_attribution_other by decide_col.
  rewrite merge_example_path.
  rewrite merge_dates_cell_other by decide_col.
  rewrite Row_get_insert_ne by done.
  change (Row_get new "example_path") with (example_path o).
  by destruct (Py.truthy (example_path o)).
Qed.

(** X9.  On a ledger the constructor returned, after any run of
    observations, [observe_image] raises in two cases only, and in both it
    leaves the ledger as it was: the decoding error of an image PIL cannot
    read; and the error of [imagehash] when neither the digest nor the
    hash of the image is indexed and the scan meets a record whose
    non-empty hash cannot be compared with the image's.  It never raises
    the [KeyError] of a record that is indexed and absent. *)
Theorem observe_image_raises_only_on_hashing file L obs img site o L' e :
  __init__ file = Return L →
  observe_image (observe_all L obs) img site o = (L', Raise e) →
  L' = observe_all L obs
  ∧ ((e = DecodeError ∧ _phash_hex img = None)
     ∨ (e = HashError
        ∧ ∃ ph, _phash_hex img = Some ph
             ∧ _by_md5 (observe_all L obs) !! _md5_short img = None
             ∧ _by_phash (observe_all L obs) !! ph = None
             ∧ ∃ it, it ∈ rows (observe_all L obs) ∧ hashed it
                     ∧ dist_to ph it = None)).
Proof.
  intros Hinit Ho.
  assert (Hs : index_sound (observe_all L obs))
    by (by eapply observe_all_sound, init_sound).
  destruct (_phash_hex img) as [ph|] eqn:Hph.
  - destruct (observe_image_cases _ img site o ph Hs Hph)
      as [(Heq & Hm & Hp & Hit) | (bid & mtype & rows1 & row & _ & _ & _ & Heq)];
      rewrite Heq in Ho; [|discriminate Ho].
    injection Ho as <- <-. split; [done |]. right. split; [done |].
    by exists ph.
  - unfold observe_image in Ho. rewrite Hph in Ho. injection Ho as <- <-.
    split; [done |]. by left.
Qed.

End RecordFacts.

(** * Further properties of [_load] and [save] *)

Section StoreFacts.

Lemma setdefault_cell (row : Row) k k' :
  Row_get (setdefault row k "") k' = Row_get row k'.
Proof.
  unfold setdefault, Row_get. destruct (row !! k) eqn:E; [done |].
  destruct (decide (k = k')) as [<-|Hne].
  - by rewrite lookup_insert_eq, E.
  - by rewrite lookup_insert_ne.
Qed.

(** Backfilling changes what no cell reads as. *)
Lemma backfill_cell (row : Row) k : Row_get (backfill row) k = Row_get row k.
Proof.
  unfold backfill. generalize LEDGER_FIELDS. intros ks. revert row.
  induction ks as [|k0 ks IH]; intros row; simpl; [done |].
  rewrite IH. by apply setdefault_cell.
Qed.

Lemma dom_setdefault (row : Row) k v : dom (setdefault row k v) = dom row ∪ {[ k ]}.
Proof.
  unfold setdefault. destruct (row !! k) eqn:E.
  - apply set_eq. intros x. rewrite elem_of_union, elem_of_singleton.
    split; [by left |]. intros [?| ->]; [done |]. apply elem_of_dom. eauto.
  - rewrite dom_insert_L. apply set_eq. intros x.
    rewrite !elem_of_union. tauto.
Qed.

Lemma dom_backfill (row : Row) :
  dom (backfill row) = dom row ∪ list_to_set LEDGER_FIELDS.
Proof.
  unfold backfill. generalize LEDGER_FIELDS. intros ks. revert row.
  induction ks as [|k0 ks IH]; intros row; simpl.
  - by rewrite (right_id_L ∅ (∪)).
  - rewrite IH, dom_setdefault. apply set_eq. intros x.
    rewrite !elem_of_union, elem_of_singleton. tauto.
Qed.

Lemma backfill_ok (row : Row) :
  dom (backfill row) ⊆ list_to_set LEDGER_FIELDS
  ↔ dom row ⊆ list_to_set LEDGER_FIELDS.
Proof.
  rewrite dom_backfill. split.
  - intros Hsub x Hx. apply Hsub. apply elem_of_union. by left.
  - intros Hsub x [Hx|Hx]%elem_of_union; [by apply Hsub | done].
Qed.




Lemma load_rows_skip L t bid :
  (∀ x, x ∈ t → Row_get x "banner_id" ≠ bid) →
  rows_get (rows (foldl load_row L t)) bid = rows_get (rows L) bid.
Proof.
  revert L. induction t as [|x t IH]; intros L Hall; [done |].
  cbn [foldl]. rewrite IH by (intros y Hy; apply Hall; by right).
  unfold load_row. destruct (Py.truthy (Row_get x "banner_id")); [|done].
  cbn [negb rows]. apply rows_get_set_ne. apply Hall. left.
Qed.

(** X11.  When several rows of the file carry one [banner_id], the record
    the constructor keeps under it is the last of them. *)
Theorem last_row_of_an_id_wins pre src post L :
  __init__ (Table (pre ++ src :: post)) = Return L →
  Row_get src "banner_id" ≠ "" →
  (∀ x, x ∈ post → Row_get x "banner_id" ≠ Row_get src "banner_id") →
  rows_get (rows L) (Row_get src "banner_id") = Some (backfill src).
Proof.
  intros [= <-] Hne Hpost.
  rewrite foldl_app. cbn [foldl].
  rewrite load_rows_skip by done.
  unfold load_row. apply truthy_true in Hne as ->. cbn [negb rows].
  apply rows_get_set_eq.
Qed.

Lemma save_rows_returns rs written rs' written' :
  save_rows rs written = (rs', written', Return ()) →
  rs' = (λ it, (it.1, backfill it.2)) <$> rs
  ∧ written' = (written ++ rs'.*2)%list
  ∧ Forall (λ it, dom it.2 = list_to_set LEDGER_FIELDS) rs'.
Proof.
  revert written rs' written'.
  induction rs as [|[k row] t IH]; intros written rs' written'.
  - intros [= <- <-]. simpl. by rewrite app_nil_r.
  - cbn [save_rows].
    destruct (bool_decide (dom (backfill row) ⊆ list_to_set LEDGER_FIELDS))
      eqn:Hok; [|done].
    destruct (save_rows t (written ++ [backfill row])) as [[t' w] out] eqn:Hrec.
    intros [= <- <- ->].
    destruct (IH _ _ _ Hrec) as (-> & -> & Hall).
    cbn [fmap list_fmap fst snd]. split; [done |].
    split; [by rewrite <- app_assoc |].
    constructor; [|done]. cbn [snd].
    apply bool_decide_eq_true in Hok. rewrite dom_backfill in Hok |- *.
    apply set_eq. intros x. split; [by apply Hok |].
    intros Hx. apply elem_of_union. by right.
Qed.

(** X12.  When [save] returns, the file holds one row per record, in the
    order of the records, each with exactly the columns of [LEDGER_FIELDS];
    these rows are the records the ledger now holds; every cell reads as it
    did before the call, and the indexes are untouched. *)
Theorem save_writes_the_records L L1 file :
  save L = (L1, file, Return ()) →
  file = Table (rows L1).*2
  ∧ rows L1 = (λ it, (it.1, backfill it.2)) <$> rows L
  ∧ Forall (λ it, dom it.2 = list_to_set LEDGER_FIELDS) (rows L1)
  ∧ (∀ bid, ∀ k,
       ledger_cell L1 bid k = ledger_cell L bid k)
  ∧ _by_md5 L1 = _by_md5 L ∧ _by_phash L1 = _by_phash L.
Proof.
  unfold save.
  destruct (save_rows (rows L) []) as [[rs w] out] eqn:Hs.
  intros [= <- <- ->].
  destruct (save_rows_returns _ _ _ _ Hs) as (-> & -> & Hall).
  cbn [rows _by_md5 _by_phash]. repeat split; try done.
  intros bid k. unfold ledger_cell. cbn [rows]. clear Hs Hall.
  induction (rows L) as [|[k0 r0] t IH]; [done |].
  cbn [fmap list_fmap fst snd rows_get].
  case_decide; [|exact IH]. simpl. f_equal. apply backfill_cell.
Qed.

Lemma save_rows_raises pre bid row post written :
  Forall (λ it, dom it.2 ⊆ list_to_set LEDGER_FIELDS) pre →
  ¬ dom row ⊆ list_to_set LEDGER_FIELDS →
  save_rows (pre ++ (bid, row) :: post) written
  = ((((λ it, (it.1, backfill it.2)) <$> pre) ++ (bid, backfill row) :: post)%list,
     (written ++ (backfill <$> pre.*2))%list,
     Raise ValueError).
Proof.
  intros Hpre Hrow. revert written.
  induction Hpre as [|[k r] t Hr _ IH]; intros written.
  - cbn [app save_rows fmap list_fmap].
    rewrite bool_decide_eq_false_2 by (by rewrite backfill_ok).
    by rewrite app_nil_r.
  - cbn [app save_rows fmap list_fmap fst snd]. cbn [snd] in Hr.
    rewrite bool_decide_eq_true_2 by (by rewrite backfill_ok).
    rewrite IH. by rewrite <- app_assoc.
Qed.

(** X13.  When a record carries a column that is not one of
    [LEDGER_FIELDS], [save] raises [ValueError] at the first such record:
    the file is left holding only the records before it, and the later
    records are not even backfilled. *)
Theorem save_stops_at_a_foreign_column L pre bid row post :
  rows L = (pre ++ (bid, row) :: post)%list →
  Forall (λ it, dom it.2 ⊆ list_to_set LEDGER_FIELDS) pre →
  ¬ dom row ⊆ list_to_set LEDGER_FIELDS →
  save L
  = ({| rows := (((λ it, (it.1, backfill it.2)) <$> pre)
                 ++ (bid, backfill row) :: post)%list;
        _by_md5 := _by_md5 L; _by_phash := _by_phash L |},
     Table (backfill <$> pre.*2),
     Raise ValueError).
Proof.
  intros Hrows Hpre Hrow. unfold save. rewrite Hrows.
  by rewrite (save_rows_raises pre bid row post [] Hpre Hrow).
Qed.

End StoreFacts.

(** * What the scrapers read back from the ledger *)

Section Monotone.
Context `{Externals}.
Context (P : Row → Prop).
Context (HP : ∀ (r : Row) k v, P r → P (<[k:=v]> r)).

Lemma cond_insert_mono (c : bool) (r : Row) k v :
  P r → P (if c then <[k:=v]> r else r).
Proof using HP. destruct c; [apply HP | done]. Qed.

Lemma add_unique_mono (r : Row) key value : P r → P (_add_unique r key value).
Proof using HP.
  intros Hr. unfold _add_unique.
  destruct (negb (Py.truthy value)); [done | by apply HP].
Qed.

Lemma merge_dates_mono (r : Row) date : P r → P (merge_dates r date).
Proof using HP.
  intros Hr. unfold merge_dates. cbv zeta. by do 4 apply HP.
Qed.

Lemma merge_context_mono (r : Row) o : P r → P (merge_context r o).
Proof using HP.
  intros Hr. rewrite merge_context_blocks.
  unfold merge_page, merge_iframe, merge_source, merge_attribution,
    merge_example. cbv zeta.
  apply cond_insert_mono.
  destruct (Py.opt_truthy (iframe_src o)).
  all: repeat first [ apply cond_insert_mono | apply add_unique_mono ].
  all: destruct (Py.opt_truthy (example_rel o)).
  all: repeat first [ apply cond_insert_mono | apply HP ]; done.
Qed.

Lemma merge_row_mono (r : Row) site date o md5s ph mtype :
  P r → P (merge_row r site date o md5s ph mtype).
Proof using HP.
  intros Hr. unfold merge_row. cbv zeta. do 3 apply HP.
  apply merge_context_mono, merge_dates_mono. by apply HP.
Qed.

End Monotone.

Section ReadBack.
Context `{Externals}.

Lemma present_insert (r : Row) k v : present r → present (<[k:=v]> r).
Proof.
  intros Hr k' Hk'. destruct (decide (k = k')) as [<-|Hne].
  - rewrite lookup_insert_eq. eauto.
  - rewrite lookup_insert_ne by done. by apply Hr.
Qed.

Lemma present_backfill (r : Row) : present (backfill r).
Proof.
  intros k Hk. apply elem_of_dom. rewrite dom_backfill.
  apply elem_of_union. right. by apply elem_of_list_to_set.
Qed.

Lemma rows_set_Forall (Q : string * Row → Prop) rs k (r : Row) :
  Forall Q rs → Q (k, r) → Forall Q (rows_set rs k r).
Proof.
  intros Hall Hr. induction Hall as [|[k' r'] t Hhd Htl IH]; simpl.
  - constructor; [exact Hr | constructor].
  - case_decide; constructor; done.
Qed.

Lemma init_present file L :
  __init__ file = Return L → Forall (λ it, present it.2) (rows L).
Proof.
  destruct file as [| |t]; simpl; try done.
  - intros [= <-]. constructor.
  - intros [= <-].
    assert (Hemp : Forall (λ it : string * Row, present it.2) (rows empty_ledger))
      by constructor.
    revert Hemp. generalize empty_ledger.
    induction t as [|x t IH]; intros L0 H0; [done |].
    cbn [foldl]. apply IH. unfold load_row.
    destruct (Py.truthy (Row_get x "banner_id")); [|done].
    cbn [negb rows]. apply rows_set_Forall; [done |]. apply present_backfill.
Qed.

Lemma observe_image_present L img site o :
  index_sound L → Forall (λ it, present it.2) (rows L) →
  Forall (λ it, present it.2) (rows (observe_image L img site o).1).
Proof.
  intros Hs Hall.
  destruct (_phash_hex img) as [ph|] eqn:Hph.
  2:{ unfold observe_image. by rewrite Hph. }
  destruct (observe_image_cases L img site o ph Hs Hph)
    as [(Heq & _) | (bid & mtype & rows1 & row & Hc & Hrow & Hne & Heq)].
  { by rewrite Heq. }
  rewrite Heq. cbn [fst rows].
  assert (Hall1 : Forall (λ it : string * Row, present it.2) rows1).
  { destruct Hc; try done.
    apply rows_set_Forall; [done |]. cbn [snd].
    intros k Hk. apply elem_of_dom.
    destruct (new_row_full (_md5_short img) site (effective_date o) o ph "new")
      as (_ & _ & ->).
    by apply elem_of_list_to_set. }
  apply rows_set_Forall; [done |]. cbn [snd].
  apply merge_row_mono; [apply present_insert |].
  apply rows_get_elem in Hrow.
  exact (proj1 (Forall_forall _ _) Hall1 (bid, row) Hrow).
Qed.

Lemma observe_all_present L obs :
  index_sound L → Forall (λ it, present it.2) (rows L) →
  Forall (λ it, present it.2) (rows (observe_all L obs)).
Proof.
  revert L. induction obs as [|ob obs IH]; intros L Hs Hall; [done |].
  simpl. apply IH.
  - apply (observe_all_sound L [ob] Hs).
  - by apply observe_image_present.
Qed.

(** X14.  On a ledger the constructor returned, after any run of
    observations, a returning [observe_image] leaves a record under the
    [banner_id] it returns, and every record of the ledger has every column
    of [LEDGER_FIELDS] as a key: the subscripts with which the scrapers
    read the record back cannot raise [KeyError]. *)
Theorem observed_record_has_every_column file L obs img site o L' bid mtype :
  __init__ file = Return L →
  observe_image (observe_all L obs) img site o = (L', Return (bid, mtype)) →
  is_Some (rows_get (rows L') bid) ∧ columns_present L'.
Proof.
  intros Hinit Ho. split.
  - apply observe_image_inv in Ho as (ph & rows1 & row0 & _ & _ & _ & ->).
    cbn [rows]. rewrite rows_get_set_eq. eauto.
  - assert (Hall : Forall (λ it, present it.2)
                     (rows (observe_image (observe_all L obs) img site o).1)).
    { apply observe_image_present.
      - by eapply observe_all_sound, init_sound.
      - apply observe_all_present; [by eapply init_sound |].
        by eapply init_present. }
    rewrite Ho in Hall. cbn [fst] in Hall.
    intros b row Hrow%rows_get_elem.
    exact (proj1 (Forall_forall _ _) Hall (b, row) Hrow).
Qed.

End ReadBack.

(** * The resolvers of the ledger and of the scrapers *)

Section MoreResolverFacts.
Context `{Externals}.

Lemma lower_ascii_idem c : Py.lower_ascii (Py.lower_ascii c) = Py.lower_ascii c.
Proof. destruct c as [[] [] [] [] [] [] [] []]; reflexivity. Qed.

Lemma lower_idem s : Py.lower (Py.lower s) = Py.lower s.
Proof.
  induction s as [|c s IH]; [done |]. simpl. by rewrite lower_ascii_idem, IH.
Qed.

Lemma last_two_pair {A} (l : list A) :
  (2 ≤ List.length l)%nat →
  ∃ x y, Py.last_two l = [x; y] ∧ x ∈ l ∧ y ∈ l.
Proof.
  intros Hlen. unfold Py.last_two.
  pose proof (length_drop l (List.length l - 2)) as Hd.
  assert (Hsub : ∀ z, z ∈ drop (List.length l - 2) l → z ∈ l).
  { intros z Hz. rewrite <- (take_drop (List.length l - 2) l).
    apply elem_of_app. by right. }
  destruct (drop (List.length l - 2) l) as [|x [|y [|z t]]];
    simpl in Hd; try lia.
  exists x, y. split; [done |]. split; apply Hsub; [left | right; left].
Qed.

Lemma etld1_naive_fallback host :
  host ≠ "" → Ikon._etld1_naive host = _etld1_fallback host.
Proof.
  intros Hne%truthy_true. unfold Ikon._etld1_naive. by rewrite Hne.
Qed.

Lemma etld1_fallback_idem host :
  _etld1_fallback (_etld1_fallback host) = _etld1_fallback host.
Proof.
  destruct (2 <=? List.length (Py.split "." host))%nat eqn:E.
  - assert (Hf : ∃ x y, _etld1_fallback host = x +:+ String "." y
                        ∧ Py.contains "." x = false ∧ Py.contains "." y = false).
    { unfold _etld1_fallback. rewrite E. apply Nat.leb_le in E.
      destruct (last_two_pair _ E) as (x & y & -> & Hx & Hy).
      apply split_elems_no_sep in Hx, Hy. by exists x, y. }
    destruct Hf as (x & y & -> & Hx & Hy).
    unfold _etld1_fallback.
    rewrite split_sep_app by done. by rewrite (split_no_sep _ _ Hy).
  - assert (Hf : _etld1_fallback host = host)
      by (unfold _etld1_fallback; by rewrite E).
    by rewrite !Hf.
Qed.

(** X15.  The naive domain resolver of the scrapers is idempotent, it is
    empty on the empty host only, and it is what the ledger's own resolver
    computes when [tldextract] could not be imported. *)
Theorem etld1_naive_is_idempotent host :
  Ikon._etld1_naive (Ikon._etld1_naive host) = Ikon._etld1_naive host
  ∧ (Ikon._etld1_naive host = "" ↔ host = "")
  ∧ (tldextract = None → _etld1_from_host host = Ikon._etld1_naive host).
Proof.
  destruct (decide (host = "")) as [->|Hne]; [by repeat split |].
  split; [|split].
  - rewrite (etld1_naive_fallback host Hne).
    rewrite etld1_naive_fallback by (by apply etld1_fallback_nonempty).
    apply etld1_fallback_idem.
  - rewrite (etld1_naive_fallback host Hne). split; [|done].
    intros He. by apply etld1_fallback_nonempty in He.
  - intros Hnone. unfold _etld1_from_host, Ikon._etld1_naive.
    by rewrite Hnone.
Qed.

Lemma host_from_url_lower url : Py.lower (_host_from_url url) = _host_from_url url.
Proof.
  unfold _host_from_url. destruct url as [u|]; [|done].
  destruct (negb (Py.truthy u)); [done |].
  destruct (urlparse_netloc u); [apply lower_idem | done].
Qed.

Lemma host_from_hint_lower hint :
  Py.lower (_host_from_hint hint) = _host_from_hint hint.
Proof.
  unfold _host_from_hint. destruct hint as [h|]; [|done].
  destruct (negb (Py.truthy h)); [done |]. cbv zeta.
  destruct (negb (Py.truthy (Py.lower (Py.strip h)))); [done |].
  destruct (_ || _); [|apply lower_idem].
  destruct (urlparse_netloc _); apply lower_idem.
Qed.

(** X16.  The hosts the ledger resolves hold no upper-case ASCII letter:
    lower-casing the result of [_host_from_url], of [_host_from_hint] or the
    host [_choose_advertiser] returns changes nothing. *)
Theorem resolved_hosts_are_lower_case url hint click page :
  Py.lower (_host_from_url url) = _host_from_url url
  ∧ Py.lower (_host_from_hint hint) = _host_from_hint hint
  ∧ Py.lower (_choose_advertiser hint click page).1
    = (_choose_advertiser hint click page).1.
Proof.
  split; [apply host_from_url_lower |]. split; [apply host_from_hint_lower |].
  rewrite choose_advertiser_unfold. unfold choose_advertiser_spec. cbv zeta.
  destruct (decide _); [apply host_from_hint_lower |].
  destruct (decide _); [apply host_from_url_lower | done].
Qed.

(** X17.  For a hint of ASCII characters: a hint that is a bare host (no
    [://] in it, no [//] in front) resolves to itself, trimmed and
    lower-cased.  A hint with [://] in it resolves as [_host_from_url]
    resolves the trimmed, lower-cased hint when [urlparse] accepts it;
    when [urlparse] raises, the whole trimmed, lower-cased hint is taken
    as the host. *)
Theorem host_from_hint_cases h :
  Py.is_ascii h = true →
  let s := Py.lower (Py.strip h) in
  (Py.contains "://" s = false → Py.startswith s "//" = false →
   _host_from_hint (Some h) = s)
  ∧ (Py.contains "://" s = true → urlparse_netloc s ≠ None →
     _host_from_hint (Some h) = _host_from_url (Some s))
  ∧ (Py.contains "://" s = true → urlparse_netloc s = None →
     _host_from_hint (Some h) = s).
Proof.
  intros _ s. unfold _host_from_hint. fold s.
  destruct (Py.truthy h) eqn:Hh; cbn [negb].
  2:{ apply truthy_false in Hh. subst h. subst s. simpl.
      repeat split; try done. }
  destruct (Py.truthy s) eqn:Hs; cbn [negb].
  2:{ apply truthy_false in Hs. rewrite Hs. repeat split; try done. }
  split; [|split].
  - intros -> ->. done.
  - intros Hc Hn. rewrite Hc. cbn [orb].
    unfold _host_from_url. rewrite Hs. cbn [negb].
    destruct (urlparse_netloc s) as [n|]; [|done].
    by rewrite or_empty_r.
  - intros Hc Hn. rewrite Hc. cbn [orb]. by rewrite Hn.
Qed.

End MoreResolverFacts.

(** * The scrapers and the ledger *)

Section ScraperFacts.
Context `{Externals}.

Lemma gogo_etld1 host : Gogo._etld1 host = _etld1_from_host host.
Proof. reflexivity. Qed.

Lemma gogo_host u : u ≠ "" → _host_from_url (Some u) = Gogo._host u.
Proof.
  intros Hu%truthy_true. unfold _host_from_url, Gogo._host. by rewrite Hu.
Qed.

Lemma ledger_skip_in_gogo_skip x : x ∈ AD_HOST_SKIP → x ∈ Gogo.AD_HOST_SKIP.
Proof.
  assert (Hsub : AD_HOST_SKIP ⊆ Gogo.AD_HOST_SKIP) by decide_col.
  apply Hsub.
Qed.

Lemma social_not_in_ledger_skip x : x ∈ Gogo.SOCIAL_SKIP → x ∉ AD_HOST_SKIP.
Proof.
  assert (Hdis : Gogo.SOCIAL_SKIP ## AD_HOST_SKIP) by decide_col.
  intros Hx Hy. exact (Hdis x Hx Hy).
Qed.

Lemma host_from_hint_bare h :
  Py.contains "://" (Py.lower (Py.strip h)) = false →
  Py.startswith (Py.lower (Py.strip h)) "//" = false →
  _host_from_hint (Some h) = Py.lower (Py.strip h).
Proof.
  intros Hc Hs. unfold _host_from_hint.
  destruct (Py.truthy h) eqn:Hh; cbn [negb].
  2:{ apply truthy_false in Hh. by subst h. }
  destruct (Py.truthy (Py.lower (Py.strip h))) eqn:Ht; cbn [negb].
  2:{ by apply truthy_false in Ht. }
  by rewrite Hc, Hs.
Qed.

Lemma page_domain_differs h page :
  h ≠ "" →
  _etld1_from_host h ≠ _etld1_from_host (Gogo._host page) →
  _etld1_from_host h ≠ _etld1_from_host (_host_from_url (Some page)).
Proof.
  intros Hh Hne. destruct (decide (page = "")) as [->|Hp].
  - simpl. rewrite etld1_empty. by apply etld1_nonempty.
  - by rewrite gogo_host.
Qed.

Lemma choose_advertiser_host_inv click page adv :
  Gogo._choose_advertiser_host click page = adv → adv ≠ "" →
  adv = Gogo._host click
  ∧ _etld1_from_host adv ≠ _etld1_from_host (Gogo._host page)
  ∧ (adv ∉ Gogo.AD_HOST_SKIP) ∧ (_etld1_from_host adv ∉ Gogo.AD_HOST_SKIP)
  ∧ (adv ∉ Gogo.SOCIAL_SKIP) ∧ (_etld1_from_host adv ∉ Gogo.SOCIAL_SKIP).
Proof.
  unfold Gogo._choose_advertiser_host. cbv zeta. rewrite !gogo_etld1.
  destruct (negb _); [congruence |].
  case_bool_decide as Hd; [congruence |].
  case_bool_decide as Ha1; [simpl; congruence |].
  case_bool_decide as Ha2; [simpl; congruence |].
  case_bool_decide as Hs1; [simpl; congruence |].
  case_bool_decide as Hs2; [simpl; congruence |].
  simpl. intros <- _. done.
Qed.

(** X18.  A host that gogo's chooser accepts is the advertiser the ledger
    records when gogo passes it on as the hint, provided the host has no
    white space around it and does not read as a URL: the ledger's own
    rules never overrule gogo's choice. *)
Theorem gogo_choice_is_recorded click page :
  let adv := Gogo._choose_advertiser_host click page in
  adv ≠ "" →
  Py.strip adv = adv →
  Py.contains "://" adv = false → Py.startswith adv "//" = false →
  _choose_advertiser (Some adv) (Some click) (Some page)
  = (adv, _etld1_from_host adv).
Proof.
  intros adv Hne Hstrip Hc Hs.
  destruct (choose_advertiser_host_inv click page adv eq_refl Hne)
    as (Hadv & Hpage & _ & Hskip & _ & _).
  assert (Hlow : Py.lower adv = adv).
  { rewrite Hadv. unfold Gogo._host.
    destruct (urlparse_netloc click); [apply lower_idem | done]. }
  assert (Hhint : _host_from_hint (Some adv) = adv).
  { rewrite host_from_hint_bare; rewrite Hstrip, Hlow; done. }
  rewrite choose_advertiser_unfold. unfold choose_advertiser_spec. cbv zeta.
  rewrite Hhint. rewrite decide_True; [done |].
  split; [by apply etld1_nonempty |]. split.
  - intros Hin. by apply Hskip, ledger_skip_in_gogo_skip.
  - by apply page_domain_differs.
Qed.

(** X19.  gogo's list of social hosts does not reach the ledger: for a
    click URL on a domain of [SOCIAL_SKIP] that is not the page's, gogo's
    chooser returns no advertiser, and the ledger, called as gogo calls it
    with the empty hint, records that very host as the advertiser. *)
Theorem social_hosts_reach_the_ledger click page :
  _etld1_from_host (Gogo._host click) ∈ Gogo.SOCIAL_SKIP →
  _etld1_from_host (Gogo._host click)
  ≠ _etld1_from_host (Gogo._host page) →
  click ≠ "" →
  Gogo._choose_advertiser_host click page = ""
  ∧ _choose_advertiser (Some "") (Some click) (Some page)
    = (Gogo._host click, _etld1_from_host (Gogo._host click)).
Proof.
  intros Hsoc Hpage Hclick.
  assert (Hh : Gogo._host click ≠ "").
  { intros He. rewrite He, etld1_empty in Hsoc. revert Hsoc. decide_col. }
  split.
  - unfold Gogo._choose_advertiser_host. cbv zeta. rewrite !gogo_etld1.
    destruct (negb _); [done |].
    case_bool_decide; [done |].
    destruct (_ || _); [done |].
    rewrite (bool_decide_eq_true_2 _ Hsoc). by rewrite orb_true_r.
  - rewrite choose_advertiser_unfold. unfold choose_advertiser_spec. cbv zeta.
    rewrite decide_False.
    2:{ intros (Hne & _). by apply Hne. }
    rewrite (gogo_host click Hclick). rewrite decide_True; [done |].
    split; [by apply etld1_nonempty |]. split.
    + by apply social_not_in_ledger_skip.
    + by apply page_domain_differs.
Qed.

Lemma etld1_naive_truthy h : Py.truthy (Ikon._etld1_naive h) = Py.truthy h.
Proof.
  destruct (decide (h = "")) as [->|Hne]; [done |].
  rewrite (proj2 (truthy_true h) Hne). apply truthy_true.
  rewrite etld1_naive_fallback by done. by apply etld1_fallback_nonempty.
Qed.

Lemma guess_loop_spec page fb hrefs :
  Ikon.guess_loop (Ikon._etld1_naive (Ikon._host page)) fb hrefs
  = match List.filter (Ikon.off_site page) hrefs with
    | h :: _ => h
    | [] => if Py.truthy fb then fb
            else match List.filter Py.truthy hrefs with
                 | h :: _ => h
                 | [] => ""
                 end
    end.
Proof.
  revert fb. induction hrefs as [|x t IH]; intros fb.
  - simpl. by destruct fb.
  - cbn [Ikon.guess_loop List.filter]. unfold Ikon.off_site at 1.
    rewrite etld1_naive_truthy.
    destruct (Py.truthy x) eqn:Hx; cbn [negb andb]; [|apply IH].
    destruct (Py.truthy (Ikon._host x) && bool_decide _); [done |].
    rewrite IH. destruct (List.filter (Ikon.off_site page) t); [|done].
    destruct (Py.truthy fb) eqn:Hfb; cbn [negb]; [by rewrite Hfb |].
    by rewrite Hx.
Qed.

(** X20.  ikon's [_guess_click_url] returns the first anchor that leads
    off the page's own domain when there is one, else the first anchor
    with a non-empty [href], else the empty text. *)
Theorem guess_click_url_prefers_off_site page hrefs :
  Ikon._guess_click_url page hrefs
  = match List.filter (Ikon.off_site page) hrefs with
    | h :: _ => h
    | [] => match List.filter Py.truthy hrefs with
            | h :: _ => h
            | [] => ""
            end
    end.
Proof.
  unfold Ikon._guess_click_url. case_bool_decide as Hn.
  - by destruct hrefs.
  - by rewrite guess_loop_spec.
Qed.

End ScraperFacts.

Section ClickChoice.
Context `{Externals} `{UrlJoin}.

(** X21.  gogo's [_normalize_click_choice] does what its docstring says:
    with a usable destination on the slide, the anchor is taken only when
    it leads to another network location than the page's, and the
    destination in every other case, also when a URL cannot be parsed or
    the anchor cannot be joined; without one, the anchor when it is
    usable, else the empty text. *)
Theorem normalize_click_choice_meets_docstring page_url dest_attr a_href :
  Gogo._normalize_click_choice page_url dest_attr a_href
  = Gogo.click_choice_spec page_url dest_attr a_href.
Proof.
  unfold Gogo._normalize_click_choice, Gogo.click_choice_spec,
    Gogo.anchor_off_site. cbv zeta.
  destruct (Py.truthy (Py.strip dest_attr)
            && negb (Gogo._is_useless_href (Py.strip dest_attr))); [|done].
  destruct (Py.truthy (Py.strip a_href)) eqn:Ha; cbn [andb].
  - destruct (urlparse_netloc (Py.strip a_href)) as [ap|];
      [|done].
    destruct (urlparse_netloc page_url) as [pp|]; [|done].
    destruct (Py.truthy ap); cbn [negb orb andb].
    + case_bool_decide as Heq.
      * rewrite bool_decide_eq_false_2 by (intros Hn; by apply Hn).
        by destruct (Gogo.join_url page_url (Py.strip dest_attr)).
      * rewrite bool_decide_eq_true_2 by done. done.
    + by destruct (Gogo.join_url page_url (Py.strip dest_attr)).
  - destruct (urlparse_netloc page_url) as [pp|]; [|done].
    by destruct (Gogo.join_url page_url (Py.strip dest_attr)).
Qed.

End ClickChoice.

(** * The public link, in the ledger and in the workbook *)

Section PublicUrl.
Context `{Externals}.

Lemma append_assoc3 (a b c : string) : (a +:+ b) +:+ c = a +:+ b +:+ c.
Proof.
  induction a as [|x a IH]; [done |].
  change (String x ((a +:+ b) +:+ c) = String x (a +:+ b +:+ c)).
  by rewrite IH.
Qed.

Lemma rev_app_append (r acc : string) :
  String.rev_app r acc = String.rev_app r "" +:+ acc.
Proof.
  revert acc. induction r as [|c r IH]; intros acc; [done |].
  simpl. rewrite (IH (String c acc)), (IH (String c "")).
  by rewrite append_assoc3.
Qed.

Lemma rev_cons c (r : string) :
  String.rev (String c r) = String.rev r +:+ String c "".
Proof. unfold String.rev. simpl. apply rev_app_append. Qed.

Lemma prefix_char c x (t : string) :
  String.prefix (String c "") (String x t) = Ascii.eqb x c.
Proof.
  simpl. destruct (ascii_dec c x) as [->|Hne].
  - rewrite Ascii.eqb_refl. by destruct t.
  - symmetry. apply Ascii.eqb_neq. congruence.
Qed.

Lemma last_char_slash (s : string) :
  Py.endswith s "/" = false → Shipping.rstrip_slash s = s.
Proof.
  unfold Py.endswith. change (String.rev "/") with "/".
  induction s as [|c r IH]; [done |].
  rewrite rev_cons. cbn [Shipping.rstrip_slash].
  destruct r as [|c' r'].
  - change (String.rev "" +:+ String c "") with (String c "").
    rewrite prefix_char. cbn [Shipping.rstrip_slash]. by intros ->.
  - intros Hp.
    assert (Hr : String.prefix "/" (String.rev (String c' r')) = false).
    { revert Hp. generalize (String.rev (String c' r')). intros [|x t]; [done |].
      change (String x t +:+ String c "") with (String x (t +:+ String c "")).
      by rewrite !prefix_char. }
    by rewrite (IH Hr).
Qed.

Lemma first_char_slash (s : string) :
  Py.startswith s "/" = false → Shipping.lstrip_slash s = s.
Proof.
  destruct s as [|c r]; [done |]. unfold Py.startswith.
  rewrite prefix_char. cbn [Shipping.lstrip_slash]. by intros ->.
Qed.

Lemma replace_absent a b (s : string) :
  Py.contains (String a "") s = false → Py.replace a b s = s.
Proof.
  induction s as [|c r IH]; [done |].
  rewrite contains_char_cons. intros [Hc Hr]%orb_false_elim.
  simpl. by rewrite Hc, (IH Hr).
Qed.

(** X22.  For a base URL with no white space around it and no slash at its
    end, and a relative path with no backslash in it and no slash in front,
    the link [shipping.py] builds for a banner is the [example_url] the
    ledger stores for it. *)
Theorem public_links_agree rel :
  Py.strip (Py.opt_or env_PUBLIC_BASE_URL "") = Py.opt_or env_PUBLIC_BASE_URL "" →
  Py.endswith (Py.opt_or env_PUBLIC_BASE_URL "") "/" = false →
  Py.contains "\" rel = false →
  Py.startswith rel "/" = false →
  Shipping._public_url_from_rel rel = _public_url_from_rel rel.
Proof.
  intros Hstrip Hend Hback Hfront.
  unfold Shipping._public_url_from_rel, _public_url_from_rel. cbv zeta.
  rewrite Hstrip, (last_char_slash _ Hend), Hend.
  destruct (negb _ || negb _); [done |]. cbn [negb].
  by rewrite (first_char_slash _ Hfront), (replace_absent _ _ _ Hback),
    append_assoc3.
Qed.

End PublicUrl.

(** * Observing the same banner again *)

Section CellFacts.
Context `{Externals}.

Lemma inner_cell (row : Row) site date k :
  k ∉ ["first_seen_date"; "last_seen_date"; "seen_dates"; "days_seen"] →
  "site" ≠ k →
  Row_get (merge_dates (<["site" := Py.or (Row_get row "site") site]> row) date) k
  = Row_get row k.
Proof.
  intros Hk Hs. rewrite merge_dates_cell_other by done.
  by rewrite Row_get_insert_ne.
Qed.

Lemma merge_context_example_path (x : Row) o :
  Row_get (merge_context x o) "example_path"
  = if Py.truthy (Row_get x "example_path")
    then Row_get x "example_path" else example_path o.
Proof.
  rewrite merge_context_blocks.
  rewrite merge_page_other, merge_iframe_other, merge_source_other by done.
  rewrite merge_attribution_other by decide_col. apply merge_example_path.
Qed.

Lemma merge_context_example_rel (x : Row) o :
  Row_get (merge_context x o) "example_rel"
  = if Py.opt_truthy (example_rel o)
    then Py.opt_or (example_rel o) "" else Row_get x "example_rel".
Proof.
  rewrite merge_context_blocks.
  rewrite merge_page_other, merge_iframe_other, merge_source_other by done.
  rewrite merge_attribution_other by decide_col.
  unfold merge_example. cbv zeta.
  destruct (Py.opt_truthy (example_rel o)).
  - rewrite Row_get_insert_ne by done. apply Row_get_insert_eq.
  - by rewrite Row_get_cond_ne.
Qed.

Lemma merge_context_example_url (x : Row) o :
  Row_get (merge_context x o) "example_url"
  = if Py.opt_truthy (example_rel o)
    then _public_url_from_rel (Py.opt_or (example_rel o) "")
    else Row_get x "example_url".
Proof.
  rewrite merge_context_blocks.
  rewrite merge_page_other, merge_iframe_other, merge_source_other by done.
  rewrite merge_attribution_other by decide_col.
  unfold merge_example. cbv zeta.
  destruct (Py.opt_truthy (example_rel o)).
  - apply Row_get_insert_eq.
  - by rewrite Row_get_cond_ne.
Qed.

Lemma merge_context_source (x : Row) o :
  Row_get (merge_context x o) "source_host"
  = if Py.truthy (_host_from_url (asset_url o))
       && negb (Py.truthy (Row_get x "source_host"))
    then _host_from_url (asset_url o) else Row_get x "source_host".
Proof.
  rewrite merge_context_blocks.
  rewrite merge_page_other, merge_iframe_other by done.
  unfold merge_source. cbv zeta. rewrite Row_get_guarded.
  rewrite merge_attribution_other by decide_col.
  by rewrite merge_example_other by decide_col.
Qed.

Lemma merge_context_iframe (x : Row) o :
  Row_get (merge_context x o) "iframe_host"
  = if Py.opt_truthy (iframe_src o)
    then (if Py.truthy (_host_from_url (iframe_src o))
             && negb (Py.truthy (Row_get x "iframe_host"))
          then _host_from_url (iframe_src o) else Row_get x "iframe_host")
    else Row_get x "iframe_host".
Proof.
  rewrite merge_context_blocks. rewrite merge_page_other by done.
  assert (Hin : Row_get (merge_source
                           (merge_attribution (merge_example x o)
                              (attribution o).1 (attribution o).2) o)
                  "iframe_host"
                = Row_get x "iframe_host").
  { rewrite merge_source_other by done.
    rewrite merge_attribution_other by decide_col.
    by rewrite merge_example_other by decide_col. }
  unfold merge_iframe. cbv zeta.
  destruct (Py.opt_truthy (iframe_src o)); [|done].
  by rewrite Row_get_guarded, Hin.
Qed.

Lemma merge_context_page (x : Row) o :
  Row_get (merge_context x o) "page_domain"
  = let pg_host := _host_from_url (page_url o) in
    let pg_dom := if Py.truthy pg_host then _etld1_from_host pg_host else "" in
    if Py.truthy pg_dom && negb (Py.truthy (Row_get x "page_domain"))
    then pg_dom else Row_get x "page_domain".
Proof.
  rewrite merge_context_blocks.
  assert (Hin : Row_get (merge_iframe
                           (merge_source
                              (merge_attribution (merge_example x o)
                                 (attribution o).1 (attribution o).2) o) o)
                  "page_domain"
                = Row_get x "page_domain").
  { rewrite merge_iframe_other, merge_source_other by done.
    rewrite merge_attribution_other by decide_col.
    by rewrite merge_example_other by decide_col. }
  unfold merge_page. cbv zeta. by rewrite Row_get_guarded, Hin.
Qed.

Lemma merge_context_attribution (x : Row) o k :
  k ∈ ["advertiser_host"; "advertiser_domain";
       "advertiser_hosts_all"; "advertiser_domains_all"] →
  Row_get (merge_context x o) k
  = Row_get (merge_attribution x (attribution o).1 (attribution o).2) k.
Proof.
  intros Hk. rewrite merge_context_blocks.
  assert (Hk' : k ≠ "page_domain" ∧ k ≠ "iframe_host" ∧ k ≠ "source_host"
                ∧ (k ∉ ["example_path"; "example_rel"; "example_url"])).
  { repeat (apply elem_of_cons in Hk as [-> | Hk]);
      [..|by apply elem_of_nil in Hk]; (repeat split; try done; decide_col). }
  destruct Hk' as (? & ? & ? & Hex).
  rewrite merge_page_other, merge_iframe_other, merge_source_other by done.
  assert (Hcells : ∀ k', k' ∈ ["advertiser_host"; "advertiser_domain";
                               "advertiser_hosts_all"; "advertiser_domains_all"] →
            Row_get (merge_example x o) k' = Row_get x k').
  { intros k' Hk'. apply merge_example_other.
    repeat (apply elem_of_cons in Hk' as [-> | Hk']);
      [..|by apply elem_of_nil in Hk']; decide_col. }
  repeat (apply elem_of_cons in Hk as [-> | Hk]); [..|by apply elem_of_nil in Hk].
  - rewrite !merge_attribution_host. rewrite Hcells by decide_col. done.
  - rewrite !merge_attribution_domain. rewrite Hcells by decide_col. done.
  - rewrite !merge_attribution_hosts_all, !add_unique_cell.
    rewrite Hcells by decide_col. done.
  - rewrite !merge_attribution_domains_all, !add_unique_cell.
    rewrite Hcells by decide_col. done.
Qed.

End CellFacts.

Section RepeatFacts.
Context `{Externals}.

(** Each cell after a merge, but for [matches] and [days_seen], is
    [cell_after] of what it held. *)
Lemma merge_row_cell (row : Row) site date o md5s ph mtype k :
  k ≠ "matches" → k ≠ "days_seen" →
  Row_get (merge_row row site date o md5s ph mtype) k
  = cell_after site date o md5s ph k (Row_get row k).
Proof.
  intros Hm Hd. unfold cell_after.
  destruct (decide (k = "md5")) as [->|Hmd5];
    [by rewrite merge_row_md5 |].
  destruct (decide (k = "phash")) as [->|Hph];
    [by rewrite merge_row_phash |].
  rewrite merge_row_inner
    by (repeat (apply not_elem_of_cons; split; [done |]); apply not_elem_of_nil).
  repeat case_decide; subst; try done.
  - rewrite merge_context_cell_other, merge_dates_cell_other by decide_col.
    apply Row_get_insert_eq.
  - rewrite <- (merge_row_inner row site date o md5s ph mtype) by decide_col.
    apply merge_row_first_seen.
  - rewrite <- (merge_row_inner row site date o md5s ph mtype) by decide_col.
    apply merge_row_last_seen.
  - rewrite merge_context_cell_other by decide_col.
    rewrite merge_dates_seen_dates. unfold dates_after.
    by rewrite Row_get_insert_ne.
  - rewrite merge_context_example_path. by rewrite inner_cell by (done || decide_col).
  - rewrite merge_context_example_rel. by rewrite inner_cell by (done || decide_col).
  - rewrite merge_context_example_url. by rewrite inner_cell by (done || decide_col).
  - rewrite merge_context_attribution by decide_col.
    rewrite merge_attribution_host. by rewrite inner_cell by (done || decide_col).
  - rewrite merge_context_attribution by decide_col.
    rewrite merge_attribution_domain.
    by rewrite inner_cell by (done || decide_col).
  - rewrite merge_context_attribution by decide_col.
    rewrite merge_attribution_hosts_all, add_unique_cell.
    by rewrite inner_cell by (done || decide_col).
  - rewrite merge_context_attribution by decide_col.
    rewrite merge_attribution_domains_all, add_unique_cell.
    by rewrite inner_cell by (done || decide_col).
  - rewrite merge_context_source. by rewrite inner_cell by (done || decide_col).
  - rewrite merge_context_iframe. by rewrite inner_cell by (done || decide_col).
  - rewrite merge_context_page. cbv zeta.
    by rewrite inner_cell by (done || decide_col).
  - rewrite merge_context_cell_other.
    + apply inner_cell; [|done].
      repeat (apply not_elem_of_cons; split; [done |]). apply not_elem_of_nil.
    + unfold context_columns.
      repeat (apply not_elem_of_cons; split; [done |]). apply not_elem_of_nil.
Qed.

Lemma ltb_irrefl (a : string) : String.ltb a a = false.
Proof.
  unfold String.ltb. pose proof (String.compare_antisym a a) as Ha.
  destruct (String.compare a a); try done.
Qed.

Lemma or_idem (a b : string) : Py.or (Py.or a b) b = Py.or a b.
Proof. destruct a; [by destruct b | done]. Qed.

Lemma or_nonempty (a b : string) : b ≠ "" → Py.or a b ≠ "".
Proof. by destruct a. Qed.

Lemma str_min_idem (a d : string) :
  d ≠ "" → str_min (Py.or (str_min (Py.or a d) d) d) d = str_min (Py.or a d) d.
Proof.
  intros Hd. pose proof (or_nonempty a d Hd) as Ha.
  unfold str_min at 2 3. destruct (String.ltb d (Py.or a d)) eqn:E.
  - rewrite (or_truthy d d Hd). unfold str_min. by destruct (String.ltb d d).
  - rewrite (or_truthy _ d Ha). unfold str_min. by rewrite E.
Qed.

Lemma str_max_idem (a d : string) :
  d ≠ "" → str_max (Py.or (str_max (Py.or a d) d) d) d = str_max (Py.or a d) d.
Proof.
  intros Hd. pose proof (or_nonempty a d Hd) as Ha.
  unfold str_max at 2 3. destruct (String.ltb (Py.or a d) d) eqn:E.
  - rewrite (or_truthy d d Hd). unfold str_max. by rewrite ltb_irrefl.
  - rewrite (or_truthy _ d Ha). unfold str_max. by rewrite E.
Qed.

Lemma dates_after_parse (cell date : string) :
  date ≠ "" → no_semicolon date →
  parse_dates (Py.join ";" (sorted (parse_dates cell ∪ {[ date ]})))
  = parse_dates cell ∪ {[ date ]}.
Proof.
  intros Hd Hs. apply parse_join_sorted.
  - intros He. assert (Hin : date ∈ parse_dates cell ∪ {[ date ]})
      by (apply elem_of_union; right; by apply elem_of_singleton).
    rewrite He in Hin. by apply not_elem_of_empty in Hin.
  - intros x [Hx | ->%elem_of_singleton]%elem_of_union.
    + by apply parse_dates_elem in Hx.
    + split; [by apply truthy_true | done].
Qed.

Lemma add_entry_idem (cell value : string) :
  no_semicolon value → add_entry (add_entry cell value) value = add_entry cell value.
Proof.
  intros Hs. unfold add_entry at 2. destruct (Py.truthy value) eqn:Hv.
  2:{ unfold add_entry. by rewrite Hv. }
  set (l := if bool_decide (value ∈ entries cell) then entries cell
            else (entries cell ++ [value])%list).
  assert (Hin : value ∈ l).
  { unfold l. case_bool_decide; [done |]. apply elem_of_app. right. left. }
  assert (Hl : entries (Py.join ";" l) = l).
  { apply entries_join. intros x Hx. unfold l in Hx.
    case_bool_decide.
    - by apply entries_elem in Hx.
    - apply elem_of_app in Hx as [Hx | ->%list_elem_of_singleton];
        [by apply entries_elem in Hx | done]. }
  unfold add_entry. rewrite Hv, Hl. by rewrite bool_decide_eq_true_2.
Qed.

Lemma guarded_idem (c : bool) (cand old : string) :
  c = Py.truthy cand →
  (if c && negb (Py.truthy (if c && negb (Py.truthy old) then cand else old))
   then cand else (if c && negb (Py.truthy old) then cand else old))
  = (if c && negb (Py.truthy old) then cand else old).
Proof.
  intros ->. destruct (Py.truthy cand) eqn:Hc, (Py.truthy old) eqn:Ho; simpl;
    rewrite ?Hc, ?Ho; done.
Qed.

(** Merging twice makes of a cell what merging once makes of it. *)
Lemma cell_after_idem site date o md5s ph k old :
  date ≠ "" → no_semicolon date →
  no_semicolon (attribution o).1 → no_semicolon (attribution o).2 →
  cell_after site date o md5s ph k (cell_after site date o md5s ph k old)
  = cell_after site date o md5s ph k old.
Proof.
  intros Hd Hs Hh Hdm. unfold cell_after.
  repeat case_decide; subst; try done.
  - apply or_idem.
  - by apply str_min_idem.
  - by apply str_max_idem.
  - by rewrite dates_after_parse, <- (assoc_L (∪)), (idemp_L (∪)).
  - destruct (Py.truthy old) eqn:Ho; [by rewrite Ho |].
    by destruct (Py.truthy (example_path o)).
  - by destruct (Py.opt_truthy (example_rel o)).
  - by destruct (Py.opt_truthy (example_rel o)).
  - by destruct (Py.truthy (attribution o).1).
  - by destruct (Py.truthy (attribution o).2).
  - by apply add_entry_idem.
  - by apply add_entry_idem.
  - by apply guarded_idem.
  - destruct (Py.opt_truthy (iframe_src o)); [|done]. by apply guarded_idem.
  - cbv zeta. by apply guarded_idem.
Qed.

Lemma merge_row_cell_again (row : Row) site date o md5s ph x y k :
  date ≠ "" → no_semicolon date →
  no_semicolon (attribution o).1 → no_semicolon (attribution o).2 →
  k ≠ "matches" →
  Row_get (merge_row (merge_row row site date o md5s ph y) site date o md5s ph x) k
  = Row_get (merge_row row site date o md5s ph y) k.
Proof.
  intros Hd Hs Hh Hdm Hk. destruct (decide (k = "days_seen")) as [->|Hdays].
  - rewrite !(merge_row_dates _ _ _ _ _ _ _ "days_seen") by decide_col.
    rewrite !merge_dates_days_seen. unfold dates_after.
    rewrite (merge_row_dates _ _ _ _ _ _ _ "seen_dates") by decide_col.
    rewrite merge_dates_seen_dates. unfold dates_after.
    by rewrite dates_after_parse, <- (assoc_L (∪)), (idemp_L (∪)).
  - rewrite (merge_row_cell (merge_row _ _ _ _ _ _ _)) by done.
    rewrite (merge_row_cell row) by done. by apply cell_after_idem.
Qed.

Lemma written_columns_are_ledger_columns :
  Forall (λ c, c ∈ LEDGER_FIELDS)
    ("site" :: "md5" :: "phash" :: "matches" :: "first_seen_date"
     :: "last_seen_date" :: "seen_dates" :: "days_seen" :: context_columns).
Proof. decide_col. Qed.

Lemma merge_row_foreign (row : Row) site date o md5s ph mtype k :
  k ∉ LEDGER_FIELDS → merge_row row site date o md5s ph mtype !! k = row !! k.
Proof.
  intros Hk.
  assert (Hne : ∀ c, c ∈ ("site" :: "md5" :: "phash" :: "matches"
                           :: "first_seen_date" :: "last_seen_date"
                           :: "seen_dates" :: "days_seen" :: context_columns) →
                     c ≠ k).
  { intros c Hc ->. apply Hk.
    exact (proj1 (Forall_forall _ _) written_columns_are_ledger_columns k Hc). }
  unfold merge_row. cbv zeta.
  rewrite !lookup_insert_ne by (apply Hne; decide_col).
  rewrite merge_context_other.
  2:{ intros Hin. apply (Hne k); [|done]. do 8 right. exact Hin. }
  rewrite merge_dates_other.
  2:{ intros Hin. apply (Hne k); [|done]. do 4 right.
      repeat (apply elem_of_cons in Hin as [-> | Hin]);
        [..|by apply elem_of_nil in Hin]; decide_col. }
  apply lookup_insert_ne. apply Hne. decide_col.
Qed.

Lemma row_ext_present (a b : Row) :
  present a → present b →
  (∀ k, k ∈ LEDGER_FIELDS → Row_get a k = Row_get b k) →
  (∀ k, k ∉ LEDGER_FIELDS → a !! k = b !! k) →
  a = b.
Proof.
  intros Ha Hb Hc Hf. apply map_eq. intros k.
  destruct (decide (k ∈ LEDGER_FIELDS)) as [Hk|Hk]; [|by apply Hf].
  destruct (Ha k Hk) as [va Hva], (Hb k Hk) as [vb Hvb].
  specialize (Hc k Hk). unfold Row_get in Hc.
  rewrite Hva, Hvb in Hc |- *. simpl in Hc. by rewrite Hc.
Qed.

(** A second merge of the same observation, filed as the first, changes
    nothing. *)
Lemma merge_row_fixed (row : Row) site date o md5s ph x :
  present row →
  date ≠ "" → no_semicolon date →
  no_semicolon (attribution o).1 → no_semicolon (attribution o).2 →
  merge_row (merge_row row site date o md5s ph x) site date o md5s ph x
  = merge_row row site date o md5s ph x.
Proof.
  intros Hp Hd Hs Hh Hdm.
  assert (Hp1 : present (merge_row row site date o md5s ph x))
    by (apply merge_row_mono; [apply present_insert | done]).
  apply row_ext_present; [|done| |].
  - apply merge_row_mono; [apply present_insert | done].
  - intros k _. destruct (decide (k = "matches")) as [->|Hk].
    + by rewrite !merge_row_matches.
    + by apply merge_row_cell_again.
  - intros k Hk. by rewrite merge_row_foreign.
Qed.

Lemma rows_set_id rs k (r : Row) : rows_get rs k = Some r → rows_set rs k r = rs.
Proof.
  induction rs as [|[k' r'] t IH]; simpl; [done |].
  case_decide as Hk.
  - intros [= ->]. by subst.
  - intros Hr. by rewrite IH.
Qed.

Lemma rows_set_set rs k (a b : Row) :
  rows_set (rows_set rs k a) k b = rows_set rs k b.
Proof.
  induction rs as [|[k' r'] t IH]; simpl.
  - by rewrite decide_True.
  - case_decide as Hk; simpl.
    + by rewrite decide_True.
    + by rewrite decide_False, IH.
Qed.

Lemma observe_again L1 img site o ph bid row0 mtype :
  let md5s := _md5_short img in
  let date := effective_date o in
  let r1 := merge_row row0 site date o md5s ph mtype in
  _phash_hex img = Some ph →
  _by_md5 L1 !! md5s = Some bid → _by_phash L1 !! ph = Some bid →
  rows_get (rows L1) bid = Some r1 → present r1 →
  date ≠ "" → no_semicolon date →
  no_semicolon (attribution o).1 → no_semicolon (attribution o).2 →
  ∃ L2,
    observe_image L1 img site o = (L2, Return (bid, "exact"))
    ∧ observe_image L2 img site o = (L2, Return (bid, "exact"))
    ∧ (∀ b k, k ≠ "matches" → ledger_cell L2 b k = ledger_cell L1 b k)
    ∧ (rows L2).*1 = (rows L1).*1
    ∧ _by_md5 L2 = _by_md5 L1 ∧ _by_phash L2 = _by_phash L1.
Proof.
  intros md5s date r1 Hph Hm1 Hp1 Hr1 Hpres Hd Hs Hh Hdm.
  pose (r2 := merge_row r1 site date o md5s ph "exact").
  pose (L2 := {| rows := rows_set (rows L1) bid r2;
                 _by_md5 := <[md5s := bid]> (_by_md5 L1);
                 _by_phash := <[ph := bid]> (_by_phash L1) |}).
  assert (Hr2 : rows_get (rows L2) bid = Some r2) by apply rows_get_set_eq.
  assert (Hm2 : _by_md5 L2 !! md5s = Some bid) by apply lookup_insert_eq.
  exists L2. split; [|split; [|split; [|split; [|split]]]].
  - exact (observe_image_exact L1 img site o ph bid r1 Hph Hm1 Hr1).
  - rewrite (observe_image_exact L2 img site o ph bid r2 Hph Hm2 Hr2).
    fold md5s date. unfold r2 at 1.
    rewrite (merge_row_fixed r1 site date o md5s ph "exact" Hpres Hd Hs Hh Hdm).
    fold r2. rewrite (rows_set_id _ _ _ Hr2).
    unfold L2 at 2 3. cbn [_by_md5 _by_phash]. rewrite !insert_insert_eq.
    reflexivity.
  - intros b k Hk. unfold ledger_cell, L2. cbn [rows].
    rewrite rows_get_set. case_decide as Hb; [|reflexivity]. subst b.
    rewrite Hr1. cbn [fmap option_fmap option_map]. apply (f_equal Some).
    exact (merge_row_cell_again row0 site date o md5s ph "exact" mtype k
             Hd Hs Hh Hdm Hk).
  - unfold L2. cbn [rows]. apply rows_set_keys_in. apply rows_get_keys.
    by exists r1.
  - unfold L2. cbn [_by_md5]. by apply insert_id.
  - unfold L2. cbn [_by_phash]. by apply insert_id.
Qed.

(** X23.  On a ledger the constructor returned, after any run of
    observations: when an observation that is given its date (a non-empty
    [seen_date], so that no call falls back on the clock), and whose date
    and resolved advertiser hold no semicolon, is made a second time, it
    is an exact match to the same record and changes no cell but
    [matches]; made a third time, it changes nothing at all. *)
Theorem repeated_observation_changes_nothing file L obs img site o L1 bid mtype :
  __init__ file = Return L →
  observe_image (observe_all L obs) img site o = (L1, Return (bid, mtype)) →
  Py.opt_truthy (seen_date o) = true → no_semicolon (effective_date o) →
  no_semicolon (attribution o).1 → no_semicolon (attribution o).2 →
  ∃ L2,
    observe_image L1 img site o = (L2, Return (bid, "exact"))
    ∧ observe_image L2 img site o = (L2, Return (bid, "exact"))
    ∧ (∀ b k, k ≠ "matches" → ledger_cell L2 b k = ledger_cell L1 b k)
    ∧ (rows L2).*1 = (rows L1).*1
    ∧ _by_md5 L2 = _by_md5 L1 ∧ _by_phash L2 = _by_phash L1.
Proof.
  intros Hinit Ho Hgiven Hs Hh Hdm.
  assert (Hd : effective_date o ≠ "").
  { unfold effective_date. destruct (seen_date o) as [d|]; [|discriminate Hgiven].
    cbn [Py.opt_truthy Py.opt_or] in *. unfold Py.or. rewrite Hgiven.
    by apply truthy_true. }
  assert (Hall : Forall (λ it, present it.2) (rows L1)).
  { pose proof (observe_image_present (observe_all L obs) img site o) as Hp.
    rewrite Ho in Hp. apply Hp.
    - by eapply observe_all_sound, init_sound.
    - apply observe_all_present; [by eapply init_sound | by eapply init_present]. }
  apply observe_image_inv in Ho as (ph & rows1 & row0 & Hph & _ & _ & HL1).
  assert (Hr1 : rows_get (rows L1) bid
                = Some (merge_row row0 site (effective_date o) o
                          (_md5_short img) ph mtype)).
  { rewrite HL1. cbn [rows]. apply rows_get_set_eq. }
  apply (observe_again L1 img site o ph bid row0 mtype Hph); try assumption.
  - rewrite HL1. cbn [_by_md5]. apply lookup_insert_eq.
  - rewrite HL1. cbn [_by_phash]. apply lookup_insert_eq.
  - apply rows_get_elem in Hr1.
    exact (proj1 (Forall_forall _ _) Hall (bid, _) Hr1).
Qed.

End RepeatFacts.

(** * Saving again *)

Section SaveAgain.

Lemma backfill_present (row : Row) : present row → backfill row = row.
Proof.
  unfold present, backfill. generalize LEDGER_FIELDS. intros ks.
  induction ks as [|k ks IH]; intros Hall; simpl; [done |].
  rewrite setdefault_present by (apply Hall; left).
  apply IH. intros k' Hk'. apply Hall. by right.
Qed.

Lemma save_rows_fields rs written :
  Forall (λ it : string * Row, dom it.2 = list_to_set LEDGER_FIELDS) rs →
  save_rows rs written = (rs, (written ++ rs.*2)%list, Return ()).
Proof.
  intros Hall. revert written.
  induction Hall as [|[k row] t Hrow _ IH]; intros written.
  - simpl. by rewrite app_nil_r.
  - cbn [fst snd] in Hrow. cbn [save_rows].
    rewrite backfill_present.
    2:{ intros c Hc. apply elem_of_dom. rewrite Hrow.
        by apply elem_of_list_to_set. }
    rewrite bool_decide_eq_true_2 by (rewrite Hrow; reflexivity).
    rewrite IH. cbn [fmap list_fmap snd]. by rewrite <- app_assoc.
Qed.

(** X24.  [save] is idempotent: when it returns, a second [save] right
    after it writes the same file and leaves the ledger as the first left
    it. *)
Theorem save_twice L L1 file :
  save L = (L1, file, Return ()) → save L1 = (L1, file, Return ()).
Proof.
  unfold save at 1.
  destruct (save_rows (rows L) []) as [[rs w] out] eqn:Hs.
  intros [= <- <- ->].
  destruct (save_rows_returns _ _ _ _ Hs) as (_ & Hw & Hall).
  unfold save. cbn [rows _by_md5 _by_phash].
  rewrite (save_rows_fields rs [] Hall). by rewrite Hw.
Qed.

End SaveAgain.

(** * The further properties on concrete runs *)

Section CaseRuns.
Import Lab Cases.
Local Existing Instance lab.

Lemma run_returns L img site o r :
  (observe_image L img site o).2 = Return r →
  observe_image L img site o = ((observe_image L img site o).1, Return r).
Proof.
  destruct (observe_image L img site o) as [L' out]. cbn [fst snd].
  by intros ->.
Qed.

Lemma seen_A_run :
  observe_image empty_ledger (image "A-one") "s1" (plain "2024-01-01")
  = (seen_A, Return ("bn_A-one", "new")).
Proof. apply run_returns. by vm_compute. Qed.

Lemma seen_A_clicked_run :
  observe_image seen_A (image "C-two") "s1" clicked
  = (seen_A_clicked, Return ("bn_A-one", "near")).
Proof. apply run_returns. by vm_compute. Qed.

Lemma seen_A_has : is_Some (rows_get (rows seen_A) "bn_A-one").
Proof. decide_col. Qed.

Lemma seen_AC_has : is_Some (rows_get (rows seen_AC) "bn_A-one").
Proof. decide_col. Qed.

Lemma seen_A_clicked_has : is_Some (rows_get (rows seen_A_clicked) "bn_A-one").
Proof. decide_col. Qed.

Lemma add_unique_appends_once_witness :
  entries (Row_get (_add_unique {[ "advertiser_hosts_all" := "a.mn" ]}
                      "advertiser_hosts_all" "b.mn") "advertiser_hosts_all")
  = (if decide ("b.mn" ∈ entries (Row_get {[ "advertiser_hosts_all" := "a.mn" ]}
                                    "advertiser_hosts_all"))
     then entries (Row_get {[ "advertiser_hosts_all" := "a.mn" ]}
                     "advertiser_hosts_all")
     else (entries (Row_get {[ "advertiser_hosts_all" := "a.mn" ]}
                      "advertiser_hosts_all") ++ ["b.mn"])%list)
  ∧ _add_unique (_add_unique {[ "advertiser_hosts_all" := "a.mn" ]}
                   "advertiser_hosts_all" "b.mn") "advertiser_hosts_all" "b.mn"
    = _add_unique {[ "advertiser_hosts_all" := "a.mn" ]}
        "advertiser_hosts_all" "b.mn".
Proof. apply add_unique_appends_once; [discriminate | reflexivity]. Defined.

Lemma observe_image_touches_one_record_witness :
  (∀ b, b ≠ "bn_A-one" → rows_get (rows seen_AC) b = rows_get (rows seen_A) b)
  ∧ _by_md5 seen_AC !! _md5_short (image "C-two") = Some "bn_A-one".
Proof.
  destruct (observe_image_touches_one_record _ _ _ _ _ _ _ seen_AC_run)
    as (ph & row' & _ & _ & _ & _ & _ & Hmd5 & _ & Hother & _).
  split; [exact Hother | exact Hmd5].
Defined.

Lemma observe_image_keeps_order_witness :
  (rows seen_AC).*1
  = if decide ("bn_A-one" ∈ (rows seen_A).*1) then (rows seen_A).*1
    else ((rows seen_A).*1 ++ ["bn_A-one"])%list.
Proof. exact (observe_image_keeps_order _ _ _ _ _ _ _ seen_AC_run). Defined.

Lemma seen_dates_bracket_the_observation_witness :
  ∃ row', rows_get (rows seen_AC) "bn_A-one" = Some row'
    ∧ String.le (Row_get row' "first_seen_date") "2024-01-02"
    ∧ String.le "2024-01-02" (Row_get row' "last_seen_date").
Proof.
  destruct seen_AC_has as [row' Hrow']. exists row'. split; [exact Hrow' |].
  destruct (seen_dates_bracket_the_observation _ _ _ _ _ _ _ _
              seen_AC_run Hrow') as (Hfirst & Hlast & _).
  split; [exact Hfirst | exact Hlast].
Defined.

Lemma seen_dates_gain_the_observation_witness :
  ∃ row row',
    rows_get (rows seen_A) "bn_A-one" = Some row
    ∧ rows_get (rows seen_AC) "bn_A-one" = Some row'
    ∧ parse_dates (Row_get row' "seen_dates")
      = parse_dates (Row_get row "seen_dates") ∪ {[ "2024-01-02" ]}.
Proof.
  destruct seen_A_has as [row Hrow]. destruct seen_AC_has as [row' Hrow'].
  exists row, row'. split; [exact Hrow |]. split; [exact Hrow' |].
  apply (seen_dates_gain_the_observation _ _ _ _ _ _ _ _ _
           seen_AC_run); [discriminate | exact Hrow | exact Hrow'
                          | discriminate | reflexivity].
Defined.

Lemma filled_cells_are_kept_witness :
  ∃ row row',
    rows_get (rows seen_A) "bn_A-one" = Some row
    ∧ rows_get (rows seen_AC) "bn_A-one" = Some row'
    ∧ row' !! "banner_id" = row !! "banner_id".
Proof.
  destruct seen_A_has as [row Hrow]. destruct seen_AC_has as [row' Hrow'].
  exists row, row'. split; [exact Hrow |]. split; [exact Hrow' |].
  refine (proj1 (filled_cells_are_kept _ _ _ _ _ _ _ _ _
                   seen_AC_run _ Hrow Hrow')).
  discriminate.
Defined.

Lemma attribution_is_merged_witness :
  ∃ row row',
    rows_get (rows seen_A) "bn_A-one" = Some row
    ∧ rows_get (rows seen_A_clicked) "bn_A-one" = Some row'
    ∧ merged_attribution (attribution clicked).1
        (Row_get row "advertiser_host") (Row_get row "advertiser_hosts_all")
        (Row_get row' "advertiser_host") (Row_get row' "advertiser_hosts_all").
Proof.
  destruct seen_A_has as [row Hrow].
  destruct seen_A_clicked_has as [row' Hrow'].
  exists row, row'. split; [exact Hrow |]. split; [exact Hrow' |].
  refine (proj1 (attribution_is_merged _ _ _ _ _ _ _ _ _
                   seen_A_clicked_run _ Hrow Hrow')).
  discriminate.
Defined.

Lemma new_record_starts_with_one_day_witness :
  ∃ row',
    rows_get (rows seen_A) "bn_A-one" = Some row'
    ∧ Row_get row' "seen_dates" = "2024-01-01"
    ∧ Row_get row' "days_seen" = "1".
Proof.
  destruct (new_record_starts_with_one_day _ _ _ _ _ _ seen_A_run)
    as (row' & Hrow' & _ & _ & _ & _ & _ & Hdates & Hdays & _);
    [discriminate | reflexivity |].
  exists row'. split; [exact Hrow' |]. split; [exact Hdates | exact Hdays].
Defined.

Lemma odd_run_raises :
  observe_image odd_seen (image ">-far") "s1" (plain "2024-01-02")
  = (odd_seen, Raise HashError).
Proof.
  rewrite (surjective_pairing (observe_image odd_seen _ _ _)).
  apply (f_equal2 pair); by vm_compute.
Qed.

Lemma observe_image_raises_only_on_hashing_witness :
  __init__ odd_file = Return (foldl load_row empty_ledger [twin_a; odd_row])
  ∧ (observe_image odd_seen (image "aaaaaaaaaa") "s1" (plain "2024-01-02")).2
    = Return ("bn_a", "exact")
  ∧ observe_image odd_seen (image ">-far") "s1" (plain "2024-01-02")
    = (odd_seen, Raise HashError)
  ∧ ∃ ph, _phash_hex (image ">-far") = Some ph
       ∧ _by_md5 odd_seen !! _md5_short (image ">-far") = None
       ∧ _by_phash odd_seen !! ph = None
       ∧ ∃ it, it ∈ rows odd_seen ∧ hashed it ∧ dist_to ph it = None.
Proof.
  split; [reflexivity |]. split; [by vm_compute |].
  split; [exact odd_run_raises |].
  destruct (observe_image_raises_only_on_hashing odd_file
              (foldl load_row empty_ledger [twin_a; odd_row])
              [(image "aaaaaaaaaa", "s1", plain "2024-01-01")]
              (image ">-far") "s1" (plain "2024-01-02") odd_seen HashError
              eq_refl odd_run_raises)
    as [_ [[Hd _] | [_ Hscan]]]; [discriminate Hd | exact Hscan].
Defined.


Lemma last_row_of_an_id_wins_witness :
  rows_get (rows (foldl load_row empty_ledger [twin_a; twin_a; twin_b]))
    (Row_get twin_a "banner_id")
  = Some (backfill twin_a).
Proof.
  apply (last_row_of_an_id_wins [twin_a] twin_a [twin_b] _ eq_refl).
  - discriminate.
  - intros x ->%list_elem_of_singleton. discriminate.
Defined.

Lemma save_writes_the_records_witness :
  Table (rows seen_AC).*2 = Table (rows seen_AC).*2
  ∧ rows seen_AC = (λ it, (it.1, backfill it.2)) <$> rows seen_AC.
Proof.
  destruct (save_writes_the_records seen_AC seen_AC _
              (save_filed _ seen_AC_filed)) as (Hfile & Hrows & _).
  split; [exact Hfile | exact Hrows].
Defined.

Lemma noted_has_a_foreign_column :
  ¬ dom noted ⊆ list_to_set LEDGER_FIELDS.
Proof. decide_col. Qed.

Lemma twin_a_has_ledger_columns :
  Forall (λ it : string * Row, dom it.2 ⊆ list_to_set LEDGER_FIELDS)
    [("bn_a", twin_a)].
Proof. decide_col. Qed.

Lemma save_stops_at_a_foreign_column_witness :
  save noted_ledger
  = ({| rows := [("bn_a", backfill twin_a); ("bn_x", backfill noted)];
        _by_md5 := ∅; _by_phash := ∅ |},
     Table [backfill twin_a],
     Raise ValueError).
Proof.
  exact (save_stops_at_a_foreign_column noted_ledger [("bn_a", twin_a)]
           "bn_x" noted [] eq_refl twin_a_has_ledger_columns
           noted_has_a_foreign_column).
Defined.

Lemma observed_record_has_every_column_witness :
  is_Some (rows_get (rows seen_A) "bn_A-one") ∧ columns_present seen_A.
Proof.
  exact (observed_record_has_every_column Missing empty_ledger []
           (image "A-one") "s1" (plain "2024-01-01") seen_A "bn_A-one" "new"
           eq_refl seen_A_run).
Defined.

Lemma etld1_naive_is_idempotent_witness :
  _etld1_from_host "www.shop.example" = Ikon._etld1_naive "www.shop.example".
Proof.
  exact (proj2 (proj2 (etld1_naive_is_idempotent "www.shop.example")) eq_refl).
Defined.

Lemma host_from_hint_cases_witness :
  _host_from_hint (Some " HTTPS://Shop.Example/x ")
  = _host_from_url (Some "https://shop.example/x").
Proof.
  apply (proj1 (proj2 (host_from_hint_cases " HTTPS://Shop.Example/x "
                         eq_refl)));
    [reflexivity | discriminate].
Defined.

Lemma gogo_choice_is_recorded_witness :
  _choose_advertiser
    (Some (Gogo._choose_advertiser_host "https://Shop.Example/x"
             "https://gogo.mn/"))
    (Some "https://Shop.Example/x") (Some "https://gogo.mn/")
  = (Gogo._choose_advertiser_host "https://Shop.Example/x" "https://gogo.mn/",
     _etld1_from_host
       (Gogo._choose_advertiser_host "https://Shop.Example/x"
          "https://gogo.mn/")).
Proof.
  apply (gogo_choice_is_recorded "https://Shop.Example/x" "https://gogo.mn/");
    by vm_compute.
Defined.

Lemma social_hosts_reach_the_ledger_witness :
  Gogo._choose_advertiser_host "https://www.facebook.com/brand"
    "https://gogo.mn/news" = ""
  ∧ _choose_advertiser (Some "") (Some "https://www.facebook.com/brand")
      (Some "https://gogo.mn/news")
    = (Gogo._host "https://www.facebook.com/brand",
       _etld1_from_host (Gogo._host "https://www.facebook.com/brand")).
Proof.
  apply (social_hosts_reach_the_ledger "https://www.facebook.com/brand"
           "https://gogo.mn/news").
  - decide_col.
  - by vm_compute.
  - discriminate.
Defined.

Lemma public_links_agree_witness :
  @Shipping._public_url_from_rel lab_public "2024-01-01/a.png"
  = @_public_url_from_rel lab_public "2024-01-01/a.png".
Proof.
  apply (@public_links_agree lab_public "2024-01-01/a.png"); reflexivity.
Defined.

Lemma repeated_observation_changes_nothing_witness :
  ∃ L2,
    observe_image seen_A (image "A-one") "s1" (plain "2024-01-01")
    = (L2, Return ("bn_A-one", "exact"))
    ∧ observe_image L2 (image "A-one") "s1" (plain "2024-01-01")
      = (L2, Return ("bn_A-one", "exact"))
    ∧ (∀ b k, k ≠ "matches" → ledger_cell L2 b k = ledger_cell seen_A b k)
    ∧ (rows L2).*1 = (rows seen_A).*1
    ∧ _by_md5 L2 = _by_md5 seen_A ∧ _by_phash L2 = _by_phash seen_A.
Proof.
  apply (repeated_observation_changes_nothing Missing empty_ledger []
           (image "A-one") "s1" (plain "2024-01-01") seen_A "bn_A-one" "new"
           eq_refl seen_A_run); reflexivity.
Defined.

Lemma save_twice_witness :
  save seen_AC = (seen_AC, Table (rows seen_AC).*2, Return ()).
Proof.
  exact (save_twice seen_AC seen_AC _ (save_filed _ seen_AC_filed)).
Defined.

End CaseRuns.
